(** * Parameter management of [pde.tools.parameters]

    A shallow embedding of the module [pde/tools/parameters.py]: the
    descriptor class [Parameter] (with [DeprecatedParameter] and
    [HideParameter]), the mixin [Parameterized] with its class-level
    resolution [get_parameters] and binding [_parse_parameters], and the
    registry query [get_all_parameters].

    Descriptor objects live in a store and are referred to by reference,
    because resolution assigns to [hidden] on objects that the declaring
    classes share with every descendant. *)

From Stdlib Require Import ZArith String Ascii List Bool Lia DecimalString Sorted.
From stdpp Require Import base list strings gmap.
Import ListNotations.

Local Open Scope string_scope.
Local Open Scope Z_scope.
Local Open Scope list_scope.

(** ** Python values and exceptions *)

(** The fragment of Python values that parameters take here: [None],
    booleans, integers, text and lists of these. Text is a byte string;
    the built-ins below are exact on ASCII text. *)
#[warnings="-register-all"]
Inductive pyvalue : Type :=
| VNone
| VBool (b : bool)
| VInt (z : Z)
| VStr (s : string)
| VList (l : list pyvalue).

Inductive exn_kind : Type :=
| ValueError
| TypeError
| KeyError
| AttributeError
| SystemError.

(** An exception instance: its class and its [args] tuple. *)
Record exn : Type := Exception { exn_class : exn_kind; exn_args : list pyvalue }.

Inductive result (A : Type) : Type :=
| Ok (a : A)
| Raise (e : exn).
Arguments Ok {A} a.
Arguments Raise {A} e.

Definition type_name (v : pyvalue) : string :=
  match v with
  | VNone => "NoneType"
  | VBool _ => "bool"
  | VInt _ => "int"
  | VStr _ => "str"
  | VList _ => "list"
  end.

(** [a == b] on values: numbers compare by value across [bool] and [int],
    lists element by element. *)
Fixpoint py_eq (a b : pyvalue) : bool :=
  match a, b with
  | VNone, VNone => true
  | VBool x, VBool y => Bool.eqb x y
  | VBool x, VInt y => Z.eqb (Z.b2z x) y
  | VInt x, VBool y => Z.eqb x (Z.b2z y)
  | VInt x, VInt y => Z.eqb x y
  | VStr x, VStr y => String.eqb x y
  | VList x, VList y =>
      (fix all2 (l1 l2 : list pyvalue) {struct l1} : bool :=
         match l1, l2 with
         | [], [] => true
         | u :: l1', w :: l2' => py_eq u w && all2 l1' l2'
         | _, _ => false
         end) x y
  | _, _ => false
  end.

Definition py_ne (a b : pyvalue) : bool := negb (py_eq a b).

(** *** [repr] and [str] *)

Definition dquote : ascii := ascii_of_nat 34.
Definition squote : ascii := ascii_of_nat 39.
Definition backslash : ascii := ascii_of_nat 92.

Definition hex_digit (n : nat) : ascii :=
  ascii_of_nat (if Nat.ltb n 10 then 48 + n else 87 + n)%nat.

Fixpoint str_contains (c : ascii) (s : string) : bool :=
  match s with
  | EmptyString => false
  | String x s' => Ascii.eqb x c || str_contains c s'
  end.

Definition repr_char (quote c : ascii) : string :=
  let n := nat_of_ascii c in
  if Ascii.eqb c quote || Ascii.eqb c backslash then String backslash (String c EmptyString)
  else if Nat.eqb n 9 then String backslash "t"
  else if Nat.eqb n 10 then String backslash "n"
  else if Nat.eqb n 13 then String backslash "r"
  else if Nat.ltb n 32 || Nat.eqb n 127 then
    String backslash (String "x" (String (hex_digit (n / 16)) (String (hex_digit (n mod 16)) EmptyString)))
  else String c EmptyString.

Fixpoint repr_chars (quote : ascii) (s : string) : string :=
  match s with
  | EmptyString => EmptyString
  | String c s' => repr_char quote c +:+ repr_chars quote s'
  end.

Definition repr_str (s : string) : string :=
  let quote := if str_contains squote s && negb (str_contains dquote s) then dquote else squote in
  String quote (repr_chars quote s +:+ String quote EmptyString).

Definition str_of_Z (z : Z) : string := NilZero.string_of_int (Z.to_int z).

Fixpoint py_repr (v : pyvalue) : string :=
  match v with
  | VNone => "None"
  | VBool true => "True"
  | VBool false => "False"
  | VInt z => str_of_Z z
  | VStr s => repr_str s
  | VList l =>
      "[" +:+ (fix items (l : list pyvalue) : string :=
                match l with
                | [] => ""
                | [x] => py_repr x
                | x :: l' => py_repr x +:+ ", " +:+ items l'
                end) l +:+ "]"
  end.

Definition py_str (v : pyvalue) : string :=
  match v with
  | VStr s => s
  | _ => py_repr v
  end.

(** *** [int(text)] *)

Definition is_space (c : ascii) : bool :=
  let n := nat_of_ascii c in
  (Nat.leb 9 n && Nat.leb n 13) || (Nat.leb 28 n && Nat.leb n 32).

Fixpoint lstrip (s : list ascii) : list ascii :=
  match s with
  | c :: s' => if is_space c then lstrip s' else s
  | [] => []
  end.

Definition strip (s : list ascii) : list ascii := rev (lstrip (rev (lstrip s))).

Definition digit_of (c : ascii) : option Z :=
  let n := nat_of_ascii c in
  if Nat.leb 48 n && Nat.leb n 57 then Some (Z.of_nat (n - 48)) else None.

Definition underscore : ascii := ascii_of_nat 95.

(** Digits with single underscores between them; [prev] tells whether the
    previous character was a digit. *)
Fixpoint parse_digits (acc : Z) (prev : bool) (s : list ascii) : option Z :=
  match s with
  | [] => if prev then Some acc else None
  | c :: s' =>
      match digit_of c with
      | Some d => parse_digits (10 * acc + d) true s'
      | None => if Ascii.eqb c underscore && prev then parse_digits acc false s' else None
      end
  end.

Definition parse_int (s : string) : option Z :=
  match strip (list_ascii_of_string s) with
  | c :: s' =>
      if Ascii.eqb c (ascii_of_nat 45) then Z.opp <$> parse_digits 0 false s'
      else if Ascii.eqb c (ascii_of_nat 43) then parse_digits 0 false s'
      else parse_digits 0 false (c :: s')
  | [] => None
  end.

(** ** Types used as converters *)

(** The [cls] argument of a descriptor: [object] (no conversion), the
    built-ins [int] and [str], or any other callable with a [__name__]. *)
Inductive pytype : Type :=
| cls_object
| cls_int
| cls_str
| cls_callable (name : string) (call : pyvalue -> result pyvalue).

Definition __name__ (c : pytype) : string :=
  match c with
  | cls_object => "object"
  | cls_int => "int"
  | cls_str => "str"
  | cls_callable n _ => n
  end.

Definition is_object (c : pytype) : bool :=
  match c with cls_object => true | _ => false end.

Definition int_call (v : pyvalue) : result pyvalue :=
  match v with
  | VInt z => Ok (VInt z)
  | VBool b => Ok (VInt (Z.b2z b))
  | VStr s =>
      match parse_int s with
      | Some z => Ok (VInt z)
      | None =>
          Raise (Exception ValueError
                   [VStr ("invalid literal for int() with base 10: " +:+ repr_str s)])
      end
  | _ =>
      Raise (Exception TypeError
               [VStr ("int() argument must be a string, a bytes-like object or a real number, not '"
                      +:+ type_name v +:+ "'")])
  end.

(** [cls(value)]. *)
Definition call (c : pytype) (v : pyvalue) : result pyvalue :=
  match c with
  | cls_object => Raise (Exception TypeError [VStr "object() takes no arguments"])
  | cls_int => int_call v
  | cls_str => Ok (VStr (py_str v))
  | cls_callable _ f => f v
  end.

(** ** Dictionaries

    A Python [dict] with text keys: entries in insertion order, one entry
    per key. *)

Abbreviation dict V := (list (string * V)) (only parsing).

Definition dict_keys {V} (d : dict V) : list string := map fst d.

(** [d.get(k)] *)
Fixpoint dict_get {V} (k : string) (d : dict V) : option V :=
  match d with
  | [] => None
  | (k', v) :: d' => if String.eqb k' k then Some v else dict_get k d'
  end.

(** [d[k] = v]: an existing key keeps its position. *)
Fixpoint dict_set {V} (k : string) (v : V) (d : dict V) : dict V :=
  match d with
  | [] => [(k, v)]
  | (k', v') :: d' => if String.eqb k' k then (k, v) :: d' else (k', v') :: dict_set k v d'
  end.

Fixpoint dict_remove {V} (k : string) (d : dict V) : dict V :=
  match d with
  | [] => []
  | (k', v) :: d' => if String.eqb k' k then dict_remove k d' else (k', v) :: dict_remove k d'
  end.

(** [del d[k]]: [None] stands for the [KeyError]. *)
Definition dict_del {V} (k : string) (d : dict V) : option (dict V) :=
  match dict_get k d with
  | Some _ => Some (dict_remove k d)
  | None => None
  end.

(** [d.pop(k, default)] *)
Definition dict_pop {V} (k : string) (default : V) (d : dict V) : V * dict V :=
  match dict_get k d with
  | Some v => (v, dict_remove k d)
  | None => (default, d)
  end.

(** [d.update(other)] *)
Definition dict_update {V} (d other : dict V) : dict V :=
  fold_left (fun acc e => dict_set (fst e) (snd e) acc) other d.

Fixpoint sorted_insert {V} (e : string * V) (d : dict V) : dict V :=
  match d with
  | [] => [e]
  | e' :: d' => if String.leb (fst e) (fst e') then e :: e' :: d' else e' :: sorted_insert e d'
  end.

(** [sorted(d.items())]: by key, text compared character by character. *)
Fixpoint dict_sorted {V} (d : dict V) : dict V :=
  match d with
  | [] => []
  | e :: d' => sorted_insert e (dict_sorted d')
  end.

(** [sorted(d.keys())] as the Python list it is formatted from. *)
Definition sorted_keys {V} (d : dict V) : pyvalue :=
  VList (map VStr (dict_keys (dict_sorted d))).

(** ** Descriptors *)

(** The class of a descriptor object: [isinstance(p, DeprecatedParameter)]
    reads it. *)
Inductive descriptor_class : Type :=
| class_Parameter
| class_DeprecatedParameter.

(** The class [Parameter]; the module is called [Parameter_] because
    [Parameter] is a keyword here. [DeprecatedParameter] inherits all of
    it and differs in [__class__] only. *)
Module Parameter_.

Record t : Type := Build {
  __class__ : descriptor_class;
  name : string;
  default_value : pyvalue;
  cls : pytype;
  description : string;
  hidden : bool
}.

(** The body of [Parameter.__init__]: the initialised object and the
    warnings it logs, or the exception that leaves it. *)
Definition __init__ (k : descriptor_class) (name : string) (default_value : pyvalue)
    (cls : pytype) (description : string) (hidden : bool) : result (t * list string) :=
  let self := Build k name default_value cls description hidden in
  if is_object cls then Ok (self, [])
  else
    match call cls default_value with
    | Raise e => Raise e
    | Ok v =>
        if py_ne v default_value
        then Ok (self, ["Default value `" +:+ name +:+ "` does not seem to be of type `"
                        +:+ __name__ cls +:+ "`"])
        else Ok (self, [])
    end.

(** The value [convert] works on: [None] selects the default. *)
Definition effective (self : t) (value : pyvalue) : pyvalue :=
  match value with
  | VNone => default_value self
  | _ => value
  end.

Definition conversion_error (self : t) (value : pyvalue) : exn :=
  Exception ValueError
    [VStr ("Could not convert " +:+ py_repr value +:+ " to " +:+ __name__ (cls self)
           +:+ " for parameter '" +:+ name self +:+ "'")].

Definition convert (self : t) (value : pyvalue) : result pyvalue :=
  let value := effective self value in
  if is_object (cls self) then Ok value
  else
    match call (cls self) value with
    | Ok v => Ok v
    | Raise e =>
        match exn_class e with
        | ValueError => Raise (conversion_error self value)
        | _ => Raise e
        end
    end.

Definition mark_hidden (self : t) : t :=
  Build (__class__ self) (name self) (default_value self) (cls self) (description self) true.

Definition is_deprecated (self : t) : bool :=
  match __class__ self with
  | class_DeprecatedParameter => true
  | class_Parameter => false
  end.

End Parameter_.

(** ** Classes, the object store and the effect monad *)

Abbreviation ref := nat (only parsing).
Abbreviation classid := nat (only parsing).

(** An entry of a [parameters_default] list: a descriptor object, by
    reference, or a [HideParameter]. *)
Inductive declaration : Type :=
| Declared (p : ref)
| HideParameter (name : string).

(** The [parameters_default] attribute: a list, or a plain dict of
    defaults before [__init_subclass__] has normalised it. *)
Inductive attribute : Type :=
| PDList (l : list declaration)
| PDDict (d : dict pyvalue).

Record pyclass : Type := Class {
  class_name : string;
  __mro__ : list classid;
  own_parameters_default : option attribute
}.

Record world : Type := World {
  heap : list Parameter_.t;
  classes : list pyclass;
  _subclasses : dict classid;
  warnings : list string
}.

(** Computations read and write the world and may raise; what was written
    before an exception stays written. *)
Definition M (A : Type) : Type := world -> world * result A.

Definition ret {A} (a : A) : M A := fun w => (w, Ok a).

Definition raise {A} (e : exn) : M A := fun w => (w, Raise e).

Definition bind {A B} (m : M A) (f : A -> M B) : M B :=
  fun w =>
    match m w with
    | (w', Ok a) => f a w'
    | (w', Raise e) => (w', Raise e)
    end.

Definition lift {A} (r : result A) : M A := fun w => (w, r).

Declare Scope py_scope.
Delimit Scope py_scope with py.
Notation "'let*' x ':=' c 'in' k" := (bind c (fun x => k))
  (at level 10, x pattern, c at level 100, k at level 200) : py_scope.
Local Open Scope py_scope.

(** [for x in l: acc = f(acc, x)] *)
Fixpoint for_each {A B} (f : B -> A -> M B) (l : list A) (acc : B) : M B :=
  match l with
  | [] => ret acc
  | x :: l' => let* acc' := f acc x in for_each f l' acc'
  end.

Definition stuck {A} (what : string) : M A := raise (Exception SystemError [VStr what]).

Definition deref (r : ref) : M Parameter_.t :=
  fun w =>
    match heap w !! r with
    | Some o => (w, Ok o)
    | None => stuck "dangling reference" w
    end.

(** [p.hidden = True] on the object behind [r]. *)
Definition set_hidden (r : ref) : M unit :=
  fun w => (World (alter Parameter_.mark_hidden r (heap w)) (classes w) (_subclasses w) (warnings w),
            Ok tt).

Definition alloc (o : Parameter_.t) : M ref :=
  fun w => (World (heap w ++ [o]) (classes w) (_subclasses w) (warnings w), Ok (length (heap w))).

Definition log_warnings (msgs : list string) : M unit :=
  fun w => (World (heap w) (classes w) (_subclasses w) (warnings w ++ msgs), Ok tt).

(** The call [Parameter(...)] or [DeprecatedParameter(...)]. *)
Definition new_descriptor (k : descriptor_class) (name : string) (default_value : pyvalue)
    (cls : pytype) (description : string) (hidden : bool) : M ref :=
  let* (self, msgs) := lift (Parameter_.__init__ k name default_value cls description hidden) in
  let* _ := log_warnings msgs in
  alloc self.

Definition get_class (c : classid) : M pyclass :=
  fun w =>
    match classes w !! c with
    | Some k => (w, Ok k)
    | None => stuck "no such class" w
    end.

(** Attribute lookup along a method resolution order. *)
Fixpoint find_parameters_default (cs : list pyclass) (mro : list classid) : option attribute :=
  match mro with
  | [] => None
  | c :: mro' =>
      match cs !! c ≫= own_parameters_default with
      | Some a => Some a
      | None => find_parameters_default cs mro'
      end
  end.

(** [getattr(cls, 'parameters_default')], [None] when [hasattr] is false. *)
Definition parameters_default (cs : list pyclass) (c : classid) : option attribute :=
  k ← cs !! c; find_parameters_default cs (__mro__ k).

(** ** The mixin [Parameterized] *)

(** An instance of a class of the hierarchy, with the two attributes
    [Parameterized.__init__] sets; [None] is an attribute not yet set. *)
Record instance : Type := Object {
  instance_class : classid;
  _logger : option string;
  parameters : option (dict pyvalue)
}.

Module Parameterized.

(** The body of the inner loop of [get_parameters], for one entry [p]
    of a [parameters_default] list. *)
Definition merge_declaration (include_hidden include_deprecated : bool)
    (parameters : dict ref) (p : declaration) : M (dict ref) :=
  match p with
  | HideParameter name =>
      if include_hidden then
        match dict_get name parameters with
        | Some r => let* _ := set_hidden r in ret parameters
        | None => raise (Exception KeyError [VStr name])
        end
      else
        match dict_del name parameters with
        | Some parameters' => ret parameters'
        | None => raise (Exception KeyError [VStr name])
        end
  | Declared r =>
      let* o := deref r in
      if include_deprecated || negb (Parameter_.is_deprecated o)
      then ret (dict_set (Parameter_.name o) r parameters)
      else ret parameters
  end.

(** The body of the outer loop, for one class of the reversed MRO. A
    [parameters_default] that is still a dict iterates over its keys,
    which have no attribute [name]. *)
Definition merge_class (include_hidden include_deprecated : bool)
    (parameters : dict ref) (c : classid) : M (dict ref) :=
  fun w =>
    match parameters_default (classes w) c with
    | None => ret parameters w
    | Some (PDList l) =>
        for_each (merge_declaration include_hidden include_deprecated) l parameters w
    | Some (PDDict d) =>
        for_each (fun _ _ =>
                    raise (Exception AttributeError
                             [VStr "'str' object has no attribute 'name'"]))
          (dict_keys d) parameters w
    end.

Definition get_parameters (c : classid) (include_hidden include_deprecated sort : bool)
    : M (dict ref) :=
  let* k := get_class c in
  let* parameters :=
    for_each (merge_class include_hidden include_deprecated) (rev (__mro__ k)) [] in
  ret (if sort then dict_sorted parameters else parameters).

(** The body of the loop of [_parse_parameters]; the accumulator is
    [result] together with what is left of the copied [parameters]. *)
Definition bind_parameter (allow_hidden : bool)
    (acc : dict pyvalue * dict pyvalue) (item : string * ref)
    : M (dict pyvalue * dict pyvalue) :=
  let* param_obj := deref (snd item) in
  if negb allow_hidden && Parameter_.hidden param_obj then ret acc
  else
    let popped := dict_pop (fst item) VNone (snd acc) in
    let* v := lift (Parameter_.convert param_obj (fst popped)) in
    ret (dict_set (fst item) v (fst acc), snd popped).

Definition unknown_parameters (leftover : dict pyvalue) (cname : string) : exn :=
  Exception ValueError
    [VStr ("Parameters `" +:+ py_str (sorted_keys leftover)
           +:+ "` were provided in instance specific parameters but are not defined for the class `"
           +:+ cname +:+ "`.")].

Definition _parse_parameters (c : classid) (parameters : option (dict pyvalue))
    (check_validity allow_hidden include_deprecated : bool) : M (dict pyvalue) :=
  let parameters := match parameters with None => [] | Some d => d end in
  let* param_objs := get_parameters c allow_hidden include_deprecated true in
  let* acc := for_each (bind_parameter allow_hidden) param_objs ([], parameters) in
  match snd acc with
  | _ :: _ =>
      if check_validity then
        let* k := get_class c in
        raise (unknown_parameters (snd acc) (class_name k))
      else ret (dict_update (fst acc) (snd acc))
  | [] => ret (dict_update (fst acc) (snd acc))
  end.

Definition __init__ (self : instance) (parameters : option (dict pyvalue)) : M instance :=
  let '(Object c _ own) := self in
  let* k := get_class c in
  let logger := Some (class_name k) in
  match own with
  | Some _ => ret (Object c logger own)
  | None =>
      let* values := _parse_parameters c parameters true true false in
      ret (Object c logger (Some values))
  end.

Definition set_parameters_default (c : classid) (a : attribute) : M unit :=
  fun w =>
    (World (heap w)
       (alter (fun k => Class (class_name k) (__mro__ k) (Some a)) c (classes w))
       (_subclasses w) (warnings w),
     Ok tt).

Definition register (name : string) (c : classid) : M unit :=
  fun w => (World (heap w) (classes w) (dict_set name c (_subclasses w)) (warnings w), Ok tt).

Definition __init_subclass__ (c : classid) : M unit :=
  let* k := get_class c in
  let* _ :=
    (fun w =>
       match parameters_default (classes w) c with
       | Some (PDDict d) =>
           (let* l := for_each (fun acc args =>
                                  let* r := new_descriptor class_Parameter (fst args) (snd args)
                                              cls_object "" false in
                                  ret (acc ++ [Declared r])) d [] in
            set_parameters_default c (PDList l)) w
       | _ => ret tt w
       end) in
  register (class_name k) c.

End Parameterized.

(** The statement [class name(bases): parameters_default = body]: the
    interpreter creates the class with the linearisation [bases_mro] of
    its bases and then runs [__init_subclass__] on it. *)
Definition class_statement (name : string) (bases_mro : list classid)
    (body : option attribute) : M classid :=
  fun w =>
    let c := length (classes w) in
    (let* _ := Parameterized.__init_subclass__ c in ret c)
      (World (heap w) (classes w ++ [Class name (c :: bases_mro) body])
         (_subclasses w) (warnings w)).

(** [class name(base)] with a single base. *)
Definition subclass (name : string) (base : classid) (body : option attribute) : M classid :=
  let* k := get_class base in class_statement name (__mro__ k) body.

(** The call [cls(parameters)]. *)
Definition instantiate (c : classid) (parameters : option (dict pyvalue)) : M instance :=
  Parameterized.__init__ (Object c None None) parameters.

Definition class_object : classid := 0%nat.
Definition class_Parameterized : classid := 1%nat.

(** The world once the module is imported: [object], and [Parameterized]
    with its empty [parameters_default] and empty [_subclasses]. *)
Definition initial_world : world :=
  World []
    [Class "object" [class_object] None;
     Class "Parameterized" [class_Parameterized; class_object] (Some (PDList []))]
    [] [].

(** ** [get_all_parameters] *)

Inductive listing : Type :=
| Names (s : gset string)
| Values (d : dict pyvalue)
| Descriptions (d : dict string).

Definition listing_of (data : option string) (c : classid) : M listing :=
  match data with
  | None =>
      let* d := Parameterized.get_parameters c false false true in
      ret (Names (list_to_set (dict_keys d)))
  | Some s =>
      if String.eqb s "value" then
        let* d := Parameterized.get_parameters c false false true in
        let* vs := for_each (fun acc kv =>
                               let* o := deref (snd kv) in
                               ret (dict_set (fst kv) (Parameter_.default_value o) acc)) d [] in
        ret (Values vs)
      else if String.eqb s "description" then
        let* d := Parameterized.get_parameters c false false true in
        let* vs := for_each (fun acc kv =>
                               let* o := deref (snd kv) in
                               ret (dict_set (fst kv) (Parameter_.description o) acc)) d [] in
        ret (Descriptions vs)
      else raise (Exception ValueError [VStr ("Cannot interpret data `" +:+ s +:+ "`")])
  end.

(** The body of the loop of [get_all_parameters]. *)
Definition collect (data : option string) (result : dict listing) (item : string * classid)
    : M (dict listing) :=
  let* parameters := listing_of data (snd item) in
  ret (dict_set (fst item) parameters result).

Definition get_all_parameters (data : option string) : M (dict listing) :=
  fun w => for_each (collect data) (_subclasses w) [] w.

(** ** Class hierarchies used as examples *)

(** The scenario of the specification: [class Base(Parameterized)]
    declares [size] (10, [int]) and [label] ('x', [str]);
    [class Derived(Base)] redeclares [size] (20, [int]) and hides
    [label]. *)
Definition define_scenario : M (classid * classid) :=
  let* size := new_descriptor class_Parameter "size" (VInt 10) cls_int "" false in
  let* label := new_descriptor class_Parameter "label" (VStr "x") cls_str "" false in
  let* Base := subclass "Base" class_Parameterized
                 (Some (PDList [Declared size; Declared label])) in
  let* size' := new_descriptor class_Parameter "size" (VInt 20) cls_int "" false in
  let* Derived := subclass "Derived" Base
                    (Some (PDList [Declared size'; HideParameter "label"])) in
  ret (Base, Derived).

Definition scenario_world : world := fst (define_scenario initial_world).
Definition Base : classid := 2%nat.
Definition Derived : classid := 3%nat.

(** The scenario with [class Heir(Derived): pass] on top, a class with
    no [parameters_default] of its own. *)
Definition heir_world : world := fst (subclass "Heir" Derived None scenario_world).
Definition class_Heir : classid := 4%nat.

(** A chain of three classes: [class A(Parameterized)] declares [x = 1];
    [class B(A)] declares [x = 2]; [class C(B)] declares [n = 3] and does
    not mention [x]. *)
Definition define_chain : M (classid * classid * classid) :=
  let* xA := new_descriptor class_Parameter "x" (VInt 1) cls_int "" false in
  let* A := subclass "A" class_Parameterized (Some (PDList [Declared xA])) in
  let* xB := new_descriptor class_Parameter "x" (VInt 2) cls_int "" false in
  let* B := subclass "B" A (Some (PDList [Declared xB])) in
  let* n := new_descriptor class_Parameter "n" (VInt 3) cls_object "" false in
  let* C := subclass "C" B (Some (PDList [Declared n])) in
  ret (A, B, C).

Definition chain_world : world := fst (define_chain initial_world).
Definition class_C : classid := 4%nat.

(** A class that hides a name nobody declared: [class Stray(Parameterized)]
    with [parameters_default = [HideParameter('ghost')]]. *)
Definition define_stray : M classid :=
  subclass "Stray" class_Parameterized (Some (PDList [HideParameter "ghost"])).

Definition stray_world : world := fst (define_stray initial_world).
Definition class_Stray : classid := 2%nat.

(** A class with a hidden and a deprecated parameter:
    [class Flagged(Parameterized)] with [parameters_default =
    [Parameter('h', 1, int, hidden=True), DeprecatedParameter('z', 2, int)]]. *)
Definition define_flagged : M classid :=
  let* h := new_descriptor class_Parameter "h" (VInt 1) cls_int "" true in
  let* z := new_descriptor class_DeprecatedParameter "z" (VInt 2) cls_int "" false in
  subclass "Flagged" class_Parameterized (Some (PDList [Declared h; Declared z])).

Definition flagged_world : world := fst (define_flagged initial_world).
Definition class_Flagged : classid := 2%nat.

(** A class whose defaults are given as a plain dict:
    [class Plain(Parameterized)] with [parameters_default = {'a': 1, 'b': 'two'}]. *)
Definition define_plain : M classid :=
  subclass "Plain" class_Parameterized (Some (PDDict [("a", VInt 1); ("b", VStr "two")])).

Definition plain_world : world := fst (define_plain initial_world).
Definition class_Plain : classid := 2%nat.

(** ** Notions used to state the properties *)

Definition is_ok {A} (r : result A) : bool :=
  match r with Ok _ => true | Raise _ => false end.

(** The list a class of the chain contributes to the merge. *)
Definition declared_list (cs : list pyclass) (c : classid) : list declaration :=
  match parameters_default cs c with
  | Some (PDList l) => l
  | _ => []
  end.

(** The entries [get_parameters] merges for a class, in merge order: the
    classes of the MRO from the most general one, each with its list in
    declaration order. *)
Definition chain (cs : list pyclass) (k : pyclass) : list declaration :=
  concat (map (declared_list cs) (rev (__mro__ k))).

(** No class of the MRO shows a [parameters_default] that is still a dict. *)
Definition normalised (cs : list pyclass) (k : pyclass) : bool :=
  forallb (fun c => match parameters_default cs c with
                    | Some (PDDict _) => false
                    | _ => true
                    end) (__mro__ k).

(** The parameter name an entry is about. *)
Definition entry_name (h : list Parameter_.t) (p : declaration) : option string :=
  match p with
  | HideParameter n => Some n
  | Declared r => Parameter_.name <$> h !! r
  end.

Definition mentions (h : list Parameter_.t) (x : string) (p : declaration) : bool :=
  match entry_name h p with
  | Some n => String.eqb n x
  | None => false
  end.

(** No entry of [l] is about the name [x]. *)
Definition unmentioned (h : list Parameter_.t) (x : string) (l : list declaration) : bool :=
  forallb (fun p => negb (mentions h x p)) l.

(** An entry that is a descriptor object of the store. *)
Definition is_descriptor (h : list Parameter_.t) (p : declaration) : bool :=
  match p with
  | Declared r => match h !! r with Some _ => true | None => false end
  | HideParameter _ => false
  end.

(** Every entry of [l] is a descriptor object: no [HideParameter]. *)
Definition descriptors_only (h : list Parameter_.t) (l : list declaration) : bool :=
  forallb (is_descriptor h) l.

(** A descriptor that the merge inserts: a [DeprecatedParameter] only
    under [include_deprecated]. *)
Definition inserted (include_deprecated : bool) (o : Parameter_.t) : bool :=
  include_deprecated || negb (Parameter_.is_deprecated o).

(** The default of every descriptor among the entries converts by the
    type of the descriptor. *)
Definition defaults_convert (h : list Parameter_.t) (l : list declaration) : bool :=
  forallb (fun p => match p with
                    | Declared r =>
                        match h !! r with
                        | Some o => is_ok (Parameter_.convert o VNone)
                        | None => true
                        end
                    | HideParameter _ => true
                    end) l.

(** Every descriptor among the entries that declares [z] is deprecated. *)
Definition deprecated_where_named (h : list Parameter_.t) (z : string)
    (l : list declaration) : bool :=
  forallb (fun p => match p with
                    | Declared r =>
                        match h !! r with
                        | Some o => negb (String.eqb (Parameter_.name o) z)
                                    || Parameter_.is_deprecated o
                        | None => true
                        end
                    | HideParameter _ => true
                    end) l.

(** Every registered class resolves under the default flags. *)
Definition registry_resolves (w : world) : bool :=
  forallb (fun e => is_ok (snd (Parameterized.get_parameters (snd e) false false true w)))
    (_subclasses w).

(** What resolution may do to a descriptor: nothing, or set [hidden]. *)
Definition hidden_only (o o' : Parameter_.t) : Prop :=
  o' = o \/ o' = Parameter_.mark_hidden o.

(** What resolution may do to the world. *)
Definition frame (w w' : world) : Prop :=
  classes w' = classes w /\ _subclasses w' = _subclasses w /\ warnings w' = warnings w /\
  Forall2 hidden_only (heap w) (heap w').

(** A resolved mapping as a reader sees it: names with the descriptors
    the references stand for in the store at hand. *)
Definition view (h : list Parameter_.t) (d : dict ref) : list (string * option Parameter_.t) :=
  map (fun e => (fst e, h !! snd e)) d.

Definition absorb (a b : Parameter_.t) : Parameter_.t :=
  if Parameter_.hidden a then Parameter_.mark_hidden b else b.

(** [w] with, in addition, the [hidden] flags that are set in [wb]. *)
Definition overlay (wb w : world) : world :=
  World (zip_with absorb (heap wb) (heap w)) (classes w) (_subclasses w) (warnings w).

(** A computation that goes through unchanged when more [hidden] flags
    are set beforehand: same result, and the same writes on top. *)
Definition commutes {A} (m : M A) : Prop :=
  forall wb w, length (heap wb) = length (heap w) ->
    m (overlay wb w) = (overlay wb (fst (m w)), snd (m w)).

Definition keeps_length {A} (m : M A) : Prop :=
  forall w, length (heap (fst (m w))) = length (heap w).

(** Overrides that hold [None] under [n], and the same without [n]. *)
Definition none_removed (n : string) (ov1 ov2 : dict pyvalue) : Prop :=
  dict_get n ov1 = Some VNone /\ ov2 = dict_remove n ov1.

(** ** Further methods of the module *)

(** [object], [int] and [str], as opposed to a callable of the user. *)
Definition builtin_type (c : pytype) : bool :=
  match c with
  | cls_callable _ _ => false
  | _ => true
  end.

(** [Parameter.__getstate__]: the state, as the dict it returns. The
    entries are evaluated in order, so [convert] is what may raise. *)
Definition __getstate__ (self : Parameter_.t) : result (dict pyvalue) :=
  match Parameter_.convert self VNone with
  | Raise e => Raise e
  | Ok v =>
      Ok [("name", VStr (Parameter_.name self));
          ("default_value", v);
          ("cls", VStr ("builtins." +:+ __name__ (Parameter_.cls self)));
          ("description", VStr (Parameter_.description self));
          ("hidden", VBool (Parameter_.hidden self))]
  end.

(** The inner loop of [get_parameter_default] over one list, with its
    early [return]: [None] when the loop runs to its end. A
    [HideParameter] is no instance of [Parameter]. *)
Fixpoint find_default (name : string) (l : list declaration) : M (option pyvalue) :=
  match l with
  | [] => ret None
  | Declared r :: l' =>
      let* p := deref r in
      if String.eqb (Parameter_.name p) name then ret (Some (Parameter_.default_value p))
      else find_default name l'
  | HideParameter _ :: l' => find_default name l'
  end.

(** The outer loop, over the MRO from the class itself. A
    [parameters_default] that is still a dict iterates over its keys,
    which are no instances of [Parameter]. *)
Fixpoint find_default_in_classes (name : string) (mro : list classid) : M (option pyvalue) :=
  match mro with
  | [] => ret None
  | c :: mro' =>
      let* found := (fun w => match parameters_default (classes w) c with
                              | Some (PDList l) => find_default name l w
                              | _ => ret None w
                              end) in
      match found with
      | Some v => ret (Some v)
      | None => find_default_in_classes name mro'
      end
  end.

Definition get_parameter_default (self : instance) (name : string) : M pyvalue :=
  let* k := get_class (instance_class self) in
  let* found := find_default_in_classes name (__mro__ k) in
  match found with
  | Some v => ret v
  | None => raise (Exception KeyError [VStr ("Parameter `" +:+ name +:+ "` is not defined")])
  end.

(** The entries [get_parameter_default] walks through, in its order:
    the classes of the MRO from the class itself. *)
Definition walk (cs : list pyclass) (k : pyclass) : list declaration :=
  concat (map (declared_list cs) (__mro__ k)).

(** Every descriptor among the entries is in the store and has a name
    other than [x]. *)
Definition undeclared (h : list Parameter_.t) (x : string) (l : list declaration) : bool :=
  forallb (fun p => match p with
                    | Declared r =>
                        match h !! r with
                        | Some o => negb (String.eqb (Parameter_.name o) x)
                        | None => false
                        end
                    | HideParameter _ => true
                    end) l.


(** ** Showing parameters *)

(** The line [_show_parameters] prints for one parameter: the template
    without the type for [object], with the description on request. *)
Definition show_line (description : bool) (param : Parameter_.t) (value : pyvalue) : string :=
  let head :=
    if is_object (Parameter_.cls param) then Parameter_.name param
    else Parameter_.name param +:+ ": " +:+ __name__ (Parameter_.cls param) in
  let line := head +:+ " = " +:+ py_repr value in
  if description then line +:+ " (" +:+ Parameter_.description param +:+ ")" else line.

(** The value [_show_parameters] shows for a parameter: its default, or
    the entry of [parameter_values] under its name; [None] is the
    [KeyError] of the subscript. *)
Definition shown_value (parameter_values : option (dict pyvalue)) (param : Parameter_.t)
    : option pyvalue :=
  match parameter_values with
  | None => Some (Parameter_.default_value param)
  | Some values => dict_get (Parameter_.name param) values
  end.

(** The loop of [_show_parameters] over [params.values()]: the lines
    printed, and how the loop ends. Lines printed before an exception
    stay printed. *)
Fixpoint show_entries (description show_hidden : bool) (parameter_values : option (dict pyvalue))
    (h : list Parameter_.t) (params : list ref) : list string * result unit :=
  match params with
  | [] => ([], Ok tt)
  | r :: params' =>
      match h !! r with
      | None => ([], Raise (Exception SystemError [VStr "dangling reference"]))
      | Some param =>
          if negb show_hidden && Parameter_.hidden param
          then show_entries description show_hidden parameter_values h params'
          else
            match shown_value parameter_values param with
            | None => ([], Raise (Exception KeyError [VStr (Parameter_.name param)]))
            | Some value =>
                let (out, r) :=
                  show_entries description show_hidden parameter_values h params' in
                (show_line description param value :: out, r)
            end
      end
  end.

(** [_show_parameters]: the world it leaves, the lines it prints and
    how it ends. *)
Definition _show_parameters (c : classid) (description sort show_hidden show_deprecated : bool)
    (parameter_values : option (dict pyvalue)) : world -> world * (list string * result unit) :=
  fun w =>
    match Parameterized.get_parameters c false show_deprecated sort w with
    | (w', Ok params) =>
        (w', show_entries description show_hidden parameter_values (heap w') (map snd params))
    | (w', Raise e) => (w', ([], Raise e))
    end.

(** [show_parameters] called on the class. *)
Definition show_parameters (c : classid) (description sort show_hidden show_deprecated : bool)
    : world -> world * (list string * result unit) :=
  _show_parameters c description sort show_hidden show_deprecated None.

(** [show_parameters] called on an instance. The argument
    [self.parameters] is evaluated before the call. *)
Definition show_parameters_instancemethod (self : instance)
    (description sort show_hidden show_deprecated default_value : bool)
    : world -> world * (list string * result unit) :=
  fun w =>
    if default_value
    then _show_parameters (instance_class self) description sort show_hidden show_deprecated
           None w
    else
      match parameters self with
      | Some values =>
          _show_parameters (instance_class self) description sort show_hidden show_deprecated
            (Some values) w
      | None =>
          match classes w !! instance_class self with
          | Some k =>
              (w, ([], Raise (Exception AttributeError
                                [VStr ("'" +:+ class_name k
                                       +:+ "' object has no attribute 'parameters'")])))
          | None => (w, ([], Raise (Exception SystemError [VStr "no such class"])))
          end
      end.

(** The descriptors a loop over the values of a resolved mapping
    does not skip. *)
Definition visible (show_hidden : bool) (o : Parameter_.t) : bool :=
  show_hidden || negb (Parameter_.hidden o).


(** The supplied entries whose names are not among [names]. *)
Definition leftover (names : list string) (ov : dict pyvalue) : dict pyvalue :=
  List.filter (fun e => negb (existsb (String.eqb (fst e)) names)) ov.


(** * Properties *)

(** ** Built-ins *)

Example int_of_text : call cls_int (VStr " -1_000 ") = Ok (VInt (-1000)).
Proof. reflexivity. Qed.

Example int_of_bad_text : exists e, call cls_int (VStr "abc") = Raise e /\ exn_class e = ValueError.
Proof. eexists; split; reflexivity. Qed.

Example repr_text : py_repr (VList [VStr "it's"; VInt (-3); VNone]) =
  String "[" (String dquote ("it's" +:+ String dquote ", -3, None]")).
Proof. reflexivity. Qed.

(** ** Dictionaries *)

Section DictFacts.
Context {V : Type}.
Implicit Types (d : dict V) (k x : string) (v : V).

Lemma dict_get_set x k v d :
  dict_get x (dict_set k v d) = if String.eqb k x then Some v else dict_get x d.
Proof.
  induction d as [|[k' v'] d IH]; simpl.
  - destruct (String.eqb k x); reflexivity.
  - destruct (String.eqb k' k) eqn:E; simpl.
    + apply String.eqb_eq in E; subst k'.
      destruct (String.eqb k x); reflexivity.
    + rewrite IH. destruct (String.eqb k' x) eqn:E'; [|reflexivity].
      apply String.eqb_eq in E'; subst k'.
      rewrite String.eqb_sym, E. reflexivity.
Qed.

Lemma dict_get_set_eq k v d : dict_get k (dict_set k v d) = Some v.
Proof. rewrite dict_get_set, String.eqb_refl. reflexivity. Qed.

Lemma dict_get_set_ne x k v d : k <> x -> dict_get x (dict_set k v d) = dict_get x d.
Proof. intros H. rewrite dict_get_set. apply String.eqb_neq in H. rewrite H. reflexivity. Qed.

Lemma dict_get_remove x k d :
  dict_get x (dict_remove k d) = if String.eqb k x then None else dict_get x d.
Proof.
  induction d as [|[k' v'] d IH]; simpl.
  - destruct (String.eqb k x); reflexivity.
  - destruct (String.eqb k' k) eqn:E; simpl.
    + apply String.eqb_eq in E; subst k'. rewrite IH.
      destruct (String.eqb k x); reflexivity.
    + rewrite IH. destruct (String.eqb k' x) eqn:E'; [|reflexivity].
      apply String.eqb_eq in E'; subst k'.
      rewrite String.eqb_sym, E. reflexivity.
Qed.

Lemma dict_remove_absent k d : dict_get k d = None -> dict_remove k d = d.
Proof.
  induction d as [|[k' v'] d IH]; simpl; [reflexivity|].
  destruct (String.eqb k' k); [discriminate|]. intros H. rewrite IH by exact H. reflexivity.
Qed.

Lemma leb_refl k : String.leb k k = true.
Proof. destruct (String.leb_total k k); assumption. Qed.

Lemma dict_get_sorted_insert x k v d :
  dict_get x (sorted_insert (k, v) d) = if String.eqb k x then Some v else dict_get x d.
Proof.
  induction d as [|[k' v'] d IH]; simpl.
  - reflexivity.
  - destruct (String.leb k k') eqn:L; simpl; [reflexivity|].
    rewrite IH. destruct (String.eqb k' x) eqn:E'; [|reflexivity].
    apply String.eqb_eq in E'; subst k'.
    destruct (String.eqb k x) eqn:E; [|reflexivity].
    apply String.eqb_eq in E; subst k. rewrite leb_refl in L. discriminate.
Qed.

Lemma dict_get_sorted x d : dict_get x (dict_sorted d) = dict_get x d.
Proof.
  induction d as [|[k v] d IH]; simpl; [reflexivity|].
  rewrite dict_get_sorted_insert, IH. reflexivity.
Qed.

Lemma dict_get_In x v d : dict_get x d = Some v -> In (x, v) d.
Proof.
  induction d as [|[k' v'] d IH]; simpl; [discriminate|].
  destruct (String.eqb k' x) eqn:E.
  - apply String.eqb_eq in E; subst k'. intros [= ->]. left; reflexivity.
  - intros H. right. apply IH, H.
Qed.

Lemma dict_get_None_keys x d : dict_get x d = None <-> ~ In x (dict_keys d).
Proof.
  induction d as [|[k' v'] d IH]; simpl.
  - split; [intros _ []|reflexivity].
  - destruct (String.eqb k' x) eqn:E.
    + apply String.eqb_eq in E; subst k'. split; [discriminate|]. intros H; exfalso; apply H; left; reflexivity.
    + apply String.eqb_neq in E. rewrite IH. split.
      * intros H [H'|H']; [congruence|contradiction].
      * intros H H'. apply H. right. exact H'.
Qed.

End DictFacts.

(** ** Loops and the frame of resolution *)

Lemma for_each_app {A B} (f : B -> A -> M B) l1 l2 acc w :
  for_each f (l1 ++ l2) acc w =
  match for_each f l1 acc w with
  | (w', Ok a) => for_each f l2 a w'
  | (w', Raise e) => (w', Raise e)
  end.
Proof.
  revert acc w. induction l1 as [|x l1 IH]; intros acc w; simpl.
  - reflexivity.
  - unfold bind. destruct (f acc x w) as [w' [a|e]]; [apply IH|reflexivity].
Qed.

Lemma for_each_invariant {A B} (P : world -> world -> Prop) (f : B -> A -> M B) :
  (forall w, P w w) ->
  (forall w1 w2 w3, P w1 w2 -> P w2 w3 -> P w1 w3) ->
  (forall acc x w, P w (fst (f acc x w))) ->
  forall l acc w, P w (fst (for_each f l acc w)).
Proof.
  intros Hrefl Htrans Hstep. induction l as [|x l IH]; intros acc w; simpl.
  - apply Hrefl.
  - unfold bind. specialize (Hstep acc x w).
    destruct (f acc x w) as [w' [a|e]]; simpl in *.
    + eapply Htrans; [exact Hstep|apply IH].
    + exact Hstep.
Qed.

Lemma mark_hidden_idem o : Parameter_.mark_hidden (Parameter_.mark_hidden o) = Parameter_.mark_hidden o.
Proof. reflexivity. Qed.

Lemma hidden_only_refl o : hidden_only o o.
Proof. left; reflexivity. Qed.

Lemma hidden_only_trans o1 o2 o3 : hidden_only o1 o2 -> hidden_only o2 o3 -> hidden_only o1 o3.
Proof.
  intros [->| ->] [->| ->]; unfold hidden_only; auto.
Qed.

Lemma frame_refl w : frame w w.
Proof.
  repeat split. apply Forall2_same_length_lookup_2; [reflexivity|].
  intros i x y H1 H2. rewrite H1 in H2. injection H2 as ->. apply hidden_only_refl.
Qed.

Lemma frame_trans w1 w2 w3 : frame w1 w2 -> frame w2 w3 -> frame w1 w3.
Proof.
  intros (Hc & Hs & Hl & Hh) (Hc' & Hs' & Hl' & Hh').
  repeat split; try congruence.
  revert Hh Hh'. generalize (heap w1) (heap w2) (heap w3).
  intros h1 h2 h3 H12. revert h3. induction H12 as [|a b l1 l2 Hab H12 IH]; intros h3 H23.
  - inversion H23; constructor.
  - inversion H23 as [|b' c l2' l3 Hbc H23']; subst. constructor.
    + eapply hidden_only_trans; eassumption.
    + apply IH, H23'.
Qed.

Lemma alter_mark_hidden_only r (h : list Parameter_.t) :
  Forall2 hidden_only h (alter Parameter_.mark_hidden r h).
Proof.
  revert r. induction h as [|o h IH]; intros r; [constructor|].
  destruct r as [|r]; simpl.
  - constructor; [right; reflexivity|].
    apply Forall2_same_length_lookup_2; [reflexivity|].
    intros i x y H1 H2. rewrite H1 in H2. injection H2 as ->. apply hidden_only_refl.
  - constructor; [apply hidden_only_refl|apply IH].
Qed.

Lemma set_hidden_frame r w : frame w (fst (set_hidden r w)).
Proof. repeat split. simpl. apply alter_mark_hidden_only. Qed.

Lemma deref_world r w : fst (deref r w) = w.
Proof. unfold deref. destruct (heap w !! r); reflexivity. Qed.

Lemma merge_declaration_frame ih idep d p w :
  frame w (fst (Parameterized.merge_declaration ih idep d p w)).
Proof.
  destruct p as [r|n]; simpl.
  - unfold bind. pose proof (deref_world r w) as Hw.
    destruct (deref r w) as [w' [o|e]]; simpl in Hw; subst w'.
    + destruct (idep || negb (Parameter_.is_deprecated o)); apply frame_refl.
    + apply frame_refl.
  - destruct ih.
    + destruct (dict_get n d) as [r|]; [|apply frame_refl].
      unfold bind. simpl. apply (set_hidden_frame r w).
    + destruct (dict_del n d); apply frame_refl.
Qed.

Lemma merge_declarations_frame ih idep l d w :
  frame w (fst (for_each (Parameterized.merge_declaration ih idep) l d w)).
Proof.
  apply for_each_invariant;
    [apply frame_refl|apply frame_trans|intros; apply merge_declaration_frame].
Qed.

Lemma merge_class_frame ih idep d c w :
  frame w (fst (Parameterized.merge_class ih idep d c w)).
Proof.
  unfold Parameterized.merge_class.
  destruct (parameters_default (classes w) c) as [[l|dd]|].
  - apply merge_declarations_frame.
  - apply for_each_invariant; [apply frame_refl|apply frame_trans|intros; apply frame_refl].
  - apply frame_refl.
Qed.

Lemma get_class_world c w : fst (get_class c w) = w.
Proof. unfold get_class. destruct (classes w !! c); reflexivity. Qed.

Lemma get_parameters_frame c ih idep srt w :
  frame w (fst (Parameterized.get_parameters c ih idep srt w)).
Proof.
  unfold Parameterized.get_parameters, bind.
  pose proof (get_class_world c w) as Hw.
  destruct (get_class c w) as [w0 [k|e]]; simpl in Hw; subst w0; [|apply frame_refl].
  pose proof (for_each_invariant frame (Parameterized.merge_class ih idep)
                frame_refl frame_trans (fun acc x w => merge_class_frame ih idep acc x w)
                (rev (__mro__ k)) [] w) as H.
  destruct (for_each _ _ _ w) as [w' [a|e]]; exact H.
Qed.

(** With [include_hidden=False] resolution writes nothing at all. *)
Lemma merge_declaration_pure idep d p w :
  fst (Parameterized.merge_declaration false idep d p w) = w.
Proof.
  destruct p as [r|n]; simpl.
  - unfold bind. pose proof (deref_world r w) as Hw.
    destruct (deref r w) as [w' [o|e]]; simpl in Hw; subst w'; [|reflexivity].
    destruct (idep || negb (Parameter_.is_deprecated o)); reflexivity.
  - destruct (dict_del n d); reflexivity.
Qed.

Lemma merge_declarations_pure idep l d w :
  fst (for_each (Parameterized.merge_declaration false idep) l d w) = w.
Proof.
  apply (for_each_invariant (fun w w' => w' = w)); [reflexivity|congruence|].
  intros; apply merge_declaration_pure.
Qed.

Lemma merge_class_pure idep d c w :
  fst (Parameterized.merge_class false idep d c w) = w.
Proof.
  unfold Parameterized.merge_class.
  destruct (parameters_default (classes w) c) as [[l|dd]|].
  - apply merge_declarations_pure.
  - apply (for_each_invariant (fun w w' => w' = w)); [reflexivity|congruence|reflexivity].
  - reflexivity.
Qed.

Lemma get_parameters_pure c idep srt w :
  fst (Parameterized.get_parameters c false idep srt w) = w.
Proof.
  unfold Parameterized.get_parameters, bind.
  pose proof (get_class_world c w) as Hw.
  destruct (get_class c w) as [w0 [k|e]]; simpl in Hw; subst w0; [|reflexivity].
  pose proof (for_each_invariant (fun w w' => w' = w) (Parameterized.merge_class false idep)
                (fun w => eq_refl) (fun w1 w2 w3 (H1 : w2 = w1) (H2 : w3 = w2) => eq_trans H2 H1)
                (fun acc x w => merge_class_pure idep acc x w)
                (rev (__mro__ k)) [] w) as H.
  destruct (for_each _ _ _ w) as [w' [a|e]]; exact H.
Qed.

(** ** Resolution does not depend on [hidden] flags *)

Lemma frame_length w w' : frame w w' -> length (heap w') = length (heap w).
Proof. intros (_ & _ & _ & H). symmetry. eapply Forall2_length, H. Qed.

Lemma absorb_same o : absorb o o = o.
Proof. unfold absorb. destruct o as [k n v c ds [|]]; reflexivity. Qed.

Lemma overlay_same w : overlay w w = w.
Proof.
  destruct w as [h cs sb ws]. unfold overlay; simpl. f_equal.
  induction h as [|o h IH]; simpl; [reflexivity|]. rewrite absorb_same, IH. reflexivity.
Qed.

Lemma overlay_frame w w' : frame w w' -> overlay w' w = w'.
Proof.
  destruct w as [h cs sb ws], w' as [h' cs' sb' ws'].
  intros (Hc & Hs & Hl & Hh); simpl in *; subst. unfold overlay; simpl. f_equal.
  induction Hh as [|o o' h h' Ho Hh IH]; simpl; [reflexivity|].
  rewrite IH. f_equal. destruct Ho as [->| ->]; [apply absorb_same|].
  unfold absorb; simpl. reflexivity.
Qed.

Lemma overlay_lookup wb w r :
  length (heap wb) = length (heap w) ->
  heap (overlay wb w) !! r =
  match heap w !! r with
  | Some o => match heap wb !! r with Some a => Some (absorb a o) | None => None end
  | None => None
  end.
Proof.
  intros Hlen. simpl. rewrite lookup_zip_with.
  destruct (heap wb !! r) as [a|] eqn:Ha; simpl.
  - destruct (heap w !! r); reflexivity.
  - destruct (heap w !! r) as [o|] eqn:Ho; [|reflexivity].
    apply lookup_lt_Some in Ho. apply lookup_ge_None in Ha. lia.
Qed.

Lemma alter_zip_absorb r (hb h : list Parameter_.t) :
  alter Parameter_.mark_hidden r (zip_with absorb hb h) =
  zip_with absorb hb (alter Parameter_.mark_hidden r h).
Proof.
  revert r h. induction hb as [|a hb IH]; intros r [|o h]; simpl; try reflexivity.
  destruct r as [|r]; simpl.
  - f_equal. unfold absorb. destruct (Parameter_.hidden a); reflexivity.
  - f_equal. apply IH.
Qed.

Lemma commutes_for_each {A B} (f : B -> A -> M B) :
  (forall acc x, commutes (f acc x)) ->
  (forall acc x, keeps_length (f acc x)) ->
  forall l acc, commutes (for_each f l acc).
Proof.
  intros Hc Hk. induction l as [|x l IH]; intros acc wb w Hlen; simpl.
  - reflexivity.
  - unfold bind. rewrite (Hc acc x wb w Hlen). specialize (Hk acc x w).
    destruct (f acc x w) as [w' [a|e]]; simpl in *; [|reflexivity].
    apply IH. congruence.
Qed.

Lemma commutes_merge_declaration ih idep d p :
  commutes (Parameterized.merge_declaration ih idep d p).
Proof.
  intros wb w Hlen. destruct p as [r|n]; unfold Parameterized.merge_declaration.
  - unfold bind, deref. rewrite (overlay_lookup wb w r Hlen).
    destruct (heap w !! r) as [o|] eqn:Ho; [|reflexivity].
    destruct (heap wb !! r) as [a|] eqn:Ha.
    + assert (Hn : Parameter_.name (absorb a o) = Parameter_.name o)
        by (unfold absorb; destruct (Parameter_.hidden a); reflexivity).
      assert (Hd : Parameter_.is_deprecated (absorb a o) = Parameter_.is_deprecated o)
        by (unfold absorb; destruct (Parameter_.hidden a); reflexivity).
      rewrite Hn, Hd. destruct (idep || negb (Parameter_.is_deprecated o)); reflexivity.
    + apply lookup_lt_Some in Ho. apply lookup_ge_None in Ha. lia.
  - destruct ih.
    + destruct (dict_get n d) as [r|]; [|reflexivity].
      unfold bind, set_hidden, ret, overlay; simpl. rewrite alter_zip_absorb. reflexivity.
    + destruct (dict_del n d); reflexivity.
Qed.

Lemma keeps_length_merge_declaration ih idep d p :
  keeps_length (Parameterized.merge_declaration ih idep d p).
Proof. intros w. apply frame_length, merge_declaration_frame. Qed.

Lemma commutes_merge_class ih idep d c : commutes (Parameterized.merge_class ih idep d c).
Proof.
  intros wb w Hlen. unfold Parameterized.merge_class.
  change (classes (overlay wb w)) with (classes w).
  destruct (parameters_default (classes w) c) as [[l|dd]|].
  - apply commutes_for_each; [apply commutes_merge_declaration
                             |apply keeps_length_merge_declaration|exact Hlen].
  - apply (commutes_for_each (fun (_ : dict ref) (_ : string) => raise _));
      [intros ? ? ? ? ?; reflexivity|intros ? ? ?; reflexivity|exact Hlen].
  - reflexivity.
Qed.

Lemma commutes_get_parameters c ih idep srt :
  commutes (Parameterized.get_parameters c ih idep srt).
Proof.
  intros wb w Hlen. unfold Parameterized.get_parameters, bind, get_class.
  change (classes (overlay wb w)) with (classes w).
  destruct (classes w !! c) as [k|]; [|reflexivity].
  rewrite (commutes_for_each (Parameterized.merge_class ih idep)
             (commutes_merge_class ih idep)
             (fun acc x w => frame_length _ _ (merge_class_frame ih idep acc x w))
             (rev (__mro__ k)) [] wb w Hlen).
  destruct (for_each _ _ _ w) as [w' [a|e]]; reflexivity.
Qed.

(** ** Resolution as a merge of the chain *)

(** What a class contributes to the chain: its own list, or else, again,
    the list of the next class of its MRO. *)

Lemma declared_list_own cs c k rest l :
  cs !! c = Some k ->
  __mro__ k = c :: rest ->
  own_parameters_default k = Some (PDList l) ->
  declared_list cs c = l.
Proof.
  intros Hk Hmro Hown. unfold declared_list, parameters_default.
  rewrite Hk. simpl. rewrite Hmro. simpl. rewrite Hk. simpl. rewrite Hown. reflexivity.
Qed.

Lemma declared_list_inherited cs c k b rest kb :
  cs !! c = Some k ->
  __mro__ k = c :: b :: rest ->
  own_parameters_default k = None ->
  cs !! b = Some kb ->
  __mro__ kb = b :: rest ->
  declared_list cs c = declared_list cs b.
Proof.
  intros Hk Hmro Hown Hb Hmrob. unfold declared_list, parameters_default.
  rewrite Hk, Hb. simpl. rewrite Hmro, Hmrob. simpl. rewrite Hk. simpl. rewrite Hown.
  reflexivity.
Qed.

Lemma frame_lookup w w' r :
  frame w w' -> option_Forall2 hidden_only (heap w !! r) (heap w' !! r).
Proof. intros (_ & _ & _ & H). apply Forall2_lookup, H. Qed.

Lemma hidden_only_name o o' : hidden_only o o' -> Parameter_.name o' = Parameter_.name o.
Proof. intros [->| ->]; reflexivity. Qed.

Lemma hidden_only_inserted idep o o' : hidden_only o o' -> inserted idep o' = inserted idep o.
Proof. intros [->| ->]; reflexivity. Qed.

Lemma frame_entry_name w w' p :
  frame w w' -> entry_name (heap w') p = entry_name (heap w) p.
Proof.
  intros F. destruct p as [r|n]; simpl; [|reflexivity].
  destruct (frame_lookup w w' r F) as [o o' Ho|]; simpl; [|reflexivity].
  f_equal. apply hidden_only_name, Ho.
Qed.

Lemma frame_mentions w w' x p : frame w w' -> mentions (heap w') x p = mentions (heap w) x p.
Proof. intros F. unfold mentions. rewrite (frame_entry_name w w' p F). reflexivity. Qed.

Lemma frame_unmentioned w w' x l :
  frame w w' -> unmentioned (heap w') x l = unmentioned (heap w) x l.
Proof.
  intros F. unfold unmentioned. induction l as [|p l IH]; simpl; [reflexivity|].
  rewrite IH, (frame_mentions w w' x p F). reflexivity.
Qed.

Lemma frame_is_descriptor w w' p :
  frame w w' -> is_descriptor (heap w') p = is_descriptor (heap w) p.
Proof.
  intros F. destruct p as [r|n]; simpl; [|reflexivity].
  destruct (frame_lookup w w' r F); reflexivity.
Qed.

Lemma merge_class_declared ih idep d c w :
  match parameters_default (classes w) c with Some (PDDict _) => false | _ => true end = true ->
  Parameterized.merge_class ih idep d c w =
  for_each (Parameterized.merge_declaration ih idep) (declared_list (classes w) c) d w.
Proof.
  unfold Parameterized.merge_class, declared_list.
  destruct (parameters_default (classes w) c) as [[l|dd]|]; [reflexivity|discriminate|reflexivity].
Qed.

Lemma merge_classes_chain ih idep l :
  forall d w,
  forallb (fun c => match parameters_default (classes w) c with
                    | Some (PDDict _) => false
                    | _ => true
                    end) l = true ->
  for_each (Parameterized.merge_class ih idep) l d w =
  for_each (Parameterized.merge_declaration ih idep)
    (concat (map (declared_list (classes w)) l)) d w.
Proof.
  induction l as [|c l IH]; intros d w Hn; simpl; [reflexivity|].
  simpl in Hn. apply andb_true_iff in Hn as [Hc Hl].
  rewrite for_each_app. unfold bind. rewrite (merge_class_declared ih idep d c w Hc).
  pose proof (merge_declarations_frame ih idep (declared_list (classes w) c) d w) as F.
  destruct (for_each _ (declared_list (classes w) c) d w) as [w1 [d1|e]]; [|reflexivity].
  simpl in F. destruct F as (Hcs & _).
  rewrite <- Hcs in *. apply IH, Hl.
Qed.

Lemma get_parameters_chain c k ih idep srt w :
  classes w !! c = Some k ->
  normalised (classes w) k = true ->
  Parameterized.get_parameters c ih idep srt w =
  match for_each (Parameterized.merge_declaration ih idep) (chain (classes w) k) [] w with
  | (w', Ok d) => (w', Ok (if srt then dict_sorted d else d))
  | (w', Raise e) => (w', Raise e)
  end.
Proof.
  intros Hk Hn. unfold Parameterized.get_parameters, bind, get_class. rewrite Hk.
  rewrite merge_classes_chain; [reflexivity|].
  unfold normalised in Hn. rewrite forallb_forall in *.
  intros x Hx. apply Hn. apply in_rev, Hx.
Qed.

(** One step of the merge. *)

Lemma merge_descriptor ih idep d r o w :
  heap w !! r = Some o ->
  Parameterized.merge_declaration ih idep d (Declared r) w =
  (w, Ok (if inserted idep o then dict_set (Parameter_.name o) r d else d)).
Proof.
  intros Ho. simpl. unfold bind, deref. rewrite Ho. unfold inserted.
  destruct (idep || negb (Parameter_.is_deprecated o)); reflexivity.
Qed.

Lemma merge_declaration_get_other ih idep x d p w w' d' :
  Parameterized.merge_declaration ih idep d p w = (w', Ok d') ->
  mentions (heap w) x p = false ->
  dict_get x d' = dict_get x d.
Proof.
  destruct p as [r|n]; unfold mentions; simpl.
  - unfold bind, deref. destruct (heap w !! r) as [o|]; simpl; [|discriminate].
    destruct (idep || negb (Parameter_.is_deprecated o)); intros [= _ <-] Hx; [|reflexivity].
    rewrite dict_get_set, Hx. reflexivity.
  - intros H Hx. destruct ih.
    + destruct (dict_get n d); [|discriminate]. injection H as _ <-. reflexivity.
    + unfold dict_del in H. destruct (dict_get n d); [|discriminate].
      injection H as _ <-. rewrite dict_get_remove, Hx. reflexivity.
Qed.

Lemma In_dict_set {V} (e : string * V) k v (d : dict V) :
  In e (dict_set k v d) -> e = (k, v) \/ In e d.
Proof.
  induction d as [|[k' v'] d IH]; simpl.
  - intros [<-|[]]. left; reflexivity.
  - destruct (String.eqb k' k); simpl.
    + intros [<-|H]; [left; reflexivity|right; right; exact H].
    + intros [<-|H]; [right; left; reflexivity|].
      destruct (IH H) as [->|H']; [left; reflexivity|right; right; exact H'].
Qed.

Lemma In_dict_remove {V} (e : string * V) k (d : dict V) :
  In e (dict_remove k d) -> In e d.
Proof.
  induction d as [|[k' v'] d IH]; simpl; [tauto|].
  destruct (String.eqb k' k); simpl.
  - intros H. right. apply IH, H.
  - intros [<-|H]; [left; reflexivity|right; apply IH, H].
Qed.

Lemma merge_declaration_source ih idep d p w w' d' n r :
  Parameterized.merge_declaration ih idep d p w = (w', Ok d') ->
  In (n, r) d' ->
  In (n, r) d \/
  (p = Declared r /\ exists o, heap w !! r = Some o /\ Parameter_.name o = n /\ inserted idep o = true).
Proof.
  destruct p as [r'|m]; simpl.
  - unfold bind, deref. destruct (heap w !! r') as [o|] eqn:Ho; simpl; [|discriminate].
    fold (inserted idep o). destruct (inserted idep o) eqn:Ha; intros [= _ <-] Hin; [|left; exact Hin].
    apply In_dict_set in Hin as [[= -> ->]|Hin]; [|left; exact Hin].
    right. split; [reflexivity|]. exists o. auto.
  - intros H Hin. left. destruct ih.
    + destruct (dict_get m d); [|discriminate]. injection H as _ <-. exact Hin.
    + unfold dict_del in H. destruct (dict_get m d); [|discriminate].
      injection H as _ <-. eapply In_dict_remove, Hin.
Qed.

(** Keys stay distinct. *)

Lemma In_keys_dict_set {V} x k (v : V) (d : dict V) :
  In x (dict_keys (dict_set k v d)) -> x = k \/ In x (dict_keys d).
Proof.
  intros H. apply in_map_iff in H as ([k' v'] & <- & Hin).
  apply In_dict_set in Hin as [[= -> ->]|Hin]; [left; reflexivity|].
  right. apply in_map_iff. exists (k', v'). auto.
Qed.

Lemma NoDup_dict_set {V} k (v : V) (d : dict V) :
  List.NoDup (dict_keys d) -> List.NoDup (dict_keys (dict_set k v d)).
Proof.
  induction d as [|[k' v'] d IH]; simpl; intros H.
  - constructor; [intros []|constructor].
  - inversion H as [|? ? Hnin Hnd]; subst.
    destruct (String.eqb k' k) eqn:E; simpl.
    + apply String.eqb_eq in E; subst k'. constructor; assumption.
    + apply String.eqb_neq in E. constructor; [|apply IH, Hnd].
      intros Hin. apply In_keys_dict_set in Hin as [->|Hin]; [congruence|contradiction].
Qed.

Lemma NoDup_dict_remove {V} k (d : dict V) :
  List.NoDup (dict_keys d) -> List.NoDup (dict_keys (dict_remove k d)).
Proof.
  induction d as [|[k' v'] d IH]; simpl; intros H; [constructor|].
  inversion H as [|? ? Hnin Hnd]; subst.
  destruct (String.eqb k' k); simpl; [apply IH, Hnd|].
  constructor; [|apply IH, Hnd].
  intros Hin. apply Hnin. apply in_map_iff in Hin as (e & <- & Hin).
  apply in_map_iff. exists e. split; [reflexivity|]. eapply In_dict_remove, Hin.
Qed.

Lemma sorted_insert_perm {V} (e : string * V) (d : dict V) :
  Permutation (sorted_insert e d) (e :: d).
Proof.
  induction d as [|e' d IH]; simpl; [reflexivity|].
  destruct (String.leb (fst e) (fst e')); [reflexivity|].
  rewrite IH. apply perm_swap.
Qed.

Lemma dict_sorted_perm {V} (d : dict V) : Permutation (dict_sorted d) d.
Proof.
  induction d as [|e d IH]; simpl; [reflexivity|].
  rewrite sorted_insert_perm. constructor. exact IH.
Qed.

Lemma In_dict_sorted {V} (e : string * V) (d : dict V) : In e (dict_sorted d) <-> In e d.
Proof.
  split; apply Permutation_in; [|symmetry]; apply dict_sorted_perm.
Qed.

Lemma NoDup_dict_sorted {V} (d : dict V) :
  List.NoDup (dict_keys d) -> List.NoDup (dict_keys (dict_sorted d)).
Proof.
  apply Permutation_NoDup. unfold dict_keys. apply Permutation_map. symmetry.
  apply dict_sorted_perm.
Qed.

Lemma NoDup_In_dict_get {V} k (v : V) (d : dict V) :
  List.NoDup (dict_keys d) -> In (k, v) d -> dict_get k d = Some v.
Proof.
  induction d as [|[k' v'] d IH]; simpl; intros Hnd Hin; [contradiction|].
  inversion Hnd as [|? ? Hnin Hnd']; subst.
  destruct Hin as [[= -> ->]|Hin].
  - rewrite String.eqb_refl. reflexivity.
  - destruct (String.eqb k' k) eqn:E; [|apply IH; assumption].
    apply String.eqb_eq in E; subst k'. exfalso. apply Hnin.
    apply in_map_iff. exists (k, v). auto.
Qed.

Lemma merge_declaration_NoDup ih idep d p w w' d' :
  Parameterized.merge_declaration ih idep d p w = (w', Ok d') ->
  List.NoDup (dict_keys d) -> List.NoDup (dict_keys d').
Proof.
  destruct p as [r|n]; simpl.
  - unfold bind, deref. destruct (heap w !! r) as [o|]; simpl; [|discriminate].
    destruct (idep || negb (Parameter_.is_deprecated o)); intros [= _ <-] H; [|exact H].
    apply NoDup_dict_set, H.
  - intros H Hnd. destruct ih.
    + destruct (dict_get n d); [|discriminate]. injection H as _ <-. exact Hnd.
    + unfold dict_del in H. destruct (dict_get n d); [|discriminate].
      injection H as _ <-. apply NoDup_dict_remove, Hnd.
Qed.

(** The whole merge. *)

Ltac step_merge E F :=
  simpl; unfold bind;
  match goal with
  | |- context [Parameterized.merge_declaration ?ih ?idep ?d ?p ?w] =>
      pose proof (merge_declaration_frame ih idep d p w) as F;
      destruct (Parameterized.merge_declaration ih idep d p w) as [? [?|?]] eqn:E;
      simpl in F
  end.

Lemma merge_declarations_NoDup ih idep l :
  forall d w w' d',
  for_each (Parameterized.merge_declaration ih idep) l d w = (w', Ok d') ->
  List.NoDup (dict_keys d) -> List.NoDup (dict_keys d').
Proof.
  induction l as [|p l IH]; intros d w w' d'.
  - intros [= _ <-] H. exact H.
  - step_merge E F; [|discriminate].
    intros H Hnd. eapply IH; [exact H|]. eapply merge_declaration_NoDup; eassumption.
Qed.

Lemma merge_declarations_get_other ih idep x l :
  forall d w w' d',
  for_each (Parameterized.merge_declaration ih idep) l d w = (w', Ok d') ->
  unmentioned (heap w) x l = true ->
  dict_get x d' = dict_get x d.
Proof.
  induction l as [|p l IH]; intros d w w' d'.
  - intros [= _ <-] _. reflexivity.
  - step_merge E F; [|discriminate].
    intros H Hun. simpl in Hun. apply andb_true_iff in Hun as [Hp Hl].
    apply negb_true_iff in Hp.
    rewrite (IH _ _ _ _ H); [eapply merge_declaration_get_other; eassumption|].
    rewrite (frame_unmentioned _ _ x l F). exact Hl.
Qed.

Lemma merge_declarations_source ih idep l :
  forall d w w' d' n r,
  for_each (Parameterized.merge_declaration ih idep) l d w = (w', Ok d') ->
  In (n, r) d' ->
  In (n, r) d \/
  (In (Declared r) l /\
   exists o, heap w !! r = Some o /\ Parameter_.name o = n /\ inserted idep o = true).
Proof.
  induction l as [|p l IH]; intros d w w' d' n r.
  - intros [= _ <-] H. left. exact H.
  - step_merge E F; [|discriminate].
    intros H Hin. destruct (IH _ _ _ _ _ _ H Hin) as [Hin1|(Hl & o1 & Ho1 & Hn & Ha)].
    + destruct (merge_declaration_source _ _ _ _ _ _ _ _ _ E Hin1) as [Hd|(-> & Ho)].
      * left. exact Hd.
      * right. split; [left; reflexivity|exact Ho].
    + right. split; [right; exact Hl|].
      pose proof (frame_lookup _ _ r F) as Hr. rewrite Ho1 in Hr.
      inversion Hr as [o o' Hoo Heq1 Heq2|]; subst. exists o. repeat split.
      * rewrite <- (hidden_only_name _ _ Hoo). reflexivity.
      * rewrite <- (hidden_only_inserted idep _ _ Hoo). exact Ha.
Qed.

Lemma merge_descriptors ih idep l :
  forall d w, descriptors_only (heap w) l = true ->
  exists d', for_each (Parameterized.merge_declaration ih idep) l d w = (w, Ok d').
Proof.
  induction l as [|p l IH]; intros d w Hd; simpl.
  - exists d. reflexivity.
  - simpl in Hd. apply andb_true_iff in Hd as [Hp Hl].
    destruct p as [r|n]; [|discriminate]. simpl in Hp.
    destruct (heap w !! r) as [o|] eqn:Ho; [|discriminate].
    unfold bind. rewrite (merge_descriptor ih idep d r o w Ho). apply IH, Hl.
Qed.

Lemma descriptors_only_app h l1 l2 :
  descriptors_only h (l1 ++ l2) = descriptors_only h l1 && descriptors_only h l2.
Proof. apply forallb_app. Qed.

Lemma merge_last_declaration ih idep pre r o post :
  forall d0 w w' d,
  for_each (Parameterized.merge_declaration ih idep) (pre ++ Declared r :: post) d0 w = (w', Ok d) ->
  heap w !! r = Some o ->
  inserted idep o = true ->
  unmentioned (heap w) (Parameter_.name o) post = true ->
  dict_get (Parameter_.name o) d = Some r.
Proof.
  intros d0 w w' d Hrun Ho Ha Hun. rewrite for_each_app in Hrun.
  pose proof (merge_declarations_frame ih idep pre d0 w) as F1.
  destruct (for_each _ pre d0 w) as [w1 [d1|e]]; [|discriminate]. simpl in F1.
  pose proof (frame_lookup _ _ r F1) as Hr. rewrite Ho in Hr.
  inversion Hr as [? o1 Hoo Heq1 Heq2|]; subst. symmetry in Heq2.
  cbn [for_each] in Hrun. unfold bind in Hrun.
  rewrite (merge_descriptor ih idep d1 r o1 w1 Heq2) in Hrun.
  rewrite (hidden_only_inserted idep _ _ Hoo), Ha, (hidden_only_name _ _ Hoo) in Hrun.
  rewrite (merge_declarations_get_other _ _ _ _ _ _ _ _ Hrun).
  - apply dict_get_set_eq.
  - rewrite (frame_unmentioned _ _ _ _ F1). exact Hun.
Qed.

Lemma get_parameters_descriptors c k ih idep srt w :
  classes w !! c = Some k ->
  normalised (classes w) k = true ->
  descriptors_only (heap w) (chain (classes w) k) = true ->
  exists d, Parameterized.get_parameters c ih idep srt w = (w, Ok d).
Proof.
  intros Hk Hn Hd. rewrite (get_parameters_chain c k ih idep srt w Hk Hn).
  destruct (merge_descriptors ih idep _ [] w Hd) as [d' ->]. eexists; reflexivity.
Qed.

(** C3: resolution merges the chain from the most general class to the
    most specific one, so the last declaration of a name governs it. When
    the chain of a class reads [pre ++ Declared rB :: post], where [rB]
    declares [x] (and is let in by [include_deprecated]) and nothing in
    [post] mentions [x] -- an ancestor may well declare [x] in [pre] --
    every mapping the resolution returns binds [x] to [rB]; and it does
    return one whenever the other entries are descriptors. *)
Theorem descendant_declaration_overwrites c k ih idep srt w pre rB oB post :
  classes w !! c = Some k ->
  normalised (classes w) k = true ->
  chain (classes w) k = pre ++ Declared rB :: post ->
  heap w !! rB = Some oB ->
  inserted idep oB = true ->
  unmentioned (heap w) (Parameter_.name oB) post = true ->
  (forall w' d, Parameterized.get_parameters c ih idep srt w = (w', Ok d) ->
     dict_get (Parameter_.name oB) d = Some rB) /\
  (descriptors_only (heap w) (pre ++ post) = true ->
     exists d, Parameterized.get_parameters c ih idep srt w = (w, Ok d)).
Proof.
  intros Hk Hn Hch Ho Ha Hun. split.
  - intros w' d. rewrite (get_parameters_chain c k ih idep srt w Hk Hn), Hch.
    destruct (for_each (Parameterized.merge_declaration ih idep) _ [] w)
      as [w1 [d1|e]] eqn:Hrun; [|discriminate].
    intros [= _ <-].
    pose proof (merge_last_declaration _ _ _ _ _ _ _ _ _ _ Hrun Ho Ha Hun) as Hget.
    destruct srt; [rewrite dict_get_sorted|]; exact Hget.
  - intros Hd. apply (get_parameters_descriptors c k ih idep srt w Hk Hn).
    rewrite Hch. rewrite descriptors_only_app in *. apply andb_true_iff in Hd as [H1 H2].
    rewrite H1. simpl. rewrite Ho. exact H2.
Qed.

Lemma descendant_declaration_overwrites_witness :
  chain (classes chain_world) (Class "C" [4; 3; 2; 1; 0]%nat (Some (PDList [Declared 2%nat]))) =
    [Declared 0%nat] ++ Declared 1%nat :: [Declared 2%nat] /\
  Parameter_.default_value <$> heap chain_world !! 0%nat = Some (VInt 1) /\
  Parameter_.default_value <$> heap chain_world !! 1%nat = Some (VInt 2) /\
  (forall w' d, Parameterized.get_parameters class_C false false true chain_world = (w', Ok d) ->
     dict_get "x" d = Some 1%nat) /\
  exists d, Parameterized.get_parameters class_C false false true chain_world = (chain_world, Ok d).
Proof.
  split; [reflexivity|]. split; [reflexivity|]. split; [reflexivity|].
  pose proof (descendant_declaration_overwrites class_C
                (Class "C" [4; 3; 2; 1; 0]%nat (Some (PDList [Declared 2%nat])))
                false false true chain_world [Declared 0%nat] 1%nat
                (Parameter_.Build class_Parameter "x" (VInt 2) cls_int "" false)
                [Declared 2%nat]
                eq_refl eq_refl eq_refl eq_refl eq_refl eq_refl) as [H1 H2].
  split; [exact H1|exact (H2 eq_refl)].
Defined.

(** C8: a [HideParameter] whose name is not a key of the mapping
    accumulated so far makes the resolution fail with the [KeyError] of
    the lookup, whether hidden parameters are included (the lookup
    [parameters[p.name]]) or not (the [del]); nothing catches it. *)
Theorem hide_of_absent_name_fails c k ih idep srt w pre name post w1 d1 :
  classes w !! c = Some k ->
  normalised (classes w) k = true ->
  chain (classes w) k = pre ++ HideParameter name :: post ->
  for_each (Parameterized.merge_declaration ih idep) pre [] w = (w1, Ok d1) ->
  dict_get name d1 = None ->
  Parameterized.merge_declaration ih idep d1 (HideParameter name) w1 =
    (w1, Raise (Exception KeyError [VStr name])) /\
  Parameterized.get_parameters c ih idep srt w = (w1, Raise (Exception KeyError [VStr name])).
Proof.
  intros Hk Hn Hch Hpre Habs.
  assert (Hstep : Parameterized.merge_declaration ih idep d1 (HideParameter name) w1 =
                  (w1, Raise (Exception KeyError [VStr name]))).
  { simpl. unfold dict_del. rewrite Habs. destruct ih; reflexivity. }
  split; [exact Hstep|].
  rewrite (get_parameters_chain c k ih idep srt w Hk Hn), Hch, for_each_app, Hpre.
  cbn [for_each]. unfold bind. rewrite Hstep. reflexivity.
Qed.

Lemma hide_of_absent_name_fails_witness :
  Parameterized.get_parameters class_Stray false false true stray_world =
    (stray_world, Raise (Exception KeyError [VStr "ghost"])) /\
  Parameterized.get_parameters class_Stray true false true stray_world =
    (stray_world, Raise (Exception KeyError [VStr "ghost"])).
Proof.
  split.
  - exact (proj2 (hide_of_absent_name_fails class_Stray
                    (Class "Stray" [2; 1; 0]%nat (Some (PDList [HideParameter "ghost"])))
                    false false true stray_world [] "ghost" [] stray_world []
                    eq_refl eq_refl eq_refl eq_refl eq_refl)).
  - exact (proj2 (hide_of_absent_name_fails class_Stray
                    (Class "Stray" [2; 1; 0]%nat (Some (PDList [HideParameter "ghost"])))
                    true false true stray_world [] "ghost" [] stray_world []
                    eq_refl eq_refl eq_refl eq_refl eq_refl)).
Defined.

(** ** Hiding *)

Lemma frame_descriptors_only w w' l :
  frame w w' -> descriptors_only (heap w') l = descriptors_only (heap w) l.
Proof.
  intros F. unfold descriptors_only. induction l as [|p l IH]; simpl; [reflexivity|].
  rewrite IH, (frame_is_descriptor w w' p F). reflexivity.
Qed.

Lemma merge_after_hide idep y l post :
  forall d0 w w' d,
  for_each (Parameterized.merge_declaration false idep) (l ++ HideParameter y :: post) d0 w
    = (w', Ok d) ->
  unmentioned (heap w) y post = true ->
  dict_get y d = None.
Proof.
  intros d0 w w' d Hrun Hun. rewrite for_each_app in Hrun.
  pose proof (merge_declarations_pure idep l d0 w) as P1.
  destruct (for_each _ l d0 w) as [w1 [d1|e]]; [|discriminate]. simpl in P1. subst w1.
  cbn [for_each Parameterized.merge_declaration] in Hrun. unfold bind, dict_del in Hrun.
  destruct (dict_get y d1); [|discriminate]. unfold ret in Hrun.
  rewrite (merge_declarations_get_other _ _ _ _ _ _ _ _ Hrun Hun).
  rewrite dict_get_remove, String.eqb_refl. reflexivity.
Qed.

Lemma lookup_alter_mark_hidden (h : list Parameter_.t) r o :
  h !! r = Some o -> alter Parameter_.mark_hidden r h !! r = Some (Parameter_.mark_hidden o).
Proof. intros H. rewrite list_lookup_alter_eq, H. reflexivity. Qed.

Lemma hidden_only_keeps_hidden o o' :
  hidden_only o o' -> Parameter_.hidden o = true -> Parameter_.hidden o' = true.
Proof. intros [->| ->]; auto. Qed.

Lemma merge_marks_hidden idep y pre r o mid post :
  forall d0 w w' d,
  for_each (Parameterized.merge_declaration true idep)
    (pre ++ Declared r :: mid ++ HideParameter y :: post) d0 w = (w', Ok d) ->
  heap w !! r = Some o ->
  Parameter_.name o = y ->
  inserted idep o = true ->
  unmentioned (heap w) y mid = true ->
  unmentioned (heap w) y post = true ->
  dict_get y d = Some r /\ Parameter_.hidden <$> heap w' !! r = Some true.
Proof.
  intros d0 w w' d Hrun Ho Hy Ha Hmid Hpost. subst y.
  replace (pre ++ Declared r :: mid ++ HideParameter (Parameter_.name o) :: post)
    with ((pre ++ Declared r :: mid) ++ HideParameter (Parameter_.name o) :: post) in Hrun
    by (rewrite <- app_assoc; reflexivity).
  rewrite for_each_app in Hrun.
  pose proof (merge_declarations_frame true idep (pre ++ Declared r :: mid) d0 w) as F3.
  destruct (for_each _ (pre ++ Declared r :: mid) d0 w) as [w3 [d3|e]] eqn:E3; [|discriminate].
  simpl in F3.
  pose proof (merge_last_declaration _ _ _ _ _ _ _ _ _ _ E3 Ho Ha Hmid) as Hget3.
  cbn [for_each Parameterized.merge_declaration] in Hrun. unfold bind in Hrun.
  rewrite Hget3 in Hrun. cbn [set_hidden ret] in Hrun.
  set (w4 := World (alter Parameter_.mark_hidden r (heap w3)) (classes w3)
               (_subclasses w3) (warnings w3)) in Hrun.
  assert (F4 : frame w w4).
  { eapply frame_trans; [exact F3|]. apply (set_hidden_frame r w3). }
  pose proof (merge_declarations_frame true idep post d3 w4) as F5.
  rewrite Hrun in F5. simpl in F5.
  split.
  - rewrite (merge_declarations_get_other _ _ _ _ _ _ _ _ Hrun); [exact Hget3|].
    rewrite (frame_unmentioned _ _ _ _ F4). exact Hpost.
  - pose proof (frame_lookup _ _ r F3) as Hr3. rewrite Ho in Hr3.
    inversion Hr3 as [? o3 Hoo3 Heq1 Heq3|]; subst. symmetry in Heq3.
    pose proof (frame_lookup _ _ r F5) as Hr5.
    change (heap w4) with (alter Parameter_.mark_hidden r (heap w3)) in Hr5.
    rewrite (lookup_alter_mark_hidden _ _ _ Heq3) in Hr5.
    inversion Hr5 as [? o5 Hoo5 Heq4 Heq5|]; subst. simpl. f_equal.
    apply (hidden_only_keeps_hidden _ _ Hoo5). reflexivity.
Qed.

Lemma merge_hide_total ih idep y pre r o mid post w :
  heap w !! r = Some o ->
  Parameter_.name o = y ->
  inserted idep o = true ->
  unmentioned (heap w) y mid = true ->
  descriptors_only (heap w) (pre ++ mid ++ post) = true ->
  exists w' d,
    for_each (Parameterized.merge_declaration ih idep)
      (pre ++ Declared r :: mid ++ HideParameter y :: post) [] w = (w', Ok d).
Proof.
  intros Ho Hy Ha Hmid Hd. subst y.
  rewrite !descriptors_only_app in Hd.
  apply andb_true_iff in Hd as [Hd1 Hd]. apply andb_true_iff in Hd as [Hd2 Hd3].
  assert (Hfirst : descriptors_only (heap w) (pre ++ Declared r :: mid) = true).
  { rewrite descriptors_only_app, Hd1. simpl. rewrite Ho. exact Hd2. }
  destruct (merge_descriptors ih idep _ [] w Hfirst) as [d3 E3].
  pose proof (merge_last_declaration _ _ _ _ _ _ _ _ _ _ E3 Ho Ha Hmid) as Hget3.
  replace (pre ++ Declared r :: mid ++ HideParameter (Parameter_.name o) :: post)
    with ((pre ++ Declared r :: mid) ++ HideParameter (Parameter_.name o) :: post)
    by (rewrite <- app_assoc; reflexivity).
  rewrite for_each_app, E3.
  cbn [for_each Parameterized.merge_declaration]. unfold bind, dict_del. rewrite Hget3.
  destruct ih.
  - cbn [set_hidden ret].
    set (w4 := World (alter Parameter_.mark_hidden r (heap w)) (classes w)
                 (_subclasses w) (warnings w)).
    assert (F4 : frame w w4) by apply (set_hidden_frame r w).
    rewrite <- (frame_descriptors_only _ _ post F4) in Hd3.
    destruct (merge_descriptors true idep post d3 w4 Hd3) as [d5 E5].
    exists w4, d5. exact E5.
  - unfold ret.
    destruct (merge_descriptors false idep post (dict_remove (Parameter_.name o) d3) w Hd3)
      as [d5 E5].
    exists w, d5. exact E5.
Qed.

(** C7: when the chain of a class declares [y] by the descriptor [ry]
    and, later, holds a [HideParameter] for [y] (nothing else in between
    or after mentions [y]), every mapping returned without
    [include_hidden] has no key [y]; every mapping returned with
    [include_hidden=True] binds [y] to [ry], whose [hidden] flag is then
    true; the entries of a resolved mapping are descriptors declared in
    the chain under their own names, never a [HideParameter]; and both
    resolutions do return a mapping when the other entries of the chain
    are descriptors. *)
Theorem hide_directive_hides c k idep srt w y pre ry oy mid post :
  classes w !! c = Some k ->
  normalised (classes w) k = true ->
  chain (classes w) k = pre ++ Declared ry :: mid ++ HideParameter y :: post ->
  heap w !! ry = Some oy ->
  Parameter_.name oy = y ->
  inserted idep oy = true ->
  unmentioned (heap w) y mid = true ->
  unmentioned (heap w) y post = true ->
  (forall w' d, Parameterized.get_parameters c false idep srt w = (w', Ok d) ->
     dict_get y d = None) /\
  (forall w' d, Parameterized.get_parameters c true idep srt w = (w', Ok d) ->
     dict_get y d = Some ry /\ Parameter_.hidden <$> heap w' !! ry = Some true) /\
  (forall ih w' d n r, Parameterized.get_parameters c ih idep srt w = (w', Ok d) ->
     In (n, r) d ->
     In (Declared r) (chain (classes w) k) /\
     exists o, heap w !! r = Some o /\ Parameter_.name o = n) /\
  (descriptors_only (heap w) (pre ++ mid ++ post) = true ->
     (exists d, Parameterized.get_parameters c false idep srt w = (w, Ok d)) /\
     (exists w' d, Parameterized.get_parameters c true idep srt w = (w', Ok d))).
Proof.
  intros Hk Hn Hch Ho Hy Ha Hmid Hpost.
  split; [|split; [|split]].
  - intros w' d. rewrite (get_parameters_chain c k false idep srt w Hk Hn), Hch.
    destruct (for_each (Parameterized.merge_declaration false idep) _ [] w)
      as [w1 [d1|e]] eqn:Hrun; [|discriminate].
    intros [= _ <-].
    replace (pre ++ Declared ry :: mid ++ HideParameter y :: post)
      with ((pre ++ Declared ry :: mid) ++ HideParameter y :: post) in Hrun
      by (rewrite <- app_assoc; reflexivity).
    pose proof (merge_after_hide _ _ _ _ _ _ _ _ Hrun Hpost) as Hget.
    destruct srt; [rewrite dict_get_sorted|]; exact Hget.
  - intros w' d. rewrite (get_parameters_chain c k true idep srt w Hk Hn), Hch.
    destruct (for_each (Parameterized.merge_declaration true idep) _ [] w)
      as [w1 [d1|e]] eqn:Hrun; [|discriminate].
    intros [= <- <-].
    destruct (merge_marks_hidden _ _ _ _ _ _ _ _ _ _ _ Hrun Ho Hy Ha Hmid Hpost) as [Hget Hhid].
    split; [|exact Hhid]. destruct srt; [rewrite dict_get_sorted|]; exact Hget.
  - intros ih w' d n r. rewrite (get_parameters_chain c k ih idep srt w Hk Hn).
    destruct (for_each (Parameterized.merge_declaration ih idep) _ [] w)
      as [w1 [d1|e]] eqn:Hrun; [|discriminate].
    intros [= _ <-] Hin.
    assert (Hin1 : In (n, r) d1) by (destruct srt; [apply In_dict_sorted|]; exact Hin).
    destruct (merge_declarations_source _ _ _ _ _ _ _ _ _ Hrun Hin1)
      as [[]|(Hl & o & Hr & Hname & _)].
    split; [exact Hl|]. exists o. auto.
  - intros Hd. split.
    + rewrite (get_parameters_chain c k false idep srt w Hk Hn), Hch.
      destruct (merge_hide_total false idep y pre ry oy mid post w Ho Hy Ha Hmid Hd)
        as (w' & d & Hrun).
      pose proof (merge_declarations_pure idep
                    (pre ++ Declared ry :: mid ++ HideParameter y :: post) [] w) as P.
      rewrite Hrun in P |- *. simpl in P. subst w'. eexists; reflexivity.
    + rewrite (get_parameters_chain c k true idep srt w Hk Hn), Hch.
      destruct (merge_hide_total true idep y pre ry oy mid post w Ho Hy Ha Hmid Hd)
        as (w' & d & Hrun).
      rewrite Hrun. eexists _, _; reflexivity.
Qed.

Lemma hide_directive_hides_witness :
  (exists d, Parameterized.get_parameters Derived false false true scenario_world
               = (scenario_world, Ok d) /\ dict_get "label" d = None) /\
  (exists w' d, Parameterized.get_parameters Derived true false true scenario_world = (w', Ok d) /\
                dict_get "label" d = Some 1%nat /\
                Parameter_.hidden <$> heap w' !! 1%nat = Some true).
Proof.
  destruct (hide_directive_hides Derived
              (Class "Derived" [3; 2; 1; 0]%nat
                 (Some (PDList [Declared 2%nat; HideParameter "label"])))
              false true scenario_world "label" [Declared 0%nat] 1%nat
              (Parameter_.Build class_Parameter "label" (VStr "x") cls_str "" false)
              [Declared 2%nat] []
              eq_refl eq_refl eq_refl eq_refl eq_refl eq_refl eq_refl eq_refl)
    as (H1 & H2 & _ & H4).
  destruct (H4 eq_refl) as [[d Hd] (w' & d' & Hd')]. split.
  - exists d. split; [exact Hd|exact (H1 _ _ Hd)].
  - exists w', d'. split; [exact Hd'|exact (H2 _ _ Hd')].
Defined.

(** ** What resolution writes *)

(** C4, as the code has it: resolution leaves the classes, the registry
    and the log alone and, in the store, changes nothing but [hidden]
    flags, which it only sets; without [include_hidden] it writes nothing
    at all. Resolving again in the world it leaves returns the same
    result and changes nothing more, and no resolution, of any class
    with any flags, returns another mapping of names to descriptor
    objects after it than before. *)
Theorem resolution_writes_hidden_only c ih idep srt w :
  frame w (fst (Parameterized.get_parameters c ih idep srt w)) /\
  fst (Parameterized.get_parameters c false idep srt w) = w /\
  Parameterized.get_parameters c ih idep srt (fst (Parameterized.get_parameters c ih idep srt w))
    = Parameterized.get_parameters c ih idep srt w /\
  forall c' ih' idep' srt',
    snd (Parameterized.get_parameters c' ih' idep' srt'
           (fst (Parameterized.get_parameters c ih idep srt w)))
    = snd (Parameterized.get_parameters c' ih' idep' srt' w).
Proof.
  pose proof (get_parameters_frame c ih idep srt w) as F.
  split; [exact F|]. split; [apply get_parameters_pure|].
  set (w' := fst (Parameterized.get_parameters c ih idep srt w)) in *.
  assert (Hover : forall c' ih' idep' srt',
             Parameterized.get_parameters c' ih' idep' srt' w' =
             (overlay w' (fst (Parameterized.get_parameters c' ih' idep' srt' w)),
              snd (Parameterized.get_parameters c' ih' idep' srt' w))).
  { intros c' ih' idep' srt'. rewrite <- (overlay_frame w w' F) at 1.
    apply commutes_get_parameters. apply frame_length, F. }
  split.
  - rewrite Hover. fold w'. rewrite overlay_same. subst w'.
    destruct (Parameterized.get_parameters c ih idep srt w); reflexivity.
  - intros c' ih' idep' srt'. rewrite Hover. reflexivity.
Qed.

(** C4 as stated fails: resolving [Derived] with [include_hidden=True]
    sets [hidden] on the descriptor of [label] that [Base] declared, so
    the mapping [Base] resolves to shows a different descriptor before
    and after. *)
Lemma resolution_modifies_ancestor_descriptor :
  let before := scenario_world in
  let after := fst (Parameterized.get_parameters Derived true false true scenario_world) in
  Parameter_.hidden <$> heap before !! 1%nat = Some false /\
  Parameter_.hidden <$> heap after !! 1%nat = Some true /\
  exists d,
    Parameterized.get_parameters Base true false true before = (before, Ok d) /\
    Parameterized.get_parameters Base true false true after = (after, Ok d) /\
    view (heap before) d <> view (heap after) d.
Proof.
  split; [reflexivity|]. split; [reflexivity|].
  exists [("label", 1%nat); ("size", 0%nat)].
  split; [reflexivity|]. split; [reflexivity|].
  intros H. vm_compute in H. discriminate H.
Qed.

(** ** Descriptors: conversion and construction *)

(** C5, as the code has it: [convert] works on the value given, the
    default standing in for [None]. Without a type it returns that value
    as it is. With a type, a [ValueError] of the converter becomes a
    [ValueError] whose message gives the [repr] of that value, the name
    of the type and the name of the parameter; any other exception of
    the converter leaves [convert] as it is; in both cases [convert]
    raises and returns no value. *)
Theorem convert_surfaces_failures (self : Parameter_.t) (value : pyvalue) :
  (is_object (Parameter_.cls self) = true ->
     Parameter_.convert self value = Ok (Parameter_.effective self value)) /\
  (is_object (Parameter_.cls self) = true -> value <> VNone ->
     Parameter_.convert self value = Ok value) /\
  (forall e, is_object (Parameter_.cls self) = false ->
     call (Parameter_.cls self) (Parameter_.effective self value) = Raise e ->
     exn_class e = ValueError ->
     Parameter_.convert self value =
     Raise (Exception ValueError
              [VStr ("Could not convert " +:+ py_repr (Parameter_.effective self value)
                     +:+ " to " +:+ __name__ (Parameter_.cls self)
                     +:+ " for parameter '" +:+ Parameter_.name self +:+ "'")])) /\
  (forall e, is_object (Parameter_.cls self) = false ->
     call (Parameter_.cls self) (Parameter_.effective self value) = Raise e ->
     exn_class e <> ValueError ->
     Parameter_.convert self value = Raise e) /\
  (forall e, is_object (Parameter_.cls self) = false ->
     call (Parameter_.cls self) (Parameter_.effective self value) = Raise e ->
     is_ok (Parameter_.convert self value) = false).
Proof.
  unfold Parameter_.convert. repeat split.
  - intros ->. reflexivity.
  - intros -> Hv. destruct value; try reflexivity. contradiction.
  - intros e -> -> ->. reflexivity.
  - intros e -> -> Hk. destruct (exn_class e); try reflexivity. contradiction.
  - intros e -> ->. destruct (exn_class e); reflexivity.
Qed.

Lemma convert_surfaces_failures_witness :
  Parameter_.convert (Parameter_.Build class_Parameter "size" (VInt 10) cls_int "" false)
    (VStr "ten") =
  Raise (Exception ValueError [VStr "Could not convert 'ten' to int for parameter 'size'"]).
Proof.
  exact (proj1 (proj2 (proj2 (convert_surfaces_failures
           (Parameter_.Build class_Parameter "size" (VInt 10) cls_int "" false) (VStr "ten"))))
           (Exception ValueError [VStr "invalid literal for int() with base 10: 'ten'"])
           eq_refl eq_refl eq_refl).
Defined.

(** C5 as stated fails: [int] fails on a list with a [TypeError], which
    [convert] does not catch, so what reaches the caller is the error of
    [int], without the name of the parameter; and without a type
    [convert(None)] returns the default, not [None]. *)
Lemma convert_lets_type_errors_through :
  let size := Parameter_.Build class_Parameter "size" (VInt 10) cls_int "" false in
  let untyped := Parameter_.Build class_Parameter "u" (VInt 7) cls_object "" false in
  is_ok (call cls_int (VList [])) = false /\
  Parameter_.convert size (VList []) =
    Raise (Exception TypeError
             [VStr "int() argument must be a string, a bytes-like object or a real number, not 'list'"]) /\
  Parameter_.convert size (VList []) <> Raise (Parameter_.conversion_error size (VList [])) /\
  Parameter_.convert untyped VNone = Ok (VInt 7).
Proof.
  repeat split. intros H. vm_compute in H. discriminate H.
Qed.

(** C6, as the code has it: without a type construction completes and
    logs nothing; with a type on which the converter returns,
    construction completes and logs one warning exactly when the
    converted default differs from the default; when the converter
    raises on the default, construction raises that exception. *)
Theorem construction_warns_or_raises k name default_value cls description hidden :
  let self := Parameter_.Build k name default_value cls description hidden in
  (is_object cls = true ->
     Parameter_.__init__ k name default_value cls description hidden = Ok (self, [])) /\
  (forall v, is_object cls = false -> call cls default_value = Ok v ->
     py_eq v default_value = true ->
     Parameter_.__init__ k name default_value cls description hidden = Ok (self, [])) /\
  (forall v, is_object cls = false -> call cls default_value = Ok v ->
     py_eq v default_value = false ->
     Parameter_.__init__ k name default_value cls description hidden =
     Ok (self, ["Default value `" +:+ name +:+ "` does not seem to be of type `"
                +:+ __name__ cls +:+ "`"])) /\
  (forall e, is_object cls = false -> call cls default_value = Raise e ->
     Parameter_.__init__ k name default_value cls description hidden = Raise e /\
     forall w, new_descriptor k name default_value cls description hidden w = (w, Raise e)).
Proof.
  unfold Parameter_.__init__, py_ne. repeat split.
  - intros ->. reflexivity.
  - intros v -> -> ->. reflexivity.
  - intros v -> -> ->. reflexivity.
  - rewrite H, H0. reflexivity.
  - intros w. unfold new_descriptor, bind, lift, Parameter_.__init__. rewrite H, H0. reflexivity.
Qed.

Lemma construction_warns_or_raises_witness :
  Parameter_.__init__ class_Parameter "n" (VStr "12") cls_int "" false =
  Ok (Parameter_.Build class_Parameter "n" (VStr "12") cls_int "" false,
      ["Default value `n` does not seem to be of type `int`"]).
Proof.
  exact (proj1 (proj2 (proj2 (construction_warns_or_raises
           class_Parameter "n" (VStr "12") cls_int "" false)))
           (VInt 12) eq_refl eq_refl eq_refl).
Defined.

(** C6 as stated fails: [Parameter('n', 'abc', int)] raises the
    [ValueError] of [int('abc')]. *)
Lemma construction_raises_on_bad_default :
  Parameter_.__init__ class_Parameter "n" (VStr "abc") cls_int "" false =
    Raise (Exception ValueError [VStr "invalid literal for int() with base 10: 'abc'"]) /\
  snd (new_descriptor class_Parameter "n" (VStr "abc") cls_int "" false initial_world) =
    Raise (Exception ValueError [VStr "invalid literal for int() with base 10: 'abc'"]).
Proof. split; reflexivity. Qed.

(** A descriptor that could be constructed converts its default. *)
Lemma constructed_default_converts k name default_value cls description hidden self msgs :
  Parameter_.__init__ k name default_value cls description hidden = Ok (self, msgs) ->
  is_ok (Parameter_.convert self VNone) = true.
Proof.
  unfold Parameter_.__init__, Parameter_.convert.
  destruct (is_object cls) eqn:Hobj.
  - intros [= <- _]. simpl. rewrite Hobj. reflexivity.
  - destruct (call cls default_value) as [v|e] eqn:Hcall; [|discriminate].
    intros H. assert (Hself : self = Parameter_.Build k name default_value cls description hidden)
      by (destruct (py_ne v default_value); congruence).
    subst self. simpl. rewrite Hobj, Hcall. reflexivity.
Qed.

(** ** The scenario *)

(** C1, as the code has it: in the scenario the default listing of
    [Derived] has the single key [size], bound to the descriptor with
    default 20. Construction binds with [allow_hidden=True], so
    [Derived({'size': 5})] holds [label] with its default next to
    [size], and [Derived({'label': 'y'})] succeeds and holds ['y']. It
    is binding with [allow_hidden=False] that holds [size] alone and
    rejects [label] as not defined for the class. *)
Theorem scenario_hidden_label_stays_settable :
  Parameterized.get_parameters Derived false false true scenario_world
    = (scenario_world, Ok [("size", 2%nat)]) /\
  Parameter_.default_value <$> heap scenario_world !! 2%nat = Some (VInt 20) /\
  snd (instantiate Derived (Some [("size", VInt 5)]) scenario_world)
    = Ok (Object Derived (Some "Derived") (Some [("label", VStr "x"); ("size", VInt 5)])) /\
  snd (instantiate Derived (Some [("label", VStr "y")]) scenario_world)
    = Ok (Object Derived (Some "Derived") (Some [("label", VStr "y"); ("size", VInt 20)])) /\
  Parameterized._parse_parameters Derived (Some [("size", VInt 5)]) true false false scenario_world
    = (scenario_world, Ok [("size", VInt 5)]) /\
  Parameterized._parse_parameters Derived (Some [("label", VStr "y")]) true false false
    scenario_world
    = (scenario_world,
       Raise (Exception ValueError
                [VStr "Parameters `['label']` were provided in instance specific parameters but are not defined for the class `Derived`."])).
Proof. repeat split. Qed.

(** C1 as stated fails: under the flags of construction
    [Derived({'label': 'y'})] does not fail. *)
Lemma scenario_hidden_label_accepted :
  snd (instantiate Derived (Some [("label", VStr "y")]) scenario_world)
    = Ok (Object Derived (Some "Derived") (Some [("label", VStr "y"); ("size", VInt 20)])) /\
  snd (instantiate Derived (Some [("size", VInt 5)]) scenario_world)
    <> Ok (Object Derived (Some "Derived") (Some [("size", VInt 5)])).
Proof. split; [reflexivity|]. intros H. vm_compute in H. discriminate H. Qed.

(** ** Binding *)

Lemma bind_parameter_eq ah res ov k r o w :
  heap w !! r = Some o ->
  Parameterized.bind_parameter ah (res, ov) (k, r) w =
  if negb ah && Parameter_.hidden o then (w, Ok (res, ov))
  else match Parameter_.convert o (fst (dict_pop k VNone ov)) with
       | Ok v => (w, Ok (dict_set k v res, snd (dict_pop k VNone ov)))
       | Raise e => (w, Raise e)
       end.
Proof.
  intros Ho. unfold Parameterized.bind_parameter, bind, deref, lift, ret. simpl. rewrite Ho.
  destruct (negb ah && Parameter_.hidden o); [reflexivity|].
  destruct (Parameter_.convert o _); reflexivity.
Qed.

Lemma bind_parameter_dangling ah acc k r w :
  heap w !! r = None ->
  Parameterized.bind_parameter ah acc (k, r) w = stuck "dangling reference" w.
Proof.
  intros Ho. unfold Parameterized.bind_parameter, bind, deref. simpl. rewrite Ho. reflexivity.
Qed.

Lemma bind_parameter_world ah acc item w :
  fst (Parameterized.bind_parameter ah acc item w) = w.
Proof.
  destruct acc as [res ov], item as [k r]. destruct (heap w !! r) as [o|] eqn:Ho.
  - rewrite (bind_parameter_eq ah res ov k r o w Ho).
    destruct (negb ah && Parameter_.hidden o); [reflexivity|].
    destruct (Parameter_.convert o _); reflexivity.
  - rewrite (bind_parameter_dangling ah _ k r w Ho). reflexivity.
Qed.

Lemma bind_parameters_world ah es acc w :
  fst (for_each (Parameterized.bind_parameter ah) es acc w) = w.
Proof.
  apply (for_each_invariant (fun w w' => w' = w)); [reflexivity|congruence|].
  intros; apply bind_parameter_world.
Qed.

Lemma dict_remove_comm {V} k1 k2 (d : dict V) :
  dict_remove k1 (dict_remove k2 d) = dict_remove k2 (dict_remove k1 d).
Proof.
  induction d as [|[k v] d IH]; simpl; [reflexivity|].
  destruct (String.eqb k k2) eqn:E2, (String.eqb k k1) eqn:E1; simpl;
    rewrite ?E1, ?E2, ?IH; reflexivity.
Qed.

Lemma dict_pop_none_removed n k ov1 ov2 :
  none_removed n ov1 ov2 -> k <> n ->
  fst (dict_pop k VNone ov2) = fst (dict_pop k VNone ov1) /\
  none_removed n (snd (dict_pop k VNone ov1)) (snd (dict_pop k VNone ov2)).
Proof.
  intros [Hn ->] Hk. unfold dict_pop. rewrite dict_get_remove.
  apply String.eqb_neq in Hk. rewrite String.eqb_sym, Hk.
  destruct (dict_get k ov1); simpl.
  - split; [reflexivity|]. split; [|apply dict_remove_comm].
    rewrite dict_get_remove, Hk. exact Hn.
  - split; [reflexivity|]. split; [exact Hn|reflexivity].
Qed.

Lemma dict_pop_none n ov1 ov2 :
  none_removed n ov1 ov2 ->
  dict_pop n VNone ov1 = (VNone, ov2) /\ dict_pop n VNone ov2 = (VNone, ov2).
Proof.
  intros [Hn ->]. unfold dict_pop. rewrite Hn, dict_get_remove, String.eqb_refl. auto.
Qed.

Lemma bind_parameters_none ah n es :
  forall res ov1 ov2 w r o,
  none_removed n ov1 ov2 ->
  In (n, r) es -> heap w !! r = Some o -> negb ah && Parameter_.hidden o = false ->
  for_each (Parameterized.bind_parameter ah) es (res, ov1) w =
  for_each (Parameterized.bind_parameter ah) es (res, ov2) w.
Proof.
  induction es as [|[k r0] es IH]; intros res ov1 ov2 w r o Hrel Hin Ho Hvis; [destruct Hin|].
  cbn [for_each]. unfold bind.
  destruct (heap w !! r0) as [o0|] eqn:Ho0.
  2:{ rewrite !(bind_parameter_dangling ah _ k r0 w Ho0). reflexivity. }
  rewrite !(bind_parameter_eq ah res _ k r0 o0 w Ho0).
  destruct (String.eqb k n) eqn:Ek.
  - apply String.eqb_eq in Ek; subst k.
    destruct (dict_pop_none n ov1 ov2 Hrel) as [-> ->].
    destruct (negb ah && Parameter_.hidden o0) eqn:Hskip.
    + destruct Hin as [[= ->]|Hin]; [congruence|].
      eapply IH; eassumption.
    + reflexivity.
  - apply String.eqb_neq in Ek.
    destruct Hin as [[= -> ->]|Hin]; [congruence|].
    destruct (dict_pop_none_removed n k ov1 ov2 Hrel Ek) as [-> Hrel'].
    destruct (negb ah && Parameter_.hidden o0); [eapply IH; eassumption|].
    destruct (Parameter_.convert o0 _); [|reflexivity].
    eapply IH; eassumption.
Qed.

(** Names that the loop does not come across keep what they had. *)
Lemma bind_parameters_other ah x es :
  forall res ov w w' res' ov',
  for_each (Parameterized.bind_parameter ah) es (res, ov) w = (w', Ok (res', ov')) ->
  ~ In x (dict_keys es) ->
  dict_get x res' = dict_get x res /\ dict_get x ov' = dict_get x ov.
Proof.
  induction es as [|[k r0] es IH]; intros res ov w w' res' ov'.
  - intros [= _ <- <-] _. auto.
  - cbn [for_each]. unfold bind. intros Hrun Hx.
    assert (Hk : k <> x) by (intros ->; apply Hx; left; reflexivity).
    assert (Hx' : ~ In x (dict_keys es)) by (intros H; apply Hx; right; exact H).
    destruct (heap w !! r0) as [o0|] eqn:Ho0.
    2:{ rewrite (bind_parameter_dangling ah _ k r0 w Ho0) in Hrun. discriminate. }
    rewrite (bind_parameter_eq ah res ov k r0 o0 w Ho0) in Hrun.
    destruct (negb ah && Parameter_.hidden o0); [eapply IH; eassumption|].
    destruct (Parameter_.convert o0 _) as [v|e]; [|discriminate].
    destruct (IH _ _ _ _ _ _ Hrun Hx') as [-> ->].
    rewrite dict_get_set_ne by exact Hk. split; [reflexivity|].
    unfold dict_pop. destruct (dict_get k ov); simpl; [|reflexivity].
    rewrite dict_get_remove. apply String.eqb_neq in Hk. rewrite Hk. reflexivity.
Qed.

Lemma bind_parameters_stored ah n es :
  forall res ov w w' res' ov' r o,
  for_each (Parameterized.bind_parameter ah) es (res, ov) w = (w', Ok (res', ov')) ->
  List.NoDup (dict_keys es) ->
  In (n, r) es -> heap w !! r = Some o -> negb ah && Parameter_.hidden o = false ->
  (exists v, Parameter_.convert o (fst (dict_pop n VNone ov)) = Ok v /\
             dict_get n res' = Some v) /\
  dict_get n ov' = None.
Proof.
  induction es as [|[k r0] es IH]; intros res ov w w' res' ov' r o Hrun Hnd Hin Ho Hvis;
    [destruct Hin|].
  cbn [for_each] in Hrun. unfold bind in Hrun.
  inversion Hnd as [|? ? Hnin Hnd']; subst.
  destruct (heap w !! r0) as [o0|] eqn:Ho0.
  2:{ rewrite (bind_parameter_dangling ah _ k r0 w Ho0) in Hrun. discriminate. }
  rewrite (bind_parameter_eq ah res ov k r0 o0 w Ho0) in Hrun.
  destruct Hin as [[= -> ->]|Hin].
  - rewrite Ho in Ho0. injection Ho0 as <-. rewrite Hvis in Hrun.
    destruct (Parameter_.convert o _) as [v|e]; [|discriminate].
    destruct (bind_parameters_other _ n _ _ _ _ _ _ _ Hrun Hnin) as [-> ->].
    rewrite dict_get_set_eq. split; [exists v; auto|].
    unfold dict_pop. destruct (dict_get n ov) eqn:Hn; simpl; [|exact Hn].
    rewrite dict_get_remove, String.eqb_refl. reflexivity.
  - assert (Hk : k <> n).
    { intros ->. apply Hnin. apply in_map_iff. exists (n, r). auto. }
    assert (Hpop : fst (dict_pop n VNone (snd (dict_pop k VNone ov))) = fst (dict_pop n VNone ov)).
    { unfold dict_pop at 2. destruct (dict_get k ov); simpl; [|reflexivity].
      unfold dict_pop. rewrite dict_get_remove. apply String.eqb_neq in Hk. rewrite Hk.
      destruct (dict_get n ov); reflexivity. }
    destruct (negb ah && Parameter_.hidden o0); [eapply IH; eassumption|].
    destruct (Parameter_.convert o0 _) as [v|e]; [|discriminate].
    rewrite <- Hpop. eapply IH; eassumption.
Qed.

Lemma merge_class_NoDup ih idep d c w w' d' :
  Parameterized.merge_class ih idep d c w = (w', Ok d') ->
  List.NoDup (dict_keys d) -> List.NoDup (dict_keys d').
Proof.
  unfold Parameterized.merge_class.
  destruct (parameters_default (classes w) c) as [[l|dd]|].
  - apply merge_declarations_NoDup.
  - destruct (dict_keys dd); simpl; [|discriminate]. intros [= _ <-] H. exact H.
  - intros [= _ <-] H. exact H.
Qed.

Lemma get_parameters_NoDup c ih idep srt w w' d :
  Parameterized.get_parameters c ih idep srt w = (w', Ok d) -> List.NoDup (dict_keys d).
Proof.
  unfold Parameterized.get_parameters, bind, get_class.
  destruct (classes w !! c) as [k|]; [|discriminate].
  assert (H : forall l d0 w0 w1 d1,
             for_each (Parameterized.merge_class ih idep) l d0 w0 = (w1, Ok d1) ->
             List.NoDup (dict_keys d0) -> List.NoDup (dict_keys d1)).
  { induction l as [|x l IH]; intros d0 w0 w1 d1.
    - intros [= _ <-] H. exact H.
    - cbn [for_each]. unfold bind.
      destruct (Parameterized.merge_class ih idep d0 x w0) as [w2 [d2|e]] eqn:E; [|discriminate].
      intros Hrun Hnd. eapply IH; [exact Hrun|]. eapply merge_class_NoDup; eassumption. }
  destruct (for_each (Parameterized.merge_class ih idep) _ [] w)
    as [w1 [d1|e]] eqn:E; [|discriminate].
  intros [= _ <-]. apply H in E; [|constructor].
  destruct srt; [apply NoDup_dict_sorted|]; exact E.
Qed.

Lemma dict_get_update {V} x (other d : dict V) :
  dict_get x other = None -> dict_get x (dict_update d other) = dict_get x d.
Proof.
  unfold dict_update. revert d. induction other as [|[k v] other IH]; intros d; simpl.
  - reflexivity.
  - destruct (String.eqb k x) eqn:E; [discriminate|]. intros H.
    rewrite IH by exact H. apply dict_get_set_ne. apply String.eqb_neq, E.
Qed.

(** C10, as the code has it: for a name [n] that the bind comes to
    convert -- a key of the mapping resolved for the flags of the bind,
    and not skipped as hidden under [allow_hidden=False] -- overrides
    holding [None] under [n] bind to the same outcome as the overrides
    without [n], and a successful bind stores under [n] the converted
    default. *)
Theorem none_override_means_default c ov cv ah idep n w w' es r o :
  Parameterized.get_parameters c ah idep true w = (w', Ok es) ->
  dict_get n es = Some r ->
  heap w' !! r = Some o ->
  negb ah && Parameter_.hidden o = false ->
  dict_get n ov = Some VNone ->
  Parameterized._parse_parameters c (Some ov) cv ah idep w =
    Parameterized._parse_parameters c (Some (dict_remove n ov)) cv ah idep w /\
  forall w'' res, Parameterized._parse_parameters c (Some ov) cv ah idep w = (w'', Ok res) ->
    exists v, Parameter_.convert o VNone = Ok v /\ dict_get n res = Some v.
Proof.
  intros Hres Hn Ho Hvis Hov. apply dict_get_In in Hn.
  unfold Parameterized._parse_parameters, bind. rewrite Hres. split.
  - pose proof (bind_parameters_none ah n es [] ov (dict_remove n ov) w' r o
                  (conj Hov eq_refl) Hn Ho Hvis) as E.
    match goal with
    | |- (let (_, _) := ?a in _) = (let (_, _) := ?b in _) => replace a with b by (symmetry; exact E)
    end.
    reflexivity.
  - intros w'' res.
    destruct (for_each (Parameterized.bind_parameter ah) es ([], ov) w')
      as [w2 [[res2 ov2]|e]] eqn:Hrun; [|discriminate].
    destruct (bind_parameters_stored ah n es _ _ _ _ _ _ r o Hrun
                (get_parameters_NoDup _ _ _ _ _ _ _ Hres) Hn Ho Hvis) as [(v & Hv & Hget) Hleft].
    unfold dict_pop in Hv. rewrite Hov in Hv. simpl in Hv.
    assert (Hfinal : dict_get n (dict_update res2 ov2) = Some v)
      by (rewrite dict_get_update; assumption).
    simpl. intros Hout. exists v. split; [exact Hv|].
    destruct ov2 as [|e2 ov2]; [|destruct cv].
    + injection Hout as _ <-. exact Hfinal.
    + unfold get_class, raise in Hout. destruct (classes w2 !! c); discriminate.
    + injection Hout as _ <-. exact Hfinal.
Qed.

Lemma none_override_means_default_witness :
  Parameterized._parse_parameters Derived (Some [("size", VNone)]) true true false scenario_world =
    Parameterized._parse_parameters Derived (Some []) true true false scenario_world /\
  exists w'' res,
    Parameterized._parse_parameters Derived (Some [("size", VNone)]) true true false scenario_world
      = (w'', Ok res) /\
    dict_get "size" res = Some (VInt 20).
Proof.
  destruct (none_override_means_default Derived [("size", VNone)] true true false "size"
              scenario_world
              (fst (Parameterized.get_parameters Derived true false true scenario_world))
              [("label", 1%nat); ("size", 2%nat)] 2%nat
              (Parameter_.Build class_Parameter "size" (VInt 20) cls_int "" false)
              eq_refl eq_refl eq_refl eq_refl eq_refl) as [H1 H2].
  split; [exact H1|].
  eexists _, _. split; [reflexivity|reflexivity].
Defined.

(** C10 as stated fails for a declared parameter that the bind does not
    come to convert. [h] is declared hidden and is a key of the mapping
    resolved for [Flagged]; under [allow_hidden=False] the bind skips
    it, so with [check_validity=False] the override [{'h': None}] is
    stored as [None], unlike the bind without it. [z] is declared
    deprecated; under the flags of construction [{'z': None}] is rejected
    while construction without overrides succeeds. *)
Lemma none_override_is_stored_or_rejected :
  snd (Parameterized.get_parameters class_Flagged false false true flagged_world)
    = Ok [("h", 0%nat)] /\
  snd (Parameterized._parse_parameters class_Flagged (Some [("h", VNone)]) false false false
         flagged_world) = Ok [("h", VNone)] /\
  snd (Parameterized._parse_parameters class_Flagged (Some []) false false false
         flagged_world) = Ok [] /\
  is_ok (snd (instantiate class_Flagged (Some [("z", VNone)]) flagged_world)) = false /\
  snd (instantiate class_Flagged (Some []) flagged_world)
    = Ok (Object class_Flagged (Some "Flagged") (Some [("h", VInt 1)])).
Proof. repeat split. Qed.

(** ** Deprecated parameters *)

Lemma bind_parameters_defaults ah es :
  forall res ov w,
  (forall k r0, In (k, r0) es ->
     dict_get k ov = None /\
     exists o, heap w !! r0 = Some o /\ is_ok (Parameter_.convert o VNone) = true) ->
  exists res', for_each (Parameterized.bind_parameter ah) es (res, ov) w = (w, Ok (res', ov)).
Proof.
  induction es as [|[k r0] es IH]; intros res ov w Hall.
  - exists res. reflexivity.
  - destruct (Hall k r0 (or_introl eq_refl)) as (Hk & o & Ho & Hc).
    assert (Hall' : forall k r1, In (k, r1) es ->
               dict_get k ov = None /\
               exists o, heap w !! r1 = Some o /\ is_ok (Parameter_.convert o VNone) = true)
      by (intros; apply Hall; right; assumption).
    cbn [for_each]. unfold bind. rewrite (bind_parameter_eq ah res ov k r0 o w Ho).
    destruct (negb ah && Parameter_.hidden o); [apply IH, Hall'|].
    unfold dict_pop. rewrite Hk. simpl.
    destruct (Parameter_.convert o VNone) as [x|e]; [|discriminate].
    apply IH, Hall'.
Qed.

Section Deprecated.
Variables (w : world) (c : classid) (k : pyclass) (z : string).
Variables (pre post : list declaration) (rz : ref) (oz : Parameter_.t).
Hypothesis Hk : classes w !! c = Some k.
Hypothesis Hnorm : normalised (classes w) k = true.
Hypothesis Hchain : chain (classes w) k = pre ++ Declared rz :: post.
Hypothesis Hconv : defaults_convert (heap w) (chain (classes w) k) = true.
Hypothesis Hoz : heap w !! rz = Some oz.
Hypothesis Hname : Parameter_.name oz = z.
Hypothesis Hdep : Parameter_.is_deprecated oz = true.
Hypothesis Hpre : deprecated_where_named (heap w) z pre = true.
Hypothesis Hpost : unmentioned (heap w) z post = true.

Lemma named_deprecated r o :
  In (Declared r) (chain (classes w) k) -> heap w !! r = Some o ->
  Parameter_.name o = z -> Parameter_.is_deprecated o = true.
Proof.
  rewrite Hchain. intros Hin Ho Hn. apply in_app_or in Hin as [Hin|[[= ->]|Hin]].
  - unfold deprecated_where_named in Hpre. rewrite forallb_forall in Hpre.
    specialize (Hpre _ Hin). simpl in Hpre. rewrite Ho, Hn, String.eqb_refl in Hpre.
    exact Hpre.
  - congruence.
  - unfold unmentioned in Hpost. rewrite forallb_forall in Hpost.
    specialize (Hpost _ Hin). unfold mentions in Hpost. simpl in Hpost.
    rewrite Ho in Hpost. simpl in Hpost. rewrite Hn, String.eqb_refl in Hpost. discriminate.
Qed.

(** Where an entry of a resolved mapping comes from, and what stands
    behind it in the store that the resolution leaves. *)
Lemma resolved_entry ih idep srt w' d n r :
  Parameterized.get_parameters c ih idep srt w = (w', Ok d) ->
  In (n, r) d ->
  exists o o', In (Declared r) (chain (classes w) k) /\
               heap w !! r = Some o /\ heap w' !! r = Some o' /\ hidden_only o o' /\
               Parameter_.name o = n /\ inserted idep o = true /\
               is_ok (Parameter_.convert o' VNone) = true.
Proof.
  intros Hrun. pose proof (get_parameters_frame c ih idep srt w) as F.
  rewrite Hrun in F. simpl in F. revert Hrun.
  rewrite (get_parameters_chain c k ih idep srt w Hk Hnorm).
  destruct (for_each (Parameterized.merge_declaration ih idep) _ [] w)
    as [w1 [d1|e]] eqn:Hrun; [|discriminate].
  intros [= -> <-] Hin.
  assert (Hin1 : In (n, r) d1) by (destruct srt; [apply In_dict_sorted|]; exact Hin).
  destruct (merge_declarations_source _ _ _ _ _ _ _ _ _ Hrun Hin1)
    as [[]|(Hl & o & Hr & Hn & Ha)].
  pose proof (frame_lookup _ _ r F) as Hr'. rewrite Hr in Hr'.
  inversion Hr' as [? o' Hoo Heq1 Heq2|]; subst.
  exists o, o'. repeat split; try assumption; try reflexivity.
  unfold defaults_convert in Hconv. rewrite forallb_forall in Hconv.
  specialize (Hconv _ Hl). simpl in Hconv. rewrite Hr in Hconv.
  destruct Hoo as [->| ->]; exact Hconv.
Qed.

Lemma deprecated_absent ih srt w' d :
  Parameterized.get_parameters c ih false srt w = (w', Ok d) -> dict_get z d = None.
Proof.
  intros Hrun. destruct (dict_get z d) as [r|] eqn:Hget; [|reflexivity].
  apply dict_get_In in Hget.
  destruct (resolved_entry _ _ _ _ _ _ _ Hrun Hget) as (o & o' & Hl & Hr & _ & _ & Hn & Ha & _).
  unfold inserted in Ha. rewrite (named_deprecated r o Hl Hr Hn) in Ha. discriminate.
Qed.

Lemma deprecated_present ih srt w' d :
  Parameterized.get_parameters c ih true srt w = (w', Ok d) -> dict_get z d = Some rz.
Proof.
  rewrite (get_parameters_chain c k ih true srt w Hk Hnorm), Hchain.
  destruct (for_each (Parameterized.merge_declaration ih true) _ [] w)
    as [w1 [d1|e]] eqn:Hrun; [|discriminate].
  intros [= _ <-]. rewrite <- Hname in *.
  pose proof (merge_last_declaration _ _ _ _ _ _ _ _ _ _ Hrun Hoz eq_refl Hpost) as Hget.
  destruct srt; [rewrite dict_get_sorted|]; exact Hget.
Qed.

Lemma deprecated_rejected ah v w' es :
  Parameterized.get_parameters c ah false true w = (w', Ok es) ->
  Parameterized._parse_parameters c (Some [(z, v)]) true ah false w =
  (w', Raise (Parameterized.unknown_parameters [(z, v)] (class_name k))).
Proof.
  intros Hes. unfold Parameterized._parse_parameters, bind. rewrite Hes.
  pose proof (get_parameters_frame c ah false true w) as F. rewrite Hes in F. simpl in F.
  destruct (bind_parameters_defaults ah es [] [(z, v)] w') as [res' Hloop].
  { intros n r Hin.
    destruct (resolved_entry _ _ _ _ _ _ _ Hes Hin)
      as (o & o' & Hl & Hr & Hr' & _ & Hn & Ha & Hc).
    split; [|exists o'; auto].
    simpl. destruct (String.eqb z n) eqn:E; [|reflexivity].
    apply String.eqb_eq in E. rewrite <- E in Hn.
    unfold inserted in Ha. rewrite (named_deprecated r o Hl Hr Hn) in Ha. discriminate. }
  rewrite Hloop. simpl. unfold get_class. destruct F as (-> & _). rewrite Hk. reflexivity.
Qed.

Lemma deprecated_accepted ah v v' w' es :
  negb ah && Parameter_.hidden oz = false ->
  Parameter_.convert oz v = Ok v' ->
  Parameterized.get_parameters c ah true true w = (w', Ok es) ->
  exists res, Parameterized._parse_parameters c (Some [(z, v)]) true ah true w = (w', Ok res) /\
              dict_get z res = Some v'.
Proof.
  intros Hvis Hv Hes. unfold Parameterized._parse_parameters, bind. rewrite Hes.
  pose proof (get_parameters_NoDup _ _ _ _ _ _ _ Hes) as Hnd.
  pose proof (dict_get_In _ _ _ (deprecated_present _ _ _ _ Hes)) as Hin.
  destruct (resolved_entry _ _ _ _ _ _ _ Hes Hin)
    as (o & oz' & _ & Hr & Hoz' & Hoo & _ & _ & _).
  rewrite Hoz in Hr. injection Hr as <-.
  assert (Hvis' : negb ah && Parameter_.hidden oz' = false).
  { destruct ah; [reflexivity|].
    pose proof (get_parameters_pure c true true w) as P. rewrite Hes in P. simpl in P.
    subst w'. rewrite Hoz in Hoz'. injection Hoz' as <-. exact Hvis. }
  assert (Hv' : Parameter_.convert oz' v = Ok v') by (destruct Hoo as [->| ->]; exact Hv).
  destruct (in_split _ _ Hin) as (es1 & es2 & Hsplit).
  assert (Hentries : forall n r, In (n, r) es ->
            exists o, heap w' !! r = Some o /\ is_ok (Parameter_.convert o VNone) = true).
  { intros n r Hi.
    destruct (resolved_entry _ _ _ _ _ _ _ Hes Hi) as (o1 & o1' & _ & _ & Hr' & _ & _ & _ & Hc).
    exists o1'. auto. }
  rewrite Hsplit in Hnd, Hentries. unfold dict_keys in Hnd. rewrite map_app in Hnd. simpl in Hnd.
  apply NoDup_remove in Hnd as [_ Hz].
  assert (Hz1 : ~ In z (dict_keys es1)) by (intros H; apply Hz, in_or_app; left; exact H).
  assert (Hz2 : ~ In z (dict_keys es2)) by (intros H; apply Hz, in_or_app; right; exact H).
  destruct (bind_parameters_defaults ah es1 [] [(z, v)] w') as [res1 Hloop1].
  { intros n r Hi. split; [|apply (Hentries n r), in_or_app; left; exact Hi].
    simpl. destruct (String.eqb z n) eqn:E; [|reflexivity].
    apply String.eqb_eq in E; subst n. exfalso. apply Hz1.
    apply in_map_iff. exists (z, r). auto. }
  destruct (bind_parameters_defaults ah es2 (dict_set z v' res1) [] w') as [res2 Hloop2].
  { intros n r Hi. split; [reflexivity|].
    apply (Hentries n r), in_or_app. right. right. exact Hi. }
  assert (Hloop : for_each (Parameterized.bind_parameter ah) es ([], [(z, v)]) w'
                  = (w', Ok (res2, []))).
  { rewrite Hsplit, for_each_app, Hloop1. cbn [for_each]. unfold bind.
    rewrite (bind_parameter_eq ah res1 [(z, v)] z rz oz' w' Hoz'), Hvis'.
    unfold dict_pop. simpl. rewrite String.eqb_refl. simpl. rewrite Hv'. exact Hloop2. }
  rewrite Hloop. simpl. exists res2. split; [reflexivity|].
  destruct (bind_parameters_other _ z _ _ _ _ _ _ _ Hloop2 Hz2) as [-> _].
  apply dict_get_set_eq.
Qed.

End Deprecated.

(** C9: let [rz] be the last declaration of [z] in the chain of a class,
    deprecated, let every other declaration of [z] in the chain be
    deprecated as well, and let the defaults of the descriptors of the
    chain convert. Then every listing resolved without
    [include_deprecated] has no key [z] and every listing resolved with
    it binds [z] to [rz]. A bind with validity checking on, for a class
    that resolves under the flags of the bind, rejects an override for
    [z] as not defined for the class when it does not ask for
    [include_deprecated], and accepts it, storing the converted value,
    when it does (and does not skip [z] as hidden). The class resolves
    under all flags when its chain holds descriptors only. *)
Theorem deprecated_needs_include_deprecated c k ah w z pre rz oz post v v' :
  classes w !! c = Some k ->
  normalised (classes w) k = true ->
  chain (classes w) k = pre ++ Declared rz :: post ->
  defaults_convert (heap w) (chain (classes w) k) = true ->
  heap w !! rz = Some oz ->
  Parameter_.name oz = z ->
  Parameter_.is_deprecated oz = true ->
  deprecated_where_named (heap w) z pre = true ->
  unmentioned (heap w) z post = true ->
  negb ah && Parameter_.hidden oz = false ->
  Parameter_.convert oz v = Ok v' ->
  (forall ih srt w' d, Parameterized.get_parameters c ih false srt w = (w', Ok d) ->
     dict_get z d = None) /\
  (forall ih srt w' d, Parameterized.get_parameters c ih true srt w = (w', Ok d) ->
     dict_get z d = Some rz) /\
  (forall w' es, Parameterized.get_parameters c ah false true w = (w', Ok es) ->
     Parameterized._parse_parameters c (Some [(z, v)]) true ah false w =
     (w', Raise (Parameterized.unknown_parameters [(z, v)] (class_name k)))) /\
  (forall w' es, Parameterized.get_parameters c ah true true w = (w', Ok es) ->
     exists res,
       Parameterized._parse_parameters c (Some [(z, v)]) true ah true w = (w', Ok res) /\
       dict_get z res = Some v') /\
  (descriptors_only (heap w) (chain (classes w) k) = true ->
   forall ih idep srt, exists d, Parameterized.get_parameters c ih idep srt w = (w, Ok d)).
Proof.
  intros Hk Hnorm Hchain Hconv Hoz Hname Hdep Hpre Hpost Hvis Hv.
  split; [|split; [|split; [|split]]].
  - intros ih srt w' d. eapply deprecated_absent; eassumption.
  - intros ih srt w' d. eapply deprecated_present; eassumption.
  - intros w' es. eapply deprecated_rejected; eassumption.
  - intros w' es. eapply deprecated_accepted; eassumption.
  - intros Hdesc ih idep srt.
    apply (get_parameters_descriptors c k ih idep srt w Hk Hnorm Hdesc).
Qed.

Lemma deprecated_needs_include_deprecated_witness :
  (exists d, Parameterized.get_parameters class_Flagged false false true flagged_world
               = (flagged_world, Ok d) /\ dict_get "z" d = None) /\
  (exists d, Parameterized.get_parameters class_Flagged false true true flagged_world
               = (flagged_world, Ok d) /\ dict_get "z" d = Some 1%nat) /\
  Parameterized._parse_parameters class_Flagged (Some [("z", VStr "9")]) true true false
    flagged_world
    = (flagged_world,
       Raise (Parameterized.unknown_parameters [("z", VStr "9")] "Flagged")) /\
  (exists res, Parameterized._parse_parameters class_Flagged (Some [("z", VStr "9")])
                 true true true flagged_world = (flagged_world, Ok res) /\
               dict_get "z" res = Some (VInt 9)).
Proof.
  destruct (deprecated_needs_include_deprecated class_Flagged
              (Class "Flagged" [2; 1; 0]%nat (Some (PDList [Declared 0%nat; Declared 1%nat])))
              true flagged_world "z" [Declared 0%nat] 1%nat
              (Parameter_.Build class_DeprecatedParameter "z" (VInt 2) cls_int "" false)
              [] (VStr "9") (VInt 9)
              eq_refl eq_refl eq_refl eq_refl eq_refl eq_refl eq_refl eq_refl eq_refl
              eq_refl eq_refl) as (H1 & H2 & H3 & H4 & H5).
  destruct (H5 eq_refl false false true) as [d0 Hd0].
  destruct (H5 eq_refl false true true) as [d1 Hd1].
  destruct (H5 eq_refl true false true) as [e0 He0].
  destruct (H5 eq_refl true true true) as [e1 He1].
  split; [exists d0; split; [exact Hd0|exact (H1 _ _ _ _ Hd0)]|].
  split; [exists d1; split; [exact Hd1|exact (H2 _ _ _ _ Hd1)]|].
  split; [exact (H3 _ _ He0)|exact (H4 _ _ He1)].
Defined.

(** ** The registry query *)

Lemma listing_of_names c w d :
  Parameterized.get_parameters c false false true w = (w, Ok d) ->
  listing_of None c w = (w, Ok (Names (list_to_set (dict_keys d)))).
Proof. intros H. unfold listing_of, bind. rewrite H. reflexivity. Qed.

Lemma resolves_by_default c w :
  is_ok (snd (Parameterized.get_parameters c false false true w)) = true ->
  exists d, Parameterized.get_parameters c false false true w = (w, Ok d).
Proof.
  pose proof (get_parameters_pure c false true w) as P.
  destruct (Parameterized.get_parameters c false false true w) as [w' [d|e]];
    simpl in *; [|discriminate].
  subst w'. intros _. exists d. reflexivity.
Qed.

Lemma collect_names reg :
  forall result w,
  forallb (fun e => is_ok (snd (Parameterized.get_parameters (snd e) false false true w))) reg
    = true ->
  exists res,
    for_each (collect None) reg result w = (w, Ok res) /\
    (forall x, ~ In x (dict_keys reg) -> dict_get x res = dict_get x result) /\
    (List.NoDup (dict_keys reg) ->
     forall n c, In (n, c) reg ->
       exists d, Parameterized.get_parameters c false false true w = (w, Ok d) /\
                 dict_get n res = Some (Names (list_to_set (dict_keys d)))).
Proof.
  induction reg as [|[n0 c0] reg IH]; intros result w Hall.
  - exists result. split; [reflexivity|]. split; [reflexivity|]. intros _ n c [].
  - simpl in Hall. apply andb_true_iff in Hall as [H0 Hall].
    destruct (resolves_by_default c0 w H0) as [d0 Hd0].
    destruct (IH (dict_set n0 (Names (list_to_set (dict_keys d0))) result) w Hall)
      as (res & Hrun & Hother & Hin).
    exists res. split; [|split].
    + cbn [for_each]. unfold bind at 1. unfold collect at 1. unfold bind at 1.
      cbn [fst snd]. rewrite (listing_of_names c0 w d0 Hd0). exact Hrun.
    + intros x Hx. rewrite Hother by (intros H; apply Hx; right; exact H).
      apply dict_get_set_ne. intros ->. apply Hx. left. reflexivity.
    + intros Hnd n c [[= -> ->]|Hi].
      * inversion Hnd as [|? ? Hnin _]; subst. exists d0. split; [exact Hd0|].
        rewrite Hother by exact Hnin. apply dict_get_set_eq.
      * inversion Hnd as [|? ? _ Hnd']; subst. apply Hin; assumption.
Qed.

(** C2, as the code has it: the mode of the names is [data=None], the
    text ['names'] is not a mode. When every registered class resolves
    under the default flags, [get_all_parameters()] succeeds, writes
    nothing, and holds under the name of every registered class the set
    of the keys of its default listing. A text other than ['value'] and
    ['description'] raises [ValueError] with [Cannot interpret data] and
    that text as soon as there is a registered class; with an empty
    registry the query returns an empty mapping. *)
Theorem registry_query_by_mode w s :
  List.NoDup (dict_keys (_subclasses w)) ->
  registry_resolves w = true ->
  s <> "value" -> s <> "description" ->
  (exists res,
     get_all_parameters None w = (w, Ok res) /\
     forall n c, In (n, c) (_subclasses w) ->
       exists d, Parameterized.get_parameters c false false true w = (w, Ok d) /\
                 dict_get n res = Some (Names (list_to_set (dict_keys d)))) /\
  get_all_parameters (Some s) w =
    match _subclasses w with
    | [] => (w, Ok [])
    | _ :: _ => (w, Raise (Exception ValueError [VStr ("Cannot interpret data `" +:+ s +:+ "`")]))
    end.
Proof.
  intros Hnd Hres Hv Hd. split.
  - destruct (collect_names (_subclasses w) [] w Hres) as (res & Hrun & _ & Hin).
    exists res. split; [exact Hrun|]. apply Hin, Hnd.
  - unfold get_all_parameters. destruct (_subclasses w) as [|[n c] reg]; [reflexivity|].
    cbn [for_each]. unfold bind at 1. unfold collect at 1. unfold bind at 1.
    unfold listing_of. apply String.eqb_neq in Hv, Hd. rewrite Hv, Hd. reflexivity.
Qed.

Lemma registry_query_by_mode_witness :
  (exists res,
     get_all_parameters None scenario_world = (scenario_world, Ok res) /\
     forall n c, In (n, c) [("Base", Base); ("Derived", Derived)] ->
       exists d, Parameterized.get_parameters c false false true scenario_world
                   = (scenario_world, Ok d) /\
                 dict_get n res = Some (Names (list_to_set (dict_keys d)))) /\
  get_all_parameters (Some "names") scenario_world =
    (scenario_world, Raise (Exception ValueError [VStr "Cannot interpret data `names`"])).
Proof.
  refine (registry_query_by_mode scenario_world "names" _ eq_refl _ _).
  - constructor; [simpl; intros [H|[]]; discriminate H|].
    constructor; [intros []|constructor].
  - discriminate.
  - discriminate.
Defined.

(** C2 as stated fails: the text ['names'] is rejected like any other
    unrecognised text; with an empty registry an unrecognised text does
    not fail; and the names query fails as a whole when one registered
    class does not resolve, as [Heir] here. *)
Lemma registry_query_rejects_names :
  snd (get_all_parameters (Some "names") scenario_world) =
    Raise (Exception ValueError [VStr "Cannot interpret data `names`"]) /\
  get_all_parameters (Some "bogus") initial_world = (initial_world, Ok []) /\
  dict_get "Heir" (_subclasses heir_world) = Some class_Heir /\
  snd (get_all_parameters None heir_world) = Raise (Exception KeyError [VStr "label"]).
Proof. repeat split. Qed.

(** ** Registration *)

Lemma normalise_dict d :
  forall acc w,
  exists w' l,
    for_each (fun acc args =>
                let* r := new_descriptor class_Parameter (fst args) (snd args)
                            cls_object "" false in
                ret (acc ++ [Declared r])) d acc w = (w', Ok l) /\
    classes w' = classes w /\ _subclasses w' = _subclasses w.
Proof.
  induction d as [|[n v] d IH]; intros acc w.
  - exists w, acc. auto.
  - cbn [for_each]. unfold bind at 1.
    destruct (IH (acc ++ [Declared (length (heap w))])
                (World (heap w ++ [Parameter_.Build class_Parameter n v cls_object "" false])
                   (classes w) (_subclasses w) (warnings w ++ [])))
      as (w' & l & Hrun & Hc & Hs).
    exists w', l. split; [exact Hrun|]. auto.
Qed.

(** [__init_subclass__] always completes and puts the class into the
    registry under its name, in place of a class registered under that
    name before. *)
Lemma init_subclass_registers c k w :
  classes w !! c = Some k ->
  exists w', Parameterized.__init_subclass__ c w = (w', Ok tt) /\
             _subclasses w' = dict_set (class_name k) c (_subclasses w).
Proof.
  intros Hk. unfold Parameterized.__init_subclass__, bind at 1, get_class. rewrite Hk.
  unfold bind at 1.
  destruct (parameters_default (classes w) c) as [[l|d]|]; try (eexists; split; reflexivity).
  unfold bind at 1. destruct (normalise_dict d [] w) as (w1 & l & -> & _ & Hs).
  eexists. split; [reflexivity|]. simpl. rewrite Hs. reflexivity.
Qed.

Lemma class_statement_registers name bases_mro body w :
  exists w', class_statement name bases_mro body w = (w', Ok (length (classes w))) /\
             dict_get name (_subclasses w') = Some (length (classes w)) /\
             (List.NoDup (dict_keys (_subclasses w)) -> List.NoDup (dict_keys (_subclasses w'))).
Proof.
  unfold class_statement, bind.
  set (k := Class name (length (classes w) :: bases_mro) body).
  set (w0 := World (heap w) (classes w ++ [k]) (_subclasses w) (warnings w)).
  destruct (init_subclass_registers (length (classes w)) k w0) as (w' & -> & Hs).
  { apply list_lookup_middle. reflexivity. }
  exists w'. split; [reflexivity|]. rewrite Hs. split.
  - apply dict_get_set_eq.
  - apply NoDup_dict_set.
Qed.

(** ** Observations on the example hierarchies *)

(** A plain dict of defaults becomes a list of untyped descriptors when
    the class is defined. *)
Example plain_dict_is_normalised :
  classes plain_world !! class_Plain =
    Some (Class "Plain" [2; 1; 0]%nat (Some (PDList [Declared 0%nat; Declared 1%nat]))) /\
  heap plain_world =
    [Parameter_.Build class_Parameter "a" (VInt 1) cls_object "" false;
     Parameter_.Build class_Parameter "b" (VStr "two") cls_object "" false] /\
  snd (instantiate class_Plain (Some [("a", VStr "k")]) plain_world) =
    Ok (Object class_Plain (Some "Plain") (Some [("a", VStr "k"); ("b", VStr "two")])).
Proof. repeat split. Qed.

(** A class without a [parameters_default] of its own shows that of its
    base, which the merge then goes through a second time: under the
    default flags the second [HideParameter('label')] finds no key. *)
Example heir_merges_base_list_twice :
  chain (classes heir_world) (Class "Heir" [4; 3; 2; 1; 0]%nat None) =
    [Declared 0%nat; Declared 1%nat; Declared 2%nat; HideParameter "label";
     Declared 2%nat; HideParameter "label"] /\
  snd (Parameterized.get_parameters class_Heir false false true heir_world) =
    Raise (Exception KeyError [VStr "label"]) /\
  snd (Parameterized.get_parameters class_Heir true false true heir_world) =
    Ok [("label", 1%nat); ("size", 2%nat)].
Proof. repeat split. Qed.

(** Once an instance of [Derived] has been built, binding for [Base]
    with [allow_hidden=False] leaves [label] out. *)
Example hidden_flag_reaches_base :
  snd (Parameterized._parse_parameters Base None true false false scenario_world) =
    Ok [("label", VStr "x"); ("size", VInt 10)] /\
  snd (Parameterized._parse_parameters Base None true false false
         (fst (instantiate Derived None scenario_world))) =
    Ok [("size", VInt 10)].
Proof. repeat split. Qed.

(** * Further properties of the module *)

(** ** What a resolved mapping holds *)

Lemma merge_classes_declared ih idep l :
  forall d w w' d',
  for_each (Parameterized.merge_class ih idep) l d w = (w', Ok d') ->
  for_each (Parameterized.merge_declaration ih idep)
    (concat (map (declared_list (classes w)) l)) d w = (w', Ok d').
Proof.
  induction l as [|c l IH]; intros d w w' d'; simpl; [trivial|].
  unfold bind. rewrite for_each_app.
  assert (Hc : forall w1 r1, Parameterized.merge_class ih idep d c w = (w1, Ok r1) ->
             for_each (Parameterized.merge_declaration ih idep)
               (declared_list (classes w) c) d w = (w1, Ok r1)).
  { unfold Parameterized.merge_class, declared_list.
    destruct (parameters_default (classes w) c) as [[l0|dd]|]; try (intros; assumption).
    destruct (dict_keys dd); simpl; [intros; assumption|discriminate]. }
  pose proof (merge_class_frame ih idep d c w) as F.
  destruct (Parameterized.merge_class ih idep d c w) as [w1 [d1|e]]; [|discriminate].
  rewrite (Hc w1 d1 eq_refl). destruct F as (Hcs & _). simpl in Hcs. rewrite <- Hcs.
  apply IH.
Qed.

Lemma get_parameters_declared c ih idep srt w w' d :
  Parameterized.get_parameters c ih idep srt w = (w', Ok d) ->
  exists k d0,
    classes w !! c = Some k /\
    for_each (Parameterized.merge_declaration ih idep) (chain (classes w) k) [] w = (w', Ok d0) /\
    d = if srt then dict_sorted d0 else d0.
Proof.
  unfold Parameterized.get_parameters, bind, get_class.
  destruct (classes w !! c) as [k|]; [|discriminate].
  destruct (for_each (Parameterized.merge_class ih idep) (rev (__mro__ k)) [] w)
    as [w1 [d1|e]] eqn:Hrun; [|discriminate].
  intros [= <- <-]. exists k, d1. split; [reflexivity|].
  split; [|reflexivity]. apply merge_classes_declared, Hrun.
Qed.

(** X1: whatever the flags, a mapping that resolution returns has
    pairwise distinct keys, and each of its entries binds a name to a
    descriptor object that is declared in the chain of the class, carries
    that very name, and is one the merge inserts under the flag
    [include_deprecated]. *)
Theorem resolved_mapping_holds_declared_descriptors c ih idep srt w w' d :
  Parameterized.get_parameters c ih idep srt w = (w', Ok d) ->
  List.NoDup (dict_keys d) /\
  forall n r, In (n, r) d ->
    dict_get n d = Some r /\
    exists k o, classes w !! c = Some k /\ In (Declared r) (chain (classes w) k) /\
                heap w !! r = Some o /\ Parameter_.name o = n /\ inserted idep o = true.
Proof.
  intros Hrun. pose proof (get_parameters_NoDup _ _ _ _ _ _ _ Hrun) as Hnd.
  split; [exact Hnd|]. intros n r Hin.
  split; [apply NoDup_In_dict_get; assumption|].
  destruct (get_parameters_declared _ _ _ _ _ _ _ Hrun) as (k & d0 & Hk & Hmerge & ->).
  assert (Hin0 : In (n, r) d0) by (destruct srt; [apply In_dict_sorted|]; exact Hin).
  destruct (merge_declarations_source _ _ _ _ _ _ _ _ _ Hmerge Hin0)
    as [[]|(Hl & o & Ho & Hn & Ha)].
  exists k, o. auto.
Qed.

Lemma resolved_mapping_holds_declared_descriptors_witness :
  List.NoDup (dict_keys [("label", 1%nat); ("size", 2%nat)]) /\
  forall n r, In (n, r) [("label", 1%nat); ("size", 2%nat)] ->
    dict_get n [("label", 1%nat); ("size", 2%nat)] = Some r /\
    exists k o, classes scenario_world !! Derived = Some k /\
                In (Declared r) (chain (classes scenario_world) k) /\
                heap scenario_world !! r = Some o /\ Parameter_.name o = n /\
                inserted false o = true.
Proof.
  exact (resolved_mapping_holds_declared_descriptors Derived true false true scenario_world
           (fst (Parameterized.get_parameters Derived true false true scenario_world))
           [("label", 1%nat); ("size", 2%nat)] eq_refl).
Defined.

(** ** Sorting *)

Lemma sorted_insert_Sorted {V} (e : string * V) (d : dict V) :
  Sorted (fun a b => String.leb a b = true) (dict_keys d) ->
  Sorted (fun a b => String.leb a b = true) (dict_keys (sorted_insert e d)).
Proof.
  induction d as [|e' d IH]; simpl; intros Hs.
  - repeat constructor.
  - destruct (String.leb (fst e) (fst e')) eqn:L; simpl.
    + constructor; [exact Hs|]. constructor. exact L.
    + inversion Hs as [|? ? Hs' Hhd]; subst. constructor; [apply IH, Hs'|].
      assert (L' : String.leb (fst e') (fst e) = true)
        by (destruct (String.leb_total (fst e) (fst e')); congruence).
      destruct d as [|e'' d]; simpl.
      * constructor. exact L'.
      * destruct (String.leb (fst e) (fst e'')); simpl; constructor; [exact L'|].
        inversion Hhd; assumption.
Qed.

Lemma dict_sorted_Sorted {V} (d : dict V) :
  Sorted (fun a b => String.leb a b = true) (dict_keys (dict_sorted d)).
Proof.
  induction d as [|e d IH]; simpl; [constructor|]. apply sorted_insert_Sorted, IH.
Qed.

Lemma ltb_of_leb a b : String.leb a b = true -> a <> b -> String.ltb a b = true.
Proof.
  unfold String.leb, String.ltb. intros H Hne.
  destruct (String.compare a b) eqn:E; try reflexivity; try discriminate.
  apply String.compare_eq_iff in E. contradiction.
Qed.

Lemma Sorted_strict (l : list string) :
  Sorted (fun a b => String.leb a b = true) l -> List.NoDup l ->
  Sorted (fun a b => String.ltb a b = true) l.
Proof.
  induction 1 as [|a l Hs IH Hhd]; intros Hnd; [constructor|].
  inversion Hnd as [|? ? Hnin Hnd']; subst. constructor; [apply IH, Hnd'|].
  destruct Hhd as [|b l Hab]; constructor.
  apply ltb_of_leb; [exact Hab|]. intros ->. apply Hnin. left. reflexivity.
Qed.

(** X2: with [sort=True] the mapping comes back with its keys in
    strictly increasing order, and it is the mapping that [sort=False]
    returns, rearranged: the same entries, the same lookups, the same
    world left behind. *)
Theorem sorted_resolution_orders_keys c ih idep w w' d :
  Parameterized.get_parameters c ih idep true w = (w', Ok d) ->
  Sorted (fun a b => String.ltb a b = true) (dict_keys d) /\
  exists d0,
    Parameterized.get_parameters c ih idep false w = (w', Ok d0) /\
    Permutation d d0 /\
    forall n, dict_get n d = dict_get n d0.
Proof.
  intros Hrun. pose proof (get_parameters_NoDup _ _ _ _ _ _ _ Hrun) as Hnd.
  revert Hrun Hnd. unfold Parameterized.get_parameters, bind.
  destruct (get_class c w) as [w0 [k|e]]; [|discriminate].
  destruct (for_each (Parameterized.merge_class ih idep) (rev (__mro__ k)) [] w0)
    as [w1 [d1|e]]; [|discriminate].
  intros [= <- <-] Hnd. split.
  - apply Sorted_strict; [apply dict_sorted_Sorted|exact Hnd].
  - exists d1. split; [reflexivity|]. split; [apply dict_sorted_perm|].
    intros n. apply dict_get_sorted.
Qed.

Lemma sorted_resolution_orders_keys_witness :
  Sorted (fun a b => String.ltb a b = true) (dict_keys [("label", 1%nat); ("size", 0%nat)]) /\
  exists d0,
    Parameterized.get_parameters Base false false false scenario_world = (scenario_world, Ok d0) /\
    Permutation [("label", 1%nat); ("size", 0%nat)] d0 /\
    forall n, dict_get n [("label", 1%nat); ("size", 0%nat)] = dict_get n d0.
Proof.
  exact (sorted_resolution_orders_keys Base false false scenario_world scenario_world
           [("label", 1%nat); ("size", 0%nat)] eq_refl).
Defined.

(** ** Which descriptors resolution marks as hidden *)

Lemma merge_declaration_keyed ih idep d p w w' d' :
  (forall n r, In (n, r) d -> exists o, heap w !! r = Some o /\ Parameter_.name o = n) ->
  Parameterized.merge_declaration ih idep d p w = (w', Ok d') ->
  forall n r, In (n, r) d' -> exists o, heap w' !! r = Some o /\ Parameter_.name o = n.
Proof.
  intros Hkeyed Hrun n r Hin.
  pose proof (merge_declaration_frame ih idep d p w) as F. rewrite Hrun in F. simpl in F.
  assert (Hw : exists o, heap w !! r = Some o /\ Parameter_.name o = n).
  { destruct (merge_declaration_source _ _ _ _ _ _ _ _ _ Hrun Hin)
      as [Hd|(_ & o & Ho & Hn & _)]; [apply Hkeyed, Hd|exists o; auto]. }
  destruct Hw as (o & Ho & Hn). pose proof (frame_lookup _ _ r F) as Hr. rewrite Ho in Hr.
  inversion Hr as [? o' Hoo Heq1 Heq2|]; subst. exists o'. split; [reflexivity|].
  apply hidden_only_name, Hoo.
Qed.

Lemma merge_declaration_marks ih idep d p w w' res ref o o' :
  (forall n r, In (n, r) d -> exists o, heap w !! r = Some o /\ Parameter_.name o = n) ->
  Parameterized.merge_declaration ih idep d p w = (w', res) ->
  heap w !! ref = Some o -> heap w' !! ref = Some o' ->
  Parameter_.hidden o = false -> Parameter_.hidden o' = true ->
  ih = true /\ p = HideParameter (Parameter_.name o).
Proof.
  intros Hkeyed Hrun Ho Ho' Hh Hh'.
  assert (Hsame : w' = w -> False).
  { intros ->. rewrite Ho in Ho'. injection Ho' as <-. congruence. }
  destruct p as [r|n]; simpl in Hrun.
  - exfalso. apply Hsame. unfold bind, deref in Hrun.
    destruct (heap w !! r) as [x|]; [|injection Hrun as <- _; reflexivity].
    destruct (idep || negb (Parameter_.is_deprecated x)); injection Hrun as <- _; reflexivity.
  - destruct ih.
    2:{ exfalso. apply Hsame. destruct (dict_del n d); injection Hrun as <- _; reflexivity. }
    split; [reflexivity|].
    destruct (dict_get n d) as [r|] eqn:Hget.
    2:{ exfalso. apply Hsame. injection Hrun as <- _. reflexivity. }
    unfold bind, set_hidden, ret in Hrun. injection Hrun as <- _. simpl in Ho'.
    destruct (Nat.eq_dec r ref) as [->|Hne].
    + destruct (Hkeyed n ref (dict_get_In _ _ _ Hget)) as (x & Hx & Hn).
      rewrite Ho in Hx. injection Hx as <-. rewrite Hn. reflexivity.
    + rewrite list_lookup_alter_ne in Ho' by exact Hne.
      rewrite Ho in Ho'. injection Ho' as <-. congruence.
Qed.

Lemma merge_declarations_marks ih idep l :
  forall d w w' res ref o o',
  (forall n r, In (n, r) d -> exists o, heap w !! r = Some o /\ Parameter_.name o = n) ->
  for_each (Parameterized.merge_declaration ih idep) l d w = (w', res) ->
  heap w !! ref = Some o -> heap w' !! ref = Some o' ->
  Parameter_.hidden o = false -> Parameter_.hidden o' = true ->
  ih = true /\ In (HideParameter (Parameter_.name o)) l.
Proof.
  induction l as [|p l IH]; intros d w w' res ref o o' Hkeyed Hrun Ho Ho' Hh Hh'.
  - simpl in Hrun. injection Hrun as <- _. rewrite Ho in Ho'. injection Ho' as <-. congruence.
  - cbn [for_each] in Hrun. unfold bind in Hrun.
    pose proof (merge_declaration_frame ih idep d p w) as F.
    destruct (Parameterized.merge_declaration ih idep d p w) as [w1 [d1|e]] eqn:E; simpl in F.
    + pose proof (frame_lookup _ _ ref F) as Hr. rewrite Ho in Hr.
      inversion Hr as [? o1 Hoo Heq1 Heq2|]; subst. symmetry in Heq2.
      destruct (Parameter_.hidden o1) eqn:Hh1.
      * destruct (merge_declaration_marks _ _ _ _ _ _ _ _ _ _ Hkeyed E Ho Heq2 Hh Hh1)
          as [-> ->]. split; [reflexivity|left; reflexivity].
      * destruct (IH d1 w1 w' res ref o1 o'
                    (merge_declaration_keyed _ _ _ _ _ _ _ Hkeyed E) Hrun Heq2 Ho' Hh1 Hh')
          as [-> Hin].
        split; [reflexivity|]. right. rewrite <- (hidden_only_name _ _ Hoo). exact Hin.
    + injection Hrun as <- _.
      destruct (merge_declaration_marks _ _ _ _ _ _ _ _ _ _ Hkeyed E Ho Ho' Hh Hh')
        as [-> ->]. split; [reflexivity|left; reflexivity].
Qed.

(** X3: resolution sets [hidden] on no descriptor but those a
    [HideParameter] of the chain names, and only under
    [include_hidden=True]; this holds for what it has written when it
    fails, too. *)
Theorem hidden_is_set_by_hide_directives_only c k ih idep srt w r o :
  classes w !! c = Some k ->
  normalised (classes w) k = true ->
  heap w !! r = Some o ->
  Parameter_.hidden o = false ->
  Parameter_.hidden <$> heap (fst (Parameterized.get_parameters c ih idep srt w)) !! r
    = Some true ->
  ih = true /\ In (HideParameter (Parameter_.name o)) (chain (classes w) k).
Proof.
  intros Hk Hn Ho Hh. rewrite (get_parameters_chain c k ih idep srt w Hk Hn).
  destruct (for_each (Parameterized.merge_declaration ih idep) (chain (classes w) k) [] w)
    as [w' res] eqn:Hrun.
  intros Hh'. assert (Hw' : Parameter_.hidden <$> heap w' !! r = Some true)
    by (destruct res; exact Hh').
  destruct (heap w' !! r) as [o'|] eqn:Ho'; [|discriminate]. injection Hw' as Hh1.
  eapply (merge_declarations_marks ih idep _ [] w w' res r o o'); try eassumption.
  intros n r0 [].
Qed.

Lemma hidden_is_set_by_hide_directives_only_witness :
  In (HideParameter "label")
    (chain (classes scenario_world)
       (Class "Derived" [3; 2; 1; 0]%nat
          (Some (PDList [Declared 2%nat; HideParameter "label"])))).
Proof.
  exact (proj2 (hidden_is_set_by_hide_directives_only Derived
           (Class "Derived" [3; 2; 1; 0]%nat
              (Some (PDList [Declared 2%nat; HideParameter "label"])))
           true false true scenario_world 1%nat
           (Parameter_.Build class_Parameter "label" (VStr "x") cls_str "" false)
           eq_refl eq_refl eq_refl eq_refl eq_refl)).
Defined.

(** ** The default listing within the listing that includes hidden ones *)

Lemma merge_declaration_include_hidden idep p d1 d2 w w2 w1 d1' :
  frame w w2 ->
  (forall n r, dict_get n d1 = Some r -> dict_get n d2 = Some r) ->
  Parameterized.merge_declaration false idep d1 p w = (w1, Ok d1') ->
  exists w2' d2',
    Parameterized.merge_declaration true idep d2 p w2 = (w2', Ok d2') /\
    frame w w2' /\
    forall n r, dict_get n d1' = Some r -> dict_get n d2' = Some r.
Proof.
  intros F Hsub Hrun. destruct p as [r|n]; simpl in Hrun |- *.
  - unfold bind, deref in *. pose proof (frame_lookup _ _ r F) as Hr.
    destruct (heap w !! r) as [o|]; [|discriminate].
    inversion Hr as [? o2 Hoo Heq1 Heq2|]; subst. simpl in *.
    assert (Hd : Parameter_.is_deprecated o2 = Parameter_.is_deprecated o)
      by (destruct Hoo as [->| ->]; reflexivity).
    rewrite Hd, (hidden_only_name _ _ Hoo).
    destruct (idep || negb (Parameter_.is_deprecated o)); injection Hrun as _ <-;
      eexists _, _; (split; [reflexivity|]); (split; [exact F|]); [|exact Hsub].
    intros n r0. rewrite !dict_get_set.
    destruct (String.eqb (Parameter_.name o) n); [trivial|apply Hsub].
  - unfold dict_del in Hrun. destruct (dict_get n d1) as [r|] eqn:Hget; [|discriminate].
    injection Hrun as _ <-. rewrite (Hsub _ _ Hget).
    unfold bind, set_hidden, ret. eexists _, _. split; [reflexivity|]. split.
    + eapply frame_trans; [exact F|]. apply (set_hidden_frame r w2).
    + intros x r0. rewrite dict_get_remove.
      destruct (String.eqb n x); [discriminate|apply Hsub].
Qed.

Lemma merge_declarations_include_hidden idep l :
  forall d1 d2 w w2 w1 d1',
  frame w w2 ->
  (forall n r, dict_get n d1 = Some r -> dict_get n d2 = Some r) ->
  for_each (Parameterized.merge_declaration false idep) l d1 w = (w1, Ok d1') ->
  exists w2' d2',
    for_each (Parameterized.merge_declaration true idep) l d2 w2 = (w2', Ok d2') /\
    frame w w2' /\
    forall n r, dict_get n d1' = Some r -> dict_get n d2' = Some r.
Proof.
  induction l as [|p l IH]; intros d1 d2 w w2 w1 d1' F Hsub Hrun.
  - simpl in Hrun. injection Hrun as _ <-. exists w2, d2. auto.
  - cbn [for_each] in *. unfold bind in *.
    pose proof (merge_declaration_pure idep d1 p w) as P.
    destruct (Parameterized.merge_declaration false idep d1 p w) as [wa [da|e]] eqn:E;
      [|discriminate]. simpl in P. subst wa.
    destruct (merge_declaration_include_hidden _ _ _ _ _ _ _ _ F Hsub E)
      as (w2a & d2a & -> & Fa & Hsuba).
    eapply IH; eassumption.
Qed.

Lemma merge_class_include_hidden idep c d1 d2 w w2 w1 d1' :
  frame w w2 ->
  (forall n r, dict_get n d1 = Some r -> dict_get n d2 = Some r) ->
  Parameterized.merge_class false idep d1 c w = (w1, Ok d1') ->
  exists w2' d2',
    Parameterized.merge_class true idep d2 c w2 = (w2', Ok d2') /\
    frame w w2' /\
    forall n r, dict_get n d1' = Some r -> dict_get n d2' = Some r.
Proof.
  intros F Hsub. unfold Parameterized.merge_class.
  assert (Hcs : classes w2 = classes w) by apply F. rewrite Hcs.
  destruct (parameters_default (classes w) c) as [[l0|dd]|].
  - intros E. eapply merge_declarations_include_hidden; eassumption.
  - destruct (dict_keys dd); simpl; [|discriminate]. intros [= _ <-].
    exists w2, d2. auto.
  - intros [= _ <-]. exists w2, d2. auto.
Qed.

Lemma merge_classes_include_hidden idep l :
  forall d1 d2 w w2 w1 d1',
  frame w w2 ->
  (forall n r, dict_get n d1 = Some r -> dict_get n d2 = Some r) ->
  for_each (Parameterized.merge_class false idep) l d1 w = (w1, Ok d1') ->
  exists w2' d2',
    for_each (Parameterized.merge_class true idep) l d2 w2 = (w2', Ok d2') /\
    frame w w2' /\
    forall n r, dict_get n d1' = Some r -> dict_get n d2' = Some r.
Proof.
  induction l as [|c l IH]; intros d1 d2 w w2 w1 d1' F Hsub Hrun.
  - simpl in Hrun. injection Hrun as _ <-. exists w2, d2. auto.
  - cbn [for_each] in *. unfold bind in *.
    pose proof (merge_class_pure idep d1 c w) as P.
    destruct (Parameterized.merge_class false idep d1 c w) as [wa [da|e]] eqn:E;
      [|discriminate]. simpl in P. subst wa.
    destruct (merge_class_include_hidden _ _ _ _ _ _ _ _ F Hsub E)
      as (w2a & d2a & -> & Fa & Hsuba).
    eapply IH; eassumption.
Qed.

(** X4: a class that resolves without [include_hidden] resolves with it
    as well, and the mapping without is part of the mapping with: every
    name of the default listing is bound to the same descriptor object
    in the listing that includes the hidden parameters. *)
Theorem default_listing_within_hidden_listing c idep srt w w1 d1 :
  Parameterized.get_parameters c false idep srt w = (w1, Ok d1) ->
  exists w2 d2,
    Parameterized.get_parameters c true idep srt w = (w2, Ok d2) /\
    forall n r, dict_get n d1 = Some r -> dict_get n d2 = Some r.
Proof.
  unfold Parameterized.get_parameters, bind, get_class.
  destruct (classes w !! c) as [k|]; [|discriminate].
  destruct (for_each (Parameterized.merge_class false idep) (rev (__mro__ k)) [] w)
    as [wa [da|e]] eqn:E; [|discriminate].
  intros [= _ <-].
  destruct (merge_classes_include_hidden idep _ [] [] w w wa da (frame_refl w)
              (fun n r H => H) E) as (w2 & d2 & -> & _ & Hsub).
  eexists _, _. split; [reflexivity|].
  intros n r. destruct srt; rewrite ?dict_get_sorted; apply Hsub.
Qed.

Lemma default_listing_within_hidden_listing_witness :
  exists w2 d2,
    Parameterized.get_parameters Derived true false true scenario_world = (w2, Ok d2) /\
    forall n r, dict_get n [("size", 2%nat)] = Some r -> dict_get n d2 = Some r.
Proof.
  exact (default_listing_within_hidden_listing Derived false true scenario_world scenario_world
           [("size", 2%nat)] eq_refl).
Defined.

(** ** A class without a list of its own below a class that hides *)

Lemma chain_inherited cs c k b kb rest :
  cs !! c = Some k ->
  __mro__ k = c :: b :: rest ->
  own_parameters_default k = None ->
  cs !! b = Some kb ->
  __mro__ kb = b :: rest ->
  chain cs k = chain cs kb ++ declared_list cs b.
Proof.
  intros Hk Hmro Hown Hb Hmrob. unfold chain. rewrite Hmro, Hmrob.
  change (rev (c :: b :: rest)) with (rev (b :: rest) ++ [c]).
  rewrite map_app, concat_app. simpl. rewrite app_nil_r.
  rewrite (declared_list_inherited cs c k b rest kb Hk Hmro Hown Hb Hmrob). reflexivity.
Qed.

Lemma chain_own_last cs b kb rest :
  __mro__ kb = b :: rest ->
  chain cs kb = concat (map (declared_list cs) (rev rest)) ++ declared_list cs b.
Proof.
  intros Hmrob. unfold chain. rewrite Hmrob. simpl.
  rewrite map_app, concat_app. simpl. rewrite app_nil_r. reflexivity.
Qed.

Lemma unmentioned_app h x l1 l2 :
  unmentioned h x (l1 ++ l2) = unmentioned h x l1 && unmentioned h x l2.
Proof. apply forallb_app. Qed.

(** X5: a class with no [parameters_default] of its own shows the list
    of its base, so the merge goes through that list twice. When the
    list holds a [HideParameter] for a name that the list does not
    mention otherwise, the second pass finds the name deleted: such a
    class never resolves without [include_hidden]. *)
Theorem inherited_hide_directive_breaks_resolution c k b kb rest idep srt w l1 y l2 :
  classes w !! c = Some k ->
  __mro__ k = c :: b :: rest ->
  own_parameters_default k = None ->
  classes w !! b = Some kb ->
  __mro__ kb = b :: rest ->
  normalised (classes w) k = true ->
  declared_list (classes w) b = l1 ++ HideParameter y :: l2 ->
  unmentioned (heap w) y (l2 ++ l1) = true ->
  is_ok (snd (Parameterized.get_parameters c false idep srt w)) = false.
Proof.
  intros Hk Hmro Hown Hb Hmrob Hn Hlb Hun.
  rewrite (get_parameters_chain c k false idep srt w Hk Hn).
  rewrite (chain_inherited _ _ _ _ _ _ Hk Hmro Hown Hb Hmrob), (chain_own_last _ _ _ _ Hmrob).
  rewrite Hlb. set (X := concat (map (declared_list (classes w)) (rev rest))).
  replace ((X ++ l1 ++ HideParameter y :: l2) ++ l1 ++ HideParameter y :: l2)
    with (((X ++ l1) ++ HideParameter y :: l2 ++ l1) ++ HideParameter y :: l2)
    by (rewrite <- !app_assoc; simpl; rewrite <- !app_assoc; reflexivity).
  rewrite for_each_app.
  pose proof (merge_declarations_pure idep ((X ++ l1) ++ HideParameter y :: l2 ++ l1) [] w) as P.
  destruct (for_each (Parameterized.merge_declaration false idep)
              ((X ++ l1) ++ HideParameter y :: l2 ++ l1) [] w)
    as [w1 [d1|e]] eqn:Hrun; [|reflexivity].
  simpl in P. subst w1.
  pose proof (merge_after_hide _ _ _ _ _ _ _ _ Hrun Hun) as Hget.
  cbn [for_each Parameterized.merge_declaration]. unfold bind, dict_del. rewrite Hget.
  reflexivity.
Qed.

Lemma inherited_hide_directive_breaks_resolution_witness :
  is_ok (snd (Parameterized.get_parameters class_Heir false false true heir_world)) = false.
Proof.
  exact (inherited_hide_directive_breaks_resolution class_Heir
           (Class "Heir" [4; 3; 2; 1; 0]%nat None) Derived
           (Class "Derived" [3; 2; 1; 0]%nat
              (Some (PDList [Declared 2%nat; HideParameter "label"])))
           [2; 1; 0]%nat false true heir_world [Declared 2%nat] "label" []
           eq_refl eq_refl eq_refl eq_refl eq_refl eq_refl eq_refl eq_refl).
Defined.

(** ** What a bind returns *)

Lemma dict_keys_set_new {V} k (v : V) (d : dict V) :
  ~ In k (dict_keys d) -> dict_keys (dict_set k v d) = dict_keys d ++ [k].
Proof.
  induction d as [|[k' v'] d IH]; simpl; intros Hk; [reflexivity|].
  destruct (String.eqb k' k) eqn:E.
  - apply String.eqb_eq in E. exfalso. apply Hk. left. exact E.
  - simpl. rewrite IH; [reflexivity|]. intros H. apply Hk. right. exact H.
Qed.

Lemma In_keys_pop x k (ov : dict pyvalue) :
  In x (dict_keys ov) -> x = k \/ In x (dict_keys (snd (dict_pop k VNone ov))).
Proof.
  intros Hx. destruct (String.eqb k x) eqn:E; [left; symmetry; apply String.eqb_eq, E|right].
  unfold dict_pop. destruct (dict_get k ov); simpl; [|exact Hx].
  destruct (dict_get x (dict_remove k ov)) as [v|] eqn:G.
  - apply dict_get_In in G. unfold dict_keys. apply in_map_iff. exists (x, v).
    split; [reflexivity|exact G].
  - rewrite dict_get_remove, E in G. apply dict_get_None_keys in G. contradiction.
Qed.

Lemma NoDup_keys_pop k (ov : dict pyvalue) :
  List.NoDup (dict_keys ov) -> List.NoDup (dict_keys (snd (dict_pop k VNone ov))).
Proof.
  intros H. unfold dict_pop. destruct (dict_get k ov); simpl; [|exact H].
  apply NoDup_dict_remove, H.
Qed.

(** With [allow_hidden] nothing is skipped: the loop stores one value
    for each resolved name, in the order of the resolved mapping. *)
Lemma bind_parameters_keys es :
  forall res ov w w' res' ov',
  for_each (Parameterized.bind_parameter true) es (res, ov) w = (w', Ok (res', ov')) ->
  List.NoDup (dict_keys es) ->
  (forall x, In x (dict_keys es) -> ~ In x (dict_keys res)) ->
  dict_keys res' = dict_keys res ++ dict_keys es.
Proof.
  induction es as [|[k r0] es IH]; intros res ov w w' res' ov'.
  - intros [= _ <- <-] _ _. simpl. rewrite app_nil_r. reflexivity.
  - cbn [for_each]. unfold bind. intros Hrun Hnd Hfresh.
    inversion Hnd as [|? ? Hnin Hnd']; subst.
    destruct (heap w !! r0) as [o0|] eqn:Ho0.
    2:{ rewrite (bind_parameter_dangling true _ k r0 w Ho0) in Hrun. discriminate. }
    rewrite (bind_parameter_eq true res ov k r0 o0 w Ho0) in Hrun. simpl in Hrun.
    destruct (Parameter_.convert o0 _) as [v|e]; [|discriminate].
    assert (Hk : ~ In k (dict_keys res)) by (apply Hfresh; left; reflexivity).
    rewrite (IH _ _ _ _ _ _ Hrun Hnd').
    + rewrite (dict_keys_set_new k v res Hk), <- app_assoc. reflexivity.
    + intros x Hx. rewrite (dict_keys_set_new k v res Hk). intros Hin.
      apply in_app_or in Hin. destruct Hin as [Hin|[->|[]]].
      * apply (Hfresh x); [right; exact Hx|exact Hin].
      * apply Hnin, Hx.
Qed.

(** A supplied name is popped only by the entry of that name. *)
Lemma bind_parameters_popped ah es :
  forall res ov w w' res' ov',
  for_each (Parameterized.bind_parameter ah) es (res, ov) w = (w', Ok (res', ov')) ->
  forall x, In x (dict_keys ov) -> In x (dict_keys es) \/ In x (dict_keys ov').
Proof.
  induction es as [|[k r0] es IH]; intros res ov w w' res' ov'.
  - intros [= _ _ <-] x Hx. right. exact Hx.
  - cbn [for_each]. unfold bind. intros Hrun x Hx.
    destruct (heap w !! r0) as [o0|] eqn:Ho0.
    2:{ rewrite (bind_parameter_dangling ah _ k r0 w Ho0) in Hrun. discriminate. }
    rewrite (bind_parameter_eq ah res ov k r0 o0 w Ho0) in Hrun.
    destruct (negb ah && Parameter_.hidden o0).
    + destruct (IH _ _ _ _ _ _ Hrun x Hx) as [H|H]; [left; right; exact H|right; exact H].
    + destruct (Parameter_.convert o0 _) as [v|e]; [|discriminate].
      destruct (In_keys_pop x k ov Hx) as [->|Hx']; [left; left; reflexivity|].
      destruct (IH _ _ _ _ _ _ Hrun x Hx') as [H|H]; [left; right; exact H|right; exact H].
Qed.

Lemma bind_parameters_leftover_NoDup ah es :
  forall res ov w w' res' ov',
  for_each (Parameterized.bind_parameter ah) es (res, ov) w = (w', Ok (res', ov')) ->
  List.NoDup (dict_keys ov) -> List.NoDup (dict_keys ov').
Proof.
  induction es as [|[k r0] es IH]; intros res ov w w' res' ov'.
  - intros [= _ _ <-] H. exact H.
  - cbn [for_each]. unfold bind. intros Hrun Hnd.
    destruct (heap w !! r0) as [o0|] eqn:Ho0.
    2:{ rewrite (bind_parameter_dangling ah _ k r0 w Ho0) in Hrun. discriminate. }
    rewrite (bind_parameter_eq ah res ov k r0 o0 w Ho0) in Hrun.
    destruct (negb ah && Parameter_.hidden o0); [eapply IH; eassumption|].
    destruct (Parameter_.convert o0 _) as [v|e]; [|discriminate].
    eapply IH; [exact Hrun|]. apply NoDup_keys_pop, Hnd.
Qed.

(** Names whose entries the loop skips, and names it does not come
    across, keep what they had in both dicts. *)
Lemma bind_parameters_untouched ah x es :
  forall res ov w w' res' ov',
  for_each (Parameterized.bind_parameter ah) es (res, ov) w = (w', Ok (res', ov')) ->
  (forall r o, In (x, r) es -> heap w !! r = Some o ->
     negb ah && Parameter_.hidden o = true) ->
  dict_get x res' = dict_get x res /\ dict_get x ov' = dict_get x ov.
Proof.
  induction es as [|[k r0] es IH]; intros res ov w w' res' ov'.
  - intros [= _ <- <-] _. auto.
  - cbn [for_each]. unfold bind. intros Hrun Hx.
    assert (Hx' : forall r o, In (x, r) es -> heap w !! r = Some o ->
                   negb ah && Parameter_.hidden o = true)
      by (intros r o Hin; apply Hx; right; exact Hin).
    destruct (heap w !! r0) as [o0|] eqn:Ho0.
    2:{ rewrite (bind_parameter_dangling ah _ k r0 w Ho0) in Hrun. discriminate. }
    rewrite (bind_parameter_eq ah res ov k r0 o0 w Ho0) in Hrun.
    destruct (negb ah && Parameter_.hidden o0) eqn:Hskip; [eapply IH; eassumption|].
    assert (Hk : k <> x).
    { intros ->. rewrite (Hx r0 o0 (or_introl eq_refl) Ho0) in Hskip. discriminate. }
    destruct (Parameter_.convert o0 _) as [v|e]; [|discriminate].
    destruct (IH _ _ _ _ _ _ Hrun Hx') as [-> ->].
    rewrite dict_get_set_ne by exact Hk. split; [reflexivity|].
    unfold dict_pop. destruct (dict_get k ov); simpl; [|reflexivity].
    rewrite dict_get_remove. apply String.eqb_neq in Hk. rewrite Hk. reflexivity.
Qed.

Lemma dict_get_update_in {V} x (v : V) (other : dict V) :
  forall d, List.NoDup (dict_keys other) -> dict_get x other = Some v ->
  dict_get x (dict_update d other) = Some v.
Proof.
  unfold dict_update. induction other as [|[k v0] other IH]; intros d Hnd; simpl; [discriminate|].
  inversion Hnd as [|? ? Hnin Hnd']; subst.
  destruct (String.eqb k x) eqn:E.
  - intros [= ->]. apply String.eqb_eq in E. subst k.
    apply dict_get_None_keys in Hnin.
    pose proof (dict_get_update x other (dict_set x v d) Hnin) as U. unfold dict_update in U.
    simpl. rewrite U. apply dict_get_set_eq.
  - intros H. apply IH; assumption.
Qed.

(** The three ways out of [_parse_parameters] after the loop. *)
Lemma parse_parameters_inv c ov cv ah idep w w' res :
  Parameterized._parse_parameters c ov cv ah idep w = (w', Ok res) ->
  exists es res2 ov2,
    Parameterized.get_parameters c ah idep true w = (w', Ok es) /\
    for_each (Parameterized.bind_parameter ah) es
      ([], match ov with None => [] | Some d => d end) w' = (w', Ok (res2, ov2)) /\
    res = dict_update res2 ov2 /\
    (cv = true -> ov2 = []).
Proof.
  unfold Parameterized._parse_parameters, bind.
  destruct (Parameterized.get_parameters c ah idep true w) as [w1 [es|e]] eqn:Hres; [|discriminate].
  pose proof (bind_parameters_world ah es ([], match ov with None => [] | Some d => d end) w1) as Hw.
  destruct (for_each (Parameterized.bind_parameter ah) es _ w1)
    as [w2 [[res2 ov2]|e]] eqn:Hrun; [|discriminate].
  simpl in Hw. subst w2. simpl.
  destruct ov2 as [|e2 ov2]; [|destruct cv].
  - intros [= <- <-]. exists es, res2, []. auto.
  - unfold get_class, raise. destruct (classes w1 !! c); discriminate.
  - intros [= <- <-]. exists es, res2, (e2 :: ov2). repeat split; auto. discriminate.
Qed.

(** X6: a bind that allows hidden parameters and checks validity, as
    the constructor runs it, returns a dict whose keys are exactly the
    names of the mapping resolved with [include_hidden], in that
    (sorted) order; every supplied name is one of them; and the same
    bind without the validity check returns the same dict. *)
Theorem checked_bind_has_resolved_names c ov idep w w' res :
  Parameterized._parse_parameters c ov true true idep w = (w', Ok res) ->
  exists es,
    Parameterized.get_parameters c true idep true w = (w', Ok es) /\
    dict_keys res = dict_keys es /\
    (forall x, In x (dict_keys (default [] ov)) -> In x (dict_keys es)) /\
    Parameterized._parse_parameters c ov false true idep w = (w', Ok res).
Proof.
  intros Hparse.
  destruct (parse_parameters_inv _ _ _ _ _ _ _ _ Hparse) as (es & res2 & ov2 & Hres & Hrun & -> & Hcv).
  rewrite (Hcv eq_refl) in *. exists es. split; [exact Hres|].
  pose proof (get_parameters_NoDup _ _ _ _ _ _ _ Hres) as Hnd.
  split; [|split].
  - unfold dict_update. simpl.
    rewrite (bind_parameters_keys es _ _ _ _ _ _ Hrun Hnd); [reflexivity|].
    intros x _ [].
  - intros x Hx.
    destruct (bind_parameters_popped true es _ _ _ _ _ _ Hrun x) as [H|[]]; [|exact H].
    destruct ov; exact Hx.
  - unfold Parameterized._parse_parameters, bind. rewrite Hres, Hrun. reflexivity.
Qed.

Lemma checked_bind_has_resolved_names_witness :
  exists es,
    Parameterized.get_parameters Derived true false true scenario_world
      = (fst (Parameterized._parse_parameters Derived (Some [("size", VStr "7")]) true true false
                scenario_world), Ok es) /\
    dict_keys [("label", VStr "x"); ("size", VInt 7)] = dict_keys es /\
    (forall x, In x (dict_keys (default [] (Some [("size", VStr "7")]))) -> In x (dict_keys es)) /\
    Parameterized._parse_parameters Derived (Some [("size", VStr "7")]) false true false
      scenario_world
      = (fst (Parameterized._parse_parameters Derived (Some [("size", VStr "7")]) true true false
                scenario_world),
         Ok [("label", VStr "x"); ("size", VInt 7)]).
Proof.
  exact (checked_bind_has_resolved_names Derived (Some [("size", VStr "7")]) false scenario_world
           _ [("label", VStr "x"); ("size", VInt 7)] eq_refl).
Defined.

(** X7: what a successful bind stores. Under a resolved name that is
    not skipped as hidden it stores the conversion, by that name's
    descriptor, of the supplied value, or of the default when the name
    is not supplied. A name that the loop skips or that is not resolved
    keeps the supplied value as it is, unconverted (such a name can only
    be supplied when the validity check is off). *)
Theorem bind_stores_converted_values c ov cv ah idep w w' res :
  List.NoDup (dict_keys ov) ->
  Parameterized._parse_parameters c (Some ov) cv ah idep w = (w', Ok res) ->
  exists es,
    Parameterized.get_parameters c ah idep true w = (w', Ok es) /\
    (forall n r o, In (n, r) es -> heap w' !! r = Some o ->
       negb ah && Parameter_.hidden o = false ->
       exists v, Parameter_.convert o (default VNone (dict_get n ov)) = Ok v /\
                 dict_get n res = Some v) /\
    (forall x, (forall r o, In (x, r) es -> heap w' !! r = Some o ->
                  negb ah && Parameter_.hidden o = true) ->
       dict_get x res = dict_get x ov).
Proof.
  intros Hov Hparse.
  destruct (parse_parameters_inv _ _ _ _ _ _ _ _ Hparse) as (es & res2 & ov2 & Hres & Hrun & -> & _).
  exists es. split; [exact Hres|].
  pose proof (get_parameters_NoDup _ _ _ _ _ _ _ Hres) as Hnd.
  split.
  - intros n r o Hin Ho Hvis.
    destruct (bind_parameters_stored ah n es _ _ _ _ _ _ r o Hrun Hnd Hin Ho Hvis)
      as [(v & Hv & Hget) Hleft].
    exists v. split.
    + unfold dict_pop in Hv. destruct (dict_get n ov); exact Hv.
    + rewrite dict_get_update; assumption.
  - intros x Hx.
    destruct (bind_parameters_untouched ah x es _ _ _ _ _ _ Hrun Hx) as [Hr Ho].
    destruct (dict_get x ov2) as [v|] eqn:G.
    + rewrite <- Ho. apply dict_get_update_in; [|exact G].
      eapply bind_parameters_leftover_NoDup; eassumption.
    + rewrite dict_get_update by exact G. rewrite Hr, <- Ho. reflexivity.
Qed.

Lemma bind_stores_converted_values_witness :
  exists es,
    Parameterized.get_parameters class_Flagged false false true flagged_world
      = (fst (Parameterized._parse_parameters class_Flagged
                (Some [("h", VStr "kept"); ("other", VInt 3)]) false false false flagged_world),
         Ok es) /\
    (forall n r o, In (n, r) es ->
       heap (fst (Parameterized._parse_parameters class_Flagged
                    (Some [("h", VStr "kept"); ("other", VInt 3)]) false false false
                    flagged_world)) !! r = Some o ->
       negb false && Parameter_.hidden o = false ->
       exists v, Parameter_.convert o
                   (default VNone (dict_get n [("h", VStr "kept"); ("other", VInt 3)])) = Ok v /\
                 dict_get n [("h", VStr "kept"); ("other", VInt 3)] = Some v) /\
    (forall x, (forall r o, In (x, r) es ->
          heap (fst (Parameterized._parse_parameters class_Flagged
                       (Some [("h", VStr "kept"); ("other", VInt 3)]) false false false
                       flagged_world)) !! r = Some o ->
          negb false && Parameter_.hidden o = true) ->
       dict_get x [("h", VStr "kept"); ("other", VInt 3)]
         = dict_get x [("h", VStr "kept"); ("other", VInt 3)]).
Proof.
  refine (bind_stores_converted_values class_Flagged [("h", VStr "kept"); ("other", VInt 3)]
            false false false flagged_world _ [("h", VStr "kept"); ("other", VInt 3)] _ eq_refl).
  repeat constructor; simpl; intuition discriminate.
Defined.

(** ** Conversion and the state of a descriptor *)

Lemma int_call_int v v1 : int_call v = Ok v1 -> exists z, v1 = VInt z.
Proof.
  destruct v as [|b|z|s|l]; simpl; try discriminate.
  - intros [= <-]. eauto.
  - intros [= <-]. eauto.
  - destruct (parse_int s); [|discriminate]. intros [= <-]. eauto.
Qed.

(** X8: for the types [object], [int] and [str], converting a converted
    value gives it back: [convert] is idempotent wherever it succeeds. *)
Theorem convert_is_idempotent_for_builtin_types self v v1 :
  builtin_type (Parameter_.cls self) = true ->
  Parameter_.convert self v = Ok v1 ->
  Parameter_.convert self v1 = Ok v1.
Proof.
  unfold Parameter_.convert. destruct (Parameter_.cls self) as [| | |n f] eqn:Hcls; simpl;
    [| | |discriminate]; intros _.
  - intros [= <-]. f_equal. unfold Parameter_.effective.
    destruct v; try reflexivity. destruct (Parameter_.default_value self); reflexivity.
  - destruct (int_call (Parameter_.effective self v)) as [x|e] eqn:Hcall.
    + intros [= <-]. destruct (int_call_int _ _ Hcall) as [z ->]. reflexivity.
    + destruct (exn_class e); discriminate.
  - intros [= <-]. reflexivity.
Qed.

Lemma convert_is_idempotent_for_builtin_types_witness :
  Parameter_.convert (Parameter_.Build class_Parameter "size" (VInt 10) cls_int "" false)
    (VInt 12) = Ok (VInt 12).
Proof.
  exact (convert_is_idempotent_for_builtin_types
           (Parameter_.Build class_Parameter "size" (VInt 10) cls_int "" false)
           (VStr " 12 ") (VInt 12) eq_refl eq_refl).
Defined.

(** X9: a descriptor that could be constructed converts its default and
    has a state. The state holds the converted default under
    [default_value] and the name of the type, prefixed with the module
    of [object], under [cls]. For the type [object] the converted
    default is the declared one and nothing is logged; for any other
    type the construction logs no warning exactly when the converted
    default compares equal to the declared one. *)
Theorem constructed_descriptor_saves_converted_default
    k name default_value cls description hidden self msgs :
  Parameter_.__init__ k name default_value cls description hidden = Ok (self, msgs) ->
  exists v,
    Parameter_.convert self VNone = Ok v /\
    __getstate__ self =
      Ok [("name", VStr name); ("default_value", v);
          ("cls", VStr ("builtins." +:+ __name__ cls));
          ("description", VStr description); ("hidden", VBool hidden)] /\
    if is_object cls then v = default_value /\ msgs = []
    else (msgs = [] <-> py_eq v default_value = true).
Proof.
  unfold __getstate__, Parameter_.__init__, Parameter_.convert.
  destruct (is_object cls) eqn:Hobj.
  - intros [= <- <-]. simpl. rewrite Hobj. exists default_value. auto.
  - destruct (call cls default_value) as [v|e] eqn:Hcall; [|discriminate].
    intros H. exists v.
    assert (Hself : self = Parameter_.Build k name default_value cls description hidden)
      by (destruct (py_ne v default_value); congruence).
    subst self. simpl. rewrite Hobj, Hcall. split; [reflexivity|]. split; [reflexivity|].
    unfold py_ne in H. destruct (py_eq v default_value); simpl in H.
    + injection H as <-. split; reflexivity.
    + injection H as <-. split; discriminate.
Qed.

Lemma constructed_descriptor_saves_converted_default_witness :
  exists v,
    Parameter_.convert (Parameter_.Build class_Parameter "size" (VStr "7") cls_int "n" false)
      VNone = Ok v /\
    __getstate__ (Parameter_.Build class_Parameter "size" (VStr "7") cls_int "n" false) =
      Ok [("name", VStr "size"); ("default_value", v);
          ("cls", VStr ("builtins." +:+ __name__ cls_int));
          ("description", VStr "n"); ("hidden", VBool false)] /\
    if is_object cls_int then v = VStr "7" /\
         ["Default value `size` does not seem to be of type `int`"] = []
    else (["Default value `size` does not seem to be of type `int`"] = []
          <-> py_eq v (VStr "7") = true).
Proof.
  exact (constructed_descriptor_saves_converted_default class_Parameter "size" (VStr "7")
           cls_int "n" false _ _ eq_refl).
Defined.

(** ** [get_parameter_default] *)

Lemma find_default_world x l w : fst (find_default x l w) = w.
Proof.
  induction l as [|[r|n] l IH]; simpl; [reflexivity| |exact IH].
  unfold bind, deref. destruct (heap w !! r) as [o|]; [|reflexivity].
  destruct (String.eqb (Parameter_.name o) x); [reflexivity|exact IH].
Qed.

Lemma find_default_app x l1 l2 w :
  find_default x (l1 ++ l2) w =
  match find_default x l1 w with
  | (w', Ok None) => find_default x l2 w'
  | other => other
  end.
Proof.
  induction l1 as [|[r|n] l1 IH]; simpl; [reflexivity| |exact IH].
  unfold bind, deref. destruct (heap w !! r) as [o|]; [|reflexivity].
  destruct (String.eqb (Parameter_.name o) x); [reflexivity|exact IH].
Qed.

Lemma find_default_undeclared x l w :
  undeclared (heap w) x l = true -> find_default x l w = (w, Ok None).
Proof.
  induction l as [|[r|n] l IH]; simpl; [reflexivity| |exact IH].
  unfold bind, deref. destruct (heap w !! r) as [o|]; [|discriminate].
  destruct (String.eqb (Parameter_.name o) x); [discriminate|exact IH].
Qed.

Lemma find_default_in_classes_walk x mro w :
  find_default_in_classes x mro w =
  find_default x (concat (map (declared_list (classes w)) mro)) w.
Proof.
  induction mro as [|c mro IH]; [reflexivity|].
  cbn [find_default_in_classes map concat]. rewrite find_default_app.
  unfold bind, declared_list.
  destruct (parameters_default (classes w) c) as [[l|d]|]; [|exact IH|exact IH].
  pose proof (find_default_world x l w) as Hw.
  destruct (find_default x l w) as [w' [[v|]|e]]; simpl in Hw; subst w'; [reflexivity| |reflexivity].
  exact IH.
Qed.

(** X10: [get_parameter_default] returns the default of the first
    descriptor with the given name on its walk, from the class itself
    through its MRO, each list in declaration order. Whether the
    descriptor is hidden or deprecated, and whether a [HideParameter]
    of a more specific class names it, makes no difference. *)
Theorem get_parameter_default_takes_first_declaration self k x w l1 r o l2 :
  classes w !! instance_class self = Some k ->
  walk (classes w) k = l1 ++ Declared r :: l2 ->
  undeclared (heap w) x l1 = true ->
  heap w !! r = Some o ->
  Parameter_.name o = x ->
  get_parameter_default self x w = (w, Ok (Parameter_.default_value o)).
Proof.
  intros Hk Hwalk Hl1 Ho Hname.
  unfold get_parameter_default, bind, get_class. rewrite Hk.
  rewrite find_default_in_classes_walk. fold (walk (classes w) k). rewrite Hwalk.
  rewrite find_default_app, (find_default_undeclared x l1 w Hl1).
  cbn [find_default]. unfold bind, deref. rewrite Ho, Hname, String.eqb_refl. reflexivity.
Qed.

Lemma get_parameter_default_takes_first_declaration_witness :
  get_parameter_default (Object Derived None None) "label" scenario_world
    = (scenario_world, Ok (VStr "x")).
Proof.
  exact (get_parameter_default_takes_first_declaration (Object Derived None None)
           (Class "Derived" [3; 2; 1; 0]%nat
              (Some (PDList [Declared 2%nat; HideParameter "label"])))
           "label" scenario_world [Declared 2%nat; HideParameter "label"; Declared 0%nat]
           1%nat (Parameter_.Build class_Parameter "label" (VStr "x") cls_str "" false) []
           eq_refl eq_refl eq_refl eq_refl eq_refl).
Defined.

(** X11: when no descriptor on the walk has the given name,
    [get_parameter_default] raises [KeyError] with the message of the
    source, and leaves the world as it was. *)
Theorem get_parameter_default_of_undeclared_name self k x w :
  classes w !! instance_class self = Some k ->
  undeclared (heap w) x (walk (classes w) k) = true ->
  get_parameter_default self x w
    = (w, Raise (Exception KeyError [VStr ("Parameter `" +:+ x +:+ "` is not defined")])).
Proof.
  intros Hk Hun.
  unfold get_parameter_default, bind, get_class. rewrite Hk.
  rewrite find_default_in_classes_walk. fold (walk (classes w) k).
  rewrite (find_default_undeclared x _ w Hun). reflexivity.
Qed.

Lemma get_parameter_default_of_undeclared_name_witness :
  get_parameter_default (Object Derived None None) "colour" scenario_world
    = (scenario_world,
       Raise (Exception KeyError [VStr ("Parameter `" +:+ "colour" +:+ "` is not defined")])).
Proof.
  exact (get_parameter_default_of_undeclared_name (Object Derived None None)
           (Class "Derived" [3; 2; 1; 0]%nat
              (Some (PDList [Declared 2%nat; HideParameter "label"])))
           "colour" scenario_world eq_refl eq_refl).
Defined.

(** ** Defining a class *)

Lemma normalise_dict_run d :
  forall acc w,
  for_each (fun acc args =>
              let* r := new_descriptor class_Parameter (fst args) (snd args)
                          cls_object "" false in
              ret (acc ++ [Declared r])) d acc w
  = (World (heap w ++ map (fun e => Parameter_.Build class_Parameter (fst e) (snd e)
                                      cls_object "" false) d)
       (classes w) (_subclasses w) (warnings w),
     Ok (acc ++ map Declared (seq (length (heap w)) (length d)))).
Proof.
  induction d as [|[n v] d IH]; intros acc w.
  - simpl. rewrite !app_nil_r. destruct w; reflexivity.
  - cbn [for_each]. unfold bind at 1.
    assert (E : new_descriptor class_Parameter (fst (n, v)) (snd (n, v)) cls_object "" false w
                = (World (heap w ++ [Parameter_.Build class_Parameter n v cls_object "" false])
                     (classes w) (_subclasses w) (warnings w ++ []), Ok (length (heap w))))
      by reflexivity.
    unfold bind at 1. rewrite E. unfold ret at 1. rewrite IH. simpl.
    rewrite app_nil_r, <- !app_assoc, length_app. simpl.
    replace (length (heap w) + 1)%nat with (S (length (heap w))) by lia. reflexivity.
Qed.



(** X13: a class statement whose [parameters_default] is a plain dict
    of defaults leaves the class with a list instead: one new
    descriptor per item, in the order of the dict, named by the key,
    with the value as default, of type [object], without description
    and not hidden. No warning is logged. *)
Theorem dict_defaults_become_untyped_descriptors name bases_mro d w :
  class_statement name bases_mro (Some (PDDict d)) w =
  (World
     (heap w ++ map (fun e => Parameter_.Build class_Parameter (fst e) (snd e)
                                cls_object "" false) d)
     (classes w ++
        [Class name (length (classes w) :: bases_mro)
           (Some (PDList (map Declared (seq (length (heap w)) (length d)))))])
     (dict_set name (length (classes w)) (_subclasses w))
     (warnings w),
   Ok (length (classes w))).
Proof.
  unfold class_statement, bind at 1.
  unfold Parameterized.__init_subclass__, bind at 1, get_class. cbn [classes].
  rewrite list_lookup_middle by reflexivity.
  unfold bind at 1.
  assert (Hpd : parameters_default
                  (classes w ++ [Class name (length (classes w) :: bases_mro) (Some (PDDict d))])
                  (length (classes w)) = Some (PDDict d)).
  { unfold parameters_default. rewrite list_lookup_middle by reflexivity. simpl.
    rewrite list_lookup_middle by reflexivity. reflexivity. }
  cbn [classes]. rewrite Hpd. unfold bind at 1. rewrite normalise_dict_run.
  unfold Parameterized.set_parameters_default, Parameterized.register, ret. simpl.
  rewrite alter_app_r_alt by lia. rewrite Nat.sub_diag. reflexivity.
Qed.

(** ** The registry by value and by description *)

Lemma get_parameters_keyed c ih idep srt w w' d :
  Parameterized.get_parameters c ih idep srt w = (w', Ok d) ->
  forall n r, In (n, r) d ->
    exists o, heap w !! r = Some o /\ Parameter_.name o = n /\ inserted idep o = true.
Proof.
  intros Hrun n r Hin.
  destruct (get_parameters_declared _ _ _ _ _ _ _ Hrun) as (k & d0 & Hk & Hmerge & ->).
  assert (Hin0 : In (n, r) d0) by (destruct srt; [apply In_dict_sorted|]; exact Hin).
  destruct (merge_declarations_source _ _ _ _ _ _ _ _ _ Hmerge Hin0)
    as [[]|(_ & o & Ho & Hn & Ha)].
  exists o. auto.
Qed.

(** The dict comprehensions of [get_all_parameters]: one entry per
    resolved name, in order, holding an attribute of its descriptor. *)
Lemma attribute_loop {V} (f : Parameter_.t -> V) d :
  forall acc w,
  List.NoDup (dict_keys d) ->
  (forall x, In x (dict_keys d) -> ~ In x (dict_keys acc)) ->
  (forall n r, In (n, r) d -> exists o, heap w !! r = Some o) ->
  exists vs,
    for_each (fun acc kv => let* o := deref (snd kv) in ret (dict_set (fst kv) (f o) acc))
      d acc w = (w, Ok vs) /\
    dict_keys vs = dict_keys acc ++ dict_keys d /\
    (forall x, ~ In x (dict_keys d) -> dict_get x vs = dict_get x acc) /\
    (forall m r o, In (m, r) d -> heap w !! r = Some o -> dict_get m vs = Some (f o)).
Proof.
  induction d as [|[n0 r0] d IH]; intros acc w Hnd Hfresh Halloc.
  - exists acc. simpl. rewrite app_nil_r. repeat split; auto. intros m r o [].
  - inversion Hnd as [|? ? Hnin Hnd']; subst.
    destruct (Halloc n0 r0 (or_introl eq_refl)) as [o0 Ho0].
    assert (Hk : ~ In n0 (dict_keys acc)) by (apply Hfresh; left; reflexivity).
    destruct (IH (dict_set n0 (f o0) acc) w Hnd') as (vs & Hrun & Hkeys & Hother & Hval).
    { intros x Hx. rewrite (dict_keys_set_new n0 (f o0) acc Hk). intros Hin.
      apply in_app_or in Hin. destruct Hin as [Hin|[->|[]]].
      - apply (Hfresh x); [right; exact Hx|exact Hin].
      - apply Hnin, Hx. }
    { intros n r Hin. apply (Halloc n r). right. exact Hin. }
    exists vs. split; [|split; [|split]].
    + cbn [for_each]. unfold bind at 1. unfold bind at 1, deref. cbn [fst snd].
      rewrite Ho0. exact Hrun.
    + rewrite Hkeys, (dict_keys_set_new n0 (f o0) acc Hk), <- app_assoc. reflexivity.
    + intros x Hx. rewrite Hother by (intros H; apply Hx; right; exact H).
      apply dict_get_set_ne. intros ->. apply Hx. left. reflexivity.
    + intros m r o [[= -> ->]|Hin] Ho.
      * rewrite Ho in Ho0. injection Ho0 as <-. rewrite Hother by exact Hnin.
        apply dict_get_set_eq.
      * eapply Hval; eassumption.
Qed.

Lemma collect_tables data (P : world -> dict ref -> listing -> Prop) :
  (forall c w d, Parameterized.get_parameters c false false true w = (w, Ok d) ->
     exists t, listing_of data c w = (w, Ok t) /\ P w d t) ->
  forall reg result w,
  forallb (fun e => is_ok (snd (Parameterized.get_parameters (snd e) false false true w))) reg
    = true ->
  exists res,
    for_each (collect data) reg result w = (w, Ok res) /\
    (forall x, ~ In x (dict_keys reg) -> dict_get x res = dict_get x result) /\
    (List.NoDup (dict_keys reg) ->
     forall n c, In (n, c) reg ->
       exists d t, Parameterized.get_parameters c false false true w = (w, Ok d) /\
                   dict_get n res = Some t /\ P w d t).
Proof.
  intros Hlist. induction reg as [|[n0 c0] reg IH]; intros result w Hall.
  - exists result. split; [reflexivity|]. split; [reflexivity|]. intros _ n c [].
  - simpl in Hall. apply andb_true_iff in Hall as [H0 Hall].
    destruct (resolves_by_default c0 w H0) as [d0 Hd0].
    destruct (Hlist c0 w d0 Hd0) as (t0 & Ht0 & HP0).
    destruct (IH (dict_set n0 t0 result) w Hall) as (res & Hrun & Hother & Hin).
    exists res. split; [|split].
    + cbn [for_each]. unfold bind at 1. unfold collect at 1. unfold bind at 1.
      cbn [fst snd]. rewrite Ht0. exact Hrun.
    + intros x Hx. rewrite Hother by (intros H; apply Hx; right; exact H).
      apply dict_get_set_ne. intros ->. apply Hx. left. reflexivity.
    + intros Hnd n c [[= -> ->]|Hi].
      * inversion Hnd as [|? ? Hnin _]; subst. exists d0, t0. split; [exact Hd0|].
        split; [|exact HP0]. rewrite Hother by exact Hnin. apply dict_get_set_eq.
      * inversion Hnd as [|? ? _ Hnd']; subst. apply Hin; assumption.
Qed.

(** X14: when every registered class resolves under the default flags,
    [get_all_parameters('value')] and [get_all_parameters('description')]
    succeed and write nothing. Under the name of every registered class
    they hold a dict with the keys of the class's default listing, in
    its order, and under each key the default value, respectively the
    description, of the resolved descriptor -- the declared default,
    not the converted one. *)
Theorem registry_query_by_value_and_description w :
  List.NoDup (dict_keys (_subclasses w)) ->
  registry_resolves w = true ->
  (exists res,
     get_all_parameters (Some "value") w = (w, Ok res) /\
     forall n c, In (n, c) (_subclasses w) ->
       exists d vs,
         Parameterized.get_parameters c false false true w = (w, Ok d) /\
         dict_get n res = Some (Values vs) /\
         dict_keys vs = dict_keys d /\
         forall m r o, In (m, r) d -> heap w !! r = Some o ->
           dict_get m vs = Some (Parameter_.default_value o)) /\
  (exists res,
     get_all_parameters (Some "description") w = (w, Ok res) /\
     forall n c, In (n, c) (_subclasses w) ->
       exists d vs,
         Parameterized.get_parameters c false false true w = (w, Ok d) /\
         dict_get n res = Some (Descriptions vs) /\
         dict_keys vs = dict_keys d /\
         forall m r o, In (m, r) d -> heap w !! r = Some o ->
           dict_get m vs = Some (Parameter_.description o)).
Proof.
  intros Hnd Hres. split.
  - destruct (collect_tables (Some "value")
                (fun w d t => exists vs, t = Values vs /\ dict_keys vs = dict_keys d /\
                   forall m r o, In (m, r) d -> heap w !! r = Some o ->
                     dict_get m vs = Some (Parameter_.default_value o)))
      with (reg := _subclasses w) (result := @nil (string * listing)) (w := w)
      as (res & Hrun & _ & Hin); [|exact Hres|].
    + intros c w0 d Hd.
      destruct (attribute_loop Parameter_.default_value d [] w0
                  (get_parameters_NoDup _ _ _ _ _ _ _ Hd)) as (vs & Hloop & Hkeys & _ & Hval).
      { intros x _ []. }
      { intros n r Hi. destruct (get_parameters_keyed _ _ _ _ _ _ _ Hd n r Hi) as (o & Ho & _).
        eauto. }
      exists (Values vs). split; [|exists vs; auto].
      unfold listing_of. simpl. unfold bind at 1. rewrite Hd. unfold bind at 1.
      rewrite Hloop. reflexivity.
    + exists res. split; [exact Hrun|]. intros n c Hi.
      destruct (Hin Hnd n c Hi) as (d & t & Hd & Hget & vs & -> & Hkeys & Hval).
      exists d, vs. auto.
  - destruct (collect_tables (Some "description")
                (fun w d t => exists vs, t = Descriptions vs /\ dict_keys vs = dict_keys d /\
                   forall m r o, In (m, r) d -> heap w !! r = Some o ->
                     dict_get m vs = Some (Parameter_.description o)))
      with (reg := _subclasses w) (result := @nil (string * listing)) (w := w)
      as (res & Hrun & _ & Hin); [|exact Hres|].
    + intros c w0 d Hd.
      destruct (attribute_loop Parameter_.description d [] w0
                  (get_parameters_NoDup _ _ _ _ _ _ _ Hd)) as (vs & Hloop & Hkeys & _ & Hval).
      { intros x _ []. }
      { intros n r Hi. destruct (get_parameters_keyed _ _ _ _ _ _ _ Hd n r Hi) as (o & Ho & _).
        eauto. }
      exists (Descriptions vs). split; [|exists vs; auto].
      unfold listing_of. simpl. unfold bind at 1. rewrite Hd. unfold bind at 1.
      rewrite Hloop. reflexivity.
    + exists res. split; [exact Hrun|]. intros n c Hi.
      destruct (Hin Hnd n c Hi) as (d & t & Hd & Hget & vs & -> & Hkeys & Hval).
      exists d, vs. auto.
Qed.

Lemma registry_query_by_value_and_description_witness :
  (exists res,
     get_all_parameters (Some "value") scenario_world = (scenario_world, Ok res) /\
     forall n c, In (n, c) (_subclasses scenario_world) ->
       exists d vs,
         Parameterized.get_parameters c false false true scenario_world
           = (scenario_world, Ok d) /\
         dict_get n res = Some (Values vs) /\
         dict_keys vs = dict_keys d /\
         forall m r o, In (m, r) d -> heap scenario_world !! r = Some o ->
           dict_get m vs = Some (Parameter_.default_value o)) /\
  (exists res,
     get_all_parameters (Some "description") scenario_world = (scenario_world, Ok res) /\
     forall n c, In (n, c) (_subclasses scenario_world) ->
       exists d vs,
         Parameterized.get_parameters c false false true scenario_world
           = (scenario_world, Ok d) /\
         dict_get n res = Some (Descriptions vs) /\
         dict_keys vs = dict_keys d /\
         forall m r o, In (m, r) d -> heap scenario_world !! r = Some o ->
           dict_get m vs = Some (Parameter_.description o)).
Proof.
  refine (registry_query_by_value_and_description scenario_world _ eq_refl).
  constructor; [simpl; intros [H|[]]; discriminate H|].
  constructor; [intros []|constructor].
Defined.

(** ** Showing parameters *)

Lemma get_parameters_include_hidden c idep s1 s2 w w1 d1 :
  Parameterized.get_parameters c false idep s1 w = (w1, Ok d1) ->
  exists w2 d2,
    Parameterized.get_parameters c true idep s2 w = (w2, Ok d2) /\
    forall n r, dict_get n d1 = Some r -> dict_get n d2 = Some r.
Proof.
  unfold Parameterized.get_parameters, bind, get_class.
  destruct (classes w !! c) as [k|]; [|discriminate].
  destruct (for_each (Parameterized.merge_class false idep) (rev (__mro__ k)) [] w)
    as [wa [da|e]] eqn:E; [|discriminate].
  intros [= _ <-].
  destruct (merge_classes_include_hidden idep _ [] [] w w wa da (frame_refl w)
              (fun n r H => H) E) as (w2 & d2 & -> & _ & Hsub).
  eexists _, _. split; [reflexivity|].
  intros n r. destruct s1, s2; rewrite ?dict_get_sorted; apply Hsub.
Qed.

Lemma get_parameters_any_sort c ih idep s1 s2 w w' d :
  Parameterized.get_parameters c ih idep s1 w = (w', Ok d) ->
  exists d', Parameterized.get_parameters c ih idep s2 w = (w', Ok d') /\
             forall n, dict_get n d' = dict_get n d.
Proof.
  unfold Parameterized.get_parameters, bind, get_class.
  destruct (classes w !! c) as [k|]; [|discriminate].
  destruct (for_each (Parameterized.merge_class ih idep) (rev (__mro__ k)) [] w)
    as [wa [da|e]]; [|discriminate].
  intros [= <- <-]. eexists. split; [reflexivity|].
  intros n. destruct s1, s2; rewrite ?dict_get_sorted; reflexivity.
Qed.

(** Resolution under the default flags gives the same in a world that
    differs by [hidden] flags only, and writes nothing there either. *)
Lemma get_parameters_later c idep srt w w1 d :
  frame w w1 ->
  Parameterized.get_parameters c false idep srt w = (w, Ok d) ->
  Parameterized.get_parameters c false idep srt w1 = (w1, Ok d).
Proof.
  intros F Hd.
  pose proof (commutes_get_parameters c false idep srt w1 w (frame_length _ _ F)) as C.
  rewrite (overlay_frame _ _ F), Hd in C. simpl in C.
  rewrite (overlay_frame _ _ F) in C. exact C.
Qed.

Lemma checked_bind_keys c ov idep w w' res :
  Parameterized._parse_parameters c ov true true idep w = (w', Ok res) ->
  exists es,
    Parameterized.get_parameters c true idep true w = (w', Ok es) /\
    dict_keys res = dict_keys es.
Proof.
  intros Hparse.
  destruct (parse_parameters_inv _ _ _ _ _ _ _ _ Hparse) as (es & res2 & ov2 & Hres & Hrun & -> & Hcv).
  rewrite (Hcv eq_refl) in *. exists es. split; [exact Hres|].
  unfold dict_update. simpl.
  rewrite (bind_parameters_keys es _ _ _ _ _ _ Hrun (get_parameters_NoDup _ _ _ _ _ _ _ Hres));
    [reflexivity|].
  intros x _ [].
Qed.

Lemma instantiate_inv c ov w w1 inst :
  instantiate c ov w = (w1, Ok inst) ->
  exists k values,
    classes w !! c = Some k /\
    Parameterized._parse_parameters c ov true true false w = (w1, Ok values) /\
    inst = Object c (Some (class_name k)) (Some values).
Proof.
  unfold instantiate, Parameterized.__init__, bind at 1, get_class.
  destruct (classes w !! c) as [k|]; [|discriminate].
  unfold bind at 1.
  destruct (Parameterized._parse_parameters c ov true true false w) as [w2 [values|e]];
    [|discriminate].
  intros [= <- <-]. exists k, values. auto.
Qed.

Lemma resolved_descriptors (h : list Parameter_.t) (d : dict ref) :
  (forall n r, In (n, r) d -> exists o, h !! r = Some o /\ Parameter_.name o = n) ->
  exists os, Forall2 (fun e o => h !! snd e = Some o /\ Parameter_.name o = fst e) d os.
Proof.
  induction d as [|[n r] d IH]; intros H.
  - exists []. constructor.
  - destruct (H n r (or_introl eq_refl)) as (o & Ho & Hn).
    destruct IH as [os Hos]; [intros; apply H; right; assumption|].
    exists (o :: os). constructor; [split; assumption|exact Hos].
Qed.

Lemma show_entries_defaults description show_hidden (h : list Parameter_.t) (d : dict ref) os :
  Forall2 (fun e o => h !! snd e = Some o /\ Parameter_.name o = fst e) d os ->
  show_entries description show_hidden None h (map snd d) =
    (map (fun o => show_line description o (Parameter_.default_value o))
       (List.filter (visible show_hidden) os), Ok tt).
Proof.
  induction 1 as [|[n r] o d os [Ho _] _ IH]; [reflexivity|].
  cbn [map show_entries List.filter snd]. simpl in Ho. rewrite Ho, IH. unfold visible.
  destruct show_hidden, (Parameter_.hidden o); reflexivity.
Qed.

Lemma show_entries_values description show_hidden values h params :
  (forall r, In r params ->
     exists o, h !! r = Some o /\ dict_get (Parameter_.name o) values <> None) ->
  exists lines,
    show_entries description show_hidden (Some values) h params = (lines, Ok tt).
Proof.
  induction params as [|r params IH]; intros H; [exists []; reflexivity|].
  destruct (H r (or_introl eq_refl)) as (o & Ho & Hv).
  destruct IH as [lines Hl]; [intros; apply H; right; assumption|].
  cbn [show_entries]. rewrite Ho, Hl. unfold shown_value.
  destruct (negb show_hidden && Parameter_.hidden o); [eauto|].
  destruct (dict_get (Parameter_.name o) values); [eauto|contradiction].
Qed.

Lemma show_entries_missing description show_hidden values h params r o :
  In r params -> h !! r = Some o -> visible show_hidden o = true ->
  dict_get (Parameter_.name o) values = None ->
  is_ok (snd (show_entries description show_hidden (Some values) h params)) = false.
Proof.
  intros Hin Ho Hvis Hv. induction params as [|r0 params IH]; [destruct Hin|].
  cbn [show_entries]. destruct (h !! r0) as [o0|] eqn:Ho0; [|reflexivity].
  destruct Hin as [->|Hin].
  - rewrite Ho in Ho0. injection Ho0 as <-.
    replace (negb show_hidden && Parameter_.hidden o) with false
      by (unfold visible in Hvis; destruct show_hidden, (Parameter_.hidden o);
          simpl in *; congruence).
    unfold shown_value. rewrite Hv. reflexivity.
  - specialize (IH Hin).
    destruct (negb show_hidden && Parameter_.hidden o0); [exact IH|].
    destruct (shown_value (Some values) o0); [|reflexivity].
    destruct (show_entries description show_hidden (Some values) h params). exact IH.
Qed.

(** X15: called on a class that resolves without [include_hidden],
    [show_parameters] writes nothing to the world, raises nothing and
    prints one line per resolved descriptor that is visible, in the
    order of the mapping, with the declared default as value. A
    parameter removed by a [HideParameter] is not in that mapping, so
    [show_hidden] brings back only descriptors whose own [hidden] flag
    is set. *)
Theorem class_show_prints_visible_defaults c description srt show_hidden show_deprecated w w' d :
  Parameterized.get_parameters c false show_deprecated srt w = (w', Ok d) ->
  w' = w /\
  exists os,
    Forall2 (fun e o => heap w !! snd e = Some o /\ Parameter_.name o = fst e) d os /\
    show_parameters c description srt show_hidden show_deprecated w =
      (w, (map (fun o => show_line description o (Parameter_.default_value o))
             (List.filter (visible show_hidden) os), Ok tt)).
Proof.
  intros Hd. pose proof (get_parameters_pure c show_deprecated srt w) as P.
  rewrite Hd in P. simpl in P. subst w'. split; [reflexivity|].
  destruct (resolved_descriptors (heap w) d) as [os Hos].
  { intros n r Hin. destruct (get_parameters_keyed _ _ _ _ _ _ _ Hd n r Hin) as (o & Ho & Hn & _).
    eauto. }
  exists os. split; [exact Hos|].
  unfold show_parameters, _show_parameters. rewrite Hd.
  rewrite (show_entries_defaults description show_hidden (heap w) d os Hos). reflexivity.
Qed.

Lemma class_show_prints_visible_defaults_witness :
  scenario_world = scenario_world /\
  exists os,
    Forall2 (fun e o => heap scenario_world !! snd e = Some o /\ Parameter_.name o = fst e)
      [("size", 0%nat); ("label", 1%nat)] os /\
    show_parameters Base true false false false scenario_world =
      (scenario_world,
       (map (fun o => show_line true o (Parameter_.default_value o))
          (List.filter (visible false) os), Ok tt)).
Proof.
  exact (class_show_prints_visible_defaults Base true false false false scenario_world
           scenario_world [("size", 0%nat); ("label", 1%nat)] eq_refl).
Defined.

Lemma class_show_defaults_run c description srt show_hidden show_deprecated w d :
  Parameterized.get_parameters c false show_deprecated srt w = (w, Ok d) ->
  exists lines,
    _show_parameters c description srt show_hidden show_deprecated None w = (w, (lines, Ok tt)).
Proof.
  intros Hd. destruct (resolved_descriptors (heap w) d) as [os Hos].
  { intros n r Hin. destruct (get_parameters_keyed _ _ _ _ _ _ _ Hd n r Hin) as (o & Ho & Hn & _).
    eauto. }
  unfold _show_parameters. rewrite Hd.
  rewrite (show_entries_defaults description show_hidden (heap w) d os Hos). eauto.
Qed.

(** X16: an instance that the constructor has built can be shown with
    its values, provided its class resolves under the default flags:
    [show_parameters] on the instance, without [show_deprecated],
    raises nothing and writes nothing, whatever the other flags. (The
    listing shown is resolved without [include_hidden], the values were
    bound with it: every name of the former has a value.) *)
Theorem constructed_instance_can_be_shown
    c ov w w1 self description srt show_hidden default_value :
  instantiate c ov w = (w1, Ok self) ->
  is_ok (snd (Parameterized.get_parameters c false false true w)) = true ->
  exists lines,
    show_parameters_instancemethod self description srt show_hidden false default_value w1
      = (w1, (lines, Ok tt)).
Proof.
  intros Hinst Hres.
  destruct (instantiate_inv _ _ _ _ _ Hinst) as (k & values & Hk & Hparse & ->).
  destruct (checked_bind_keys _ _ _ _ _ _ Hparse) as (es & Hes & Hkeys).
  pose proof (get_parameters_frame c true false true w) as F. rewrite Hes in F. simpl in F.
  destruct (resolves_by_default c w Hres) as [dt Hdt].
  destruct (get_parameters_any_sort c false false true srt w w dt Hdt) as (d & Hd & _).
  pose proof (get_parameters_later c false srt w w1 d F Hd) as Hd1.
  unfold show_parameters_instancemethod. cbn [instance_class parameters].
  destruct default_value.
  - destruct (class_show_defaults_run c description srt show_hidden false w1 d Hd1)
      as (lines & Hl). exists lines. exact Hl.
  - unfold _show_parameters. rewrite Hd1.
    destruct (show_entries_values description show_hidden values (heap w1) (map snd d))
      as [lines Hl]; [|exists lines; rewrite Hl; reflexivity].
    intros r Hin. apply in_map_iff in Hin as ([n r'] & <- & Hin). simpl.
    destruct (get_parameters_keyed _ _ _ _ _ _ _ Hd1 n r' Hin) as (o & Ho & Hn & _).
    exists o. split; [exact Ho|]. rewrite Hn.
    destruct (get_parameters_include_hidden c false srt true w w d Hd) as (w2 & d2 & Hd2 & Hsub).
    rewrite Hes in Hd2. injection Hd2 as _ <-.
    pose proof (NoDup_In_dict_get n r' d (get_parameters_NoDup _ _ _ _ _ _ _ Hd) Hin) as Hget.
    apply Hsub in Hget. intros Hnone. apply dict_get_None_keys in Hnone. apply Hnone.
    rewrite Hkeys. apply dict_get_In in Hget. unfold dict_keys. apply in_map_iff.
    exists (n, r'). auto.
Qed.

Lemma constructed_instance_can_be_shown_witness :
  exists lines,
    show_parameters_instancemethod
      (Object Derived (Some "Derived") (Some [("label", VStr "x"); ("size", VInt 5)]))
      true false false false false
      (fst (instantiate Derived (Some [("size", VInt 5)]) scenario_world))
    = (fst (instantiate Derived (Some [("size", VInt 5)]) scenario_world), (lines, Ok tt)).
Proof.
  exact (constructed_instance_can_be_shown Derived (Some [("size", VInt 5)]) scenario_world
           (fst (instantiate Derived (Some [("size", VInt 5)]) scenario_world))
           (Object Derived (Some "Derived") (Some [("label", VStr "x"); ("size", VInt 5)]))
           true false false false eq_refl eq_refl).
Defined.

(** X17: shown with its values, an instance needs a value under every
    name that is listed and visible: when the listing to show binds a
    name to a visible descriptor and the instance's [parameters] has no
    entry under that name, [show_parameters] on the instance raises. *)
Theorem instance_show_needs_a_value_for_every_name
    self values description srt show_hidden show_deprecated w w' d n r o :
  parameters self = Some values ->
  Parameterized.get_parameters (instance_class self) false show_deprecated srt w = (w', Ok d) ->
  In (n, r) d ->
  heap w !! r = Some o ->
  visible show_hidden o = true ->
  dict_get n values = None ->
  is_ok (snd (snd (show_parameters_instancemethod self description srt show_hidden
                     show_deprecated false w))) = false.
Proof.
  intros Hv Hd Hin Ho Hvis Hnone.
  pose proof (get_parameters_pure (instance_class self) show_deprecated srt w) as P.
  rewrite Hd in P. simpl in P. subst w'.
  destruct (get_parameters_keyed _ _ _ _ _ _ _ Hd n r Hin) as (o' & Ho' & Hn & _).
  rewrite Ho in Ho'. injection Ho' as <-.
  unfold show_parameters_instancemethod. rewrite Hv. unfold _show_parameters. rewrite Hd.
  cbn [snd]. apply (show_entries_missing _ _ _ _ _ r o); [|exact Ho|exact Hvis|].
  - apply in_map_iff. exists (n, r). auto.
  - rewrite Hn. exact Hnone.
Qed.

Lemma instance_show_needs_a_value_for_every_name_witness :
  is_ok (snd (snd (show_parameters_instancemethod
                     (Object class_Flagged (Some "Flagged") (Some [("h", VInt 1)]))
                     false false false true false flagged_world))) = false.
Proof.
  exact (instance_show_needs_a_value_for_every_name
           (Object class_Flagged (Some "Flagged") (Some [("h", VInt 1)])) [("h", VInt 1)]
           false false false true flagged_world flagged_world
           [("h", 0%nat); ("z", 1%nat)]
           "z" 1%nat
           (Parameter_.Build class_DeprecatedParameter "z" (VInt 2) cls_int "" false)
           eq_refl eq_refl (or_intror (or_introl eq_refl)) eq_refl eq_refl eq_refl).
Defined.

Lemma deprecated_name_unresolved c k ih srt w w' d z :
  classes w !! c = Some k ->
  deprecated_where_named (heap w) z (chain (classes w) k) = true ->
  Parameterized.get_parameters c ih false srt w = (w', Ok d) ->
  ~ In z (dict_keys d).
Proof.
  intros Hk Hdep Hd Hin. apply in_map_iff in Hin as ([n r] & Hn & Hin). simpl in Hn. subst n.
  destruct (get_parameters_declared _ _ _ _ _ _ _ Hd) as (k' & d0 & Hk' & Hmerge & ->).
  rewrite Hk in Hk'. injection Hk' as <-.
  assert (Hin0 : In (z, r) d0) by (destruct srt; [apply In_dict_sorted|]; exact Hin).
  destruct (merge_declarations_source _ _ _ _ _ _ _ _ _ Hmerge Hin0)
    as [[]|(Hl & o & Ho & Hn & Ha)].
  unfold deprecated_where_named in Hdep. rewrite forallb_forall in Hdep.
  specialize (Hdep _ Hl). simpl in Hdep. rewrite Ho, Hn, String.eqb_refl in Hdep.
  unfold inserted in Ha. simpl in *. rewrite Hdep in Ha. discriminate.
Qed.

(** X18: on an instance that the constructor has built,
    [show_parameters] with [show_deprecated] and the instance's values
    raises as soon as the listing shows a visible parameter whose name
    is declared by deprecated descriptors only: the constructor binds
    without the deprecated parameters, so the instance holds no value
    under that name. *)
Theorem constructed_instance_show_deprecated_raises
    c ov w w1 self k z r o w2 d description srt show_hidden :
  instantiate c ov w = (w1, Ok self) ->
  classes w !! c = Some k ->
  deprecated_where_named (heap w) z (chain (classes w) k) = true ->
  Parameterized.get_parameters c false true srt w1 = (w2, Ok d) ->
  In (z, r) d ->
  heap w1 !! r = Some o ->
  visible show_hidden o = true ->
  is_ok (snd (snd (show_parameters_instancemethod self description srt show_hidden
                     true false w1))) = false.
Proof.
  intros Hinst Hk Hdep Hd Hin Ho Hvis.
  destruct (instantiate_inv _ _ _ _ _ Hinst) as (k' & values & _ & Hparse & ->).
  destruct (checked_bind_keys _ _ _ _ _ _ Hparse) as (es & Hes & Hkeys).
  pose proof (deprecated_name_unresolved c k true true w w1 es z Hk Hdep Hes) as Habs.
  rewrite <- Hkeys in Habs. apply dict_get_None_keys in Habs.
  pose proof (get_parameters_pure c true srt w1) as P.
  rewrite Hd in P. simpl in P. subst w2.
  destruct (get_parameters_keyed _ _ _ _ _ _ _ Hd z r Hin) as (o' & Ho' & Hn & _).
  rewrite Ho in Ho'. injection Ho' as <-.
  unfold show_parameters_instancemethod. cbn [parameters instance_class].
  unfold _show_parameters. rewrite Hd.
  cbn [snd]. apply (show_entries_missing _ _ _ _ _ r o); [|exact Ho|exact Hvis|].
  - apply in_map_iff. exists (z, r). auto.
  - rewrite Hn. exact Habs.
Qed.

Lemma constructed_instance_show_deprecated_raises_witness :
  is_ok (snd (snd (show_parameters_instancemethod
                     (Object class_Flagged (Some "Flagged") (Some [("h", VInt 1)]))
                     false false false true false
                     (fst (instantiate class_Flagged None flagged_world))))) = false.
Proof.
  exact (constructed_instance_show_deprecated_raises class_Flagged None flagged_world
           (fst (instantiate class_Flagged None flagged_world))
           (Object class_Flagged (Some "Flagged") (Some [("h", VInt 1)]))
           (Class "Flagged" [2; 1; 0]%nat (Some (PDList [Declared 0%nat; Declared 1%nat])))
           "z" 1%nat
           (Parameter_.Build class_DeprecatedParameter "z" (VInt 2) cls_int "" false)
           (fst (instantiate class_Flagged None flagged_world))
           [("h", 0%nat); ("z", 1%nat)]
           false false false
           eq_refl eq_refl eq_refl eq_refl (or_intror (or_introl eq_refl)) eq_refl eq_refl).
Defined.

(** [Heir] can be instantiated, since the constructor resolves with
    [include_hidden]; but neither the class nor the instance can be
    shown, since showing resolves without it. *)
Example heir_is_built_but_not_shown :
  snd (instantiate class_Heir None heir_world) =
    Ok (Object class_Heir (Some "Heir") (Some [("label", VStr "x"); ("size", VInt 20)])) /\
  snd (show_parameters class_Heir false false false false heir_world) =
    ([], Raise (Exception KeyError [VStr "label"])) /\
  snd (show_parameters_instancemethod
         (Object class_Heir (Some "Heir") (Some [("label", VStr "x"); ("size", VInt 20)]))
         false false false false false (fst (instantiate class_Heir None heir_world))) =
    ([], Raise (Exception KeyError [VStr "label"])).
Proof. repeat split. Qed.

(** ** Names that are supplied but not resolved *)

Lemma leftover_cons k names ov : leftover (k :: names) ov = leftover names (dict_remove k ov).
Proof.
  unfold leftover. induction ov as [|[k' v] ov IH]; [reflexivity|].
  cbn [List.filter dict_remove].
  change (existsb (String.eqb (fst (k', v))) (k :: names))
    with (String.eqb k' k || existsb (String.eqb k') names).
  destruct (String.eqb k' k); cbn [orb negb]; [exact IH|].
  cbn [List.filter fst]. rewrite IH. reflexivity.
Qed.

Lemma dict_pop_remove k (ov : dict pyvalue) : snd (dict_pop k VNone ov) = dict_remove k ov.
Proof.
  unfold dict_pop. destruct (dict_get k ov) eqn:G; simpl; [reflexivity|].
  symmetry. apply dict_remove_absent, G.
Qed.

Lemma bind_parameters_leftover es :
  forall res ov w w' res' ov',
  for_each (Parameterized.bind_parameter true) es (res, ov) w = (w', Ok (res', ov')) ->
  ov' = leftover (dict_keys es) ov.
Proof.
  induction es as [|[k r0] es IH]; intros res ov w w' res' ov'.
  - intros [= _ _ <-]. unfold leftover. simpl. induction ov as [|e ov IHov]; [reflexivity|].
    simpl. f_equal. exact IHov.
  - cbn [for_each]. unfold bind. intros Hrun.
    destruct (heap w !! r0) as [o0|] eqn:Ho0.
    2:{ rewrite (bind_parameter_dangling true _ k r0 w Ho0) in Hrun. discriminate. }
    rewrite (bind_parameter_eq true res ov k r0 o0 w Ho0) in Hrun. simpl in Hrun.
    destruct (Parameter_.convert o0 _) as [v|e]; [|discriminate].
    rewrite (IH _ _ _ _ _ _ Hrun), dict_pop_remove.
    change (dict_keys ((k, r0) :: es)) with (k :: dict_keys es).
    symmetry. apply leftover_cons.
Qed.

(** X19: a bind that allows hidden parameters and succeeds without the
    validity check raises, with the check, exactly when a supplied name
    is not a resolved one: the exception is the [ValueError] whose
    message lists, sorted, the supplied names that are not resolved,
    and names the class. Without such a name both binds agree. *)
Theorem checked_bind_reports_unresolved_names c k ov idep w w' res :
  classes w !! c = Some k ->
  Parameterized._parse_parameters c (Some ov) false true idep w = (w', Ok res) ->
  exists es,
    Parameterized.get_parameters c true idep true w = (w', Ok es) /\
    Parameterized._parse_parameters c (Some ov) true true idep w =
      match leftover (dict_keys es) ov with
      | [] => (w', Ok res)
      | _ :: _ => (w', Raise (Parameterized.unknown_parameters (leftover (dict_keys es) ov) (class_name k)))
      end.
Proof.
  intros Hk Hparse.
  destruct (parse_parameters_inv _ _ _ _ _ _ _ _ Hparse) as (es & res2 & ov2 & Hres & Hrun & -> & _).
  exists es. split; [exact Hres|].
  pose proof (bind_parameters_leftover es _ _ _ _ _ _ Hrun) as Hleft.
  unfold Parameterized._parse_parameters, bind. rewrite Hres, Hrun. cbn [snd fst].
  rewrite <- Hleft. destruct ov2 as [|e2 ov2]; [reflexivity|].
  unfold get_class, raise.
  assert (Hc : classes w' = classes w).
  { pose proof (get_parameters_frame c true idep true w) as F. rewrite Hres in F.
    destruct F as (Hc & _). exact Hc. }
  rewrite Hc, Hk. reflexivity.
Qed.

Lemma checked_bind_reports_unresolved_names_witness :
  exists es,
    Parameterized.get_parameters Derived true false true scenario_world
      = (fst (Parameterized._parse_parameters Derived
                (Some [("size", VInt 5); ("colour", VStr "red")]) false true false
                scenario_world), Ok es) /\
    Parameterized._parse_parameters Derived (Some [("size", VInt 5); ("colour", VStr "red")])
      true true false scenario_world =
      match leftover (dict_keys es) [("size", VInt 5); ("colour", VStr "red")] with
      | [] => (fst (Parameterized._parse_parameters Derived
                      (Some [("size", VInt 5); ("colour", VStr "red")]) false true false
                      scenario_world),
               Ok [("label", VStr "x"); ("size", VInt 5); ("colour", VStr "red")])
      | _ :: _ =>
          (fst (Parameterized._parse_parameters Derived
                  (Some [("size", VInt 5); ("colour", VStr "red")]) false true false
                  scenario_world),
           Raise (Parameterized.unknown_parameters
                    (leftover (dict_keys es) [("size", VInt 5); ("colour", VStr "red")])
                    (class_name (Class "Derived" [3; 2; 1; 0]%nat
                                   (Some (PDList [Declared 2%nat; HideParameter "label"]))))))
      end.
Proof.
  exact (checked_bind_reports_unresolved_names Derived
           (Class "Derived" [3; 2; 1; 0]%nat
              (Some (PDList [Declared 2%nat; HideParameter "label"])))
           [("size", VInt 5); ("colour", VStr "red")] false scenario_world _
           [("label", VStr "x"); ("size", VInt 5); ("colour", VStr "red")] eq_refl eq_refl).
Defined.

(** ** What binding and construction write *)

Lemma parse_parameters_world c ov cv ah idep w :
  fst (Parameterized._parse_parameters c ov cv ah idep w) =
  fst (Parameterized.get_parameters c ah idep true w).
Proof.
  unfold Parameterized._parse_parameters, bind.
  destruct (Parameterized.get_parameters c ah idep true w) as [w1 [es|e]]; [|reflexivity].
  pose proof (bind_parameters_world ah es ([], match ov with None => [] | Some d => d end) w1)
    as Hw.
  destruct (for_each (Parameterized.bind_parameter ah) es _ w1) as [w2 [[res2 ov2]|e]];
    simpl in Hw; subst w2; [|reflexivity].
  simpl. destruct ov2 as [|e2 ov2]; [reflexivity|]. destruct cv; [|reflexivity].
  unfold get_class, raise. destruct (classes w1 !! c); reflexivity.
Qed.

(** X20: whatever their arguments and however they end, a bind and the
    constructor change nothing in the world but [hidden] flags of
    descriptors, which they may set: they log no warning and leave the
    classes and the registry alone. A bind with [allow_hidden=False]
    writes nothing at all. *)
Theorem binding_writes_hidden_flags_only c ov cv ah idep w :
  frame w (fst (Parameterized._parse_parameters c ov cv ah idep w)) /\
  fst (Parameterized._parse_parameters c ov cv false idep w) = w /\
  frame w (fst (instantiate c ov w)).
Proof.
  split; [|split].
  - rewrite parse_parameters_world. apply get_parameters_frame.
  - rewrite parse_parameters_world. apply get_parameters_pure.
  - unfold instantiate, Parameterized.__init__, bind at 1, get_class.
    destruct (classes w !! c) as [k|]; [|apply frame_refl].
    unfold bind at 1.
    pose proof (parse_parameters_world c ov true true false w) as Hw.
    pose proof (get_parameters_frame c true false true w) as F. rewrite <- Hw in F.
    destruct (Parameterized._parse_parameters c ov true true false w) as [w1 [values|e]];
      exact F.
Qed.
